(** * poptimizer: example construction, forecast guards and MOEX data managers

  A shallow embedding of
  - [poptimizer/store/moex.py]  (data managers of the MOEX gateway),
  - [poptimizer/ml/examples.py] (the set of training examples),
  - the forecast guards exercised by [poptimizer/ml/tests/test_forecaster.py],
  followed by the properties established about them. *)

From Stdlib Require Import ZArith QArith Qabs Qround List String Bool Lia.
From Stdlib Require Import Permutation Sorted OrderedTypeEx.
From stdpp Require Import base gmap strings.
Import ListNotations.

Local Open Scope string_scope.
Local Open Scope list_scope.
Local Open Scope Z_scope.

(* ===================================================================== *)
(** * Python run-time conventions shared by the three modules *)
(* ===================================================================== *)

Module Py.

(** Exceptions that the embedded code can raise.  [POptimizerError] is the
    project's own exception class (poptimizer.config); the others are the
    interpreter's. *)
Inductive exn : Type :=
| POptimizerError (msg : string)
| IndexError
| KeyError (key : string)
| AttributeError (name : string)
| TypeError
| ExternalError (msg : string).

Inductive result (A : Type) : Type :=
| Return (a : A)
| Raise (e : exn).
Arguments Return {A} a.
Arguments Raise {A} e.

Definition bind {A B} (r : result A) (k : A -> result B) : result B :=
  match r with
  | Return a => k a
  | Raise e => Raise e
  end.

Definition is_raise {A} (r : result A) : bool :=
  match r with Raise _ => true | Return _ => false end.

(** [seq[i]] for a Python sequence: a negative index counts from the end,
    anything out of range raises [IndexError]. *)
Definition getitem {A} (l : list A) (i : Z) : result A :=
  let n := Z.of_nat (List.length l) in
  let j := if i <? 0 then i + n else i in
  if (0 <=? j) && (j <? n)
  then match nth_error l (Z.to_nat j) with
       | Some x => Return x
       | None => Raise IndexError
       end
  else Raise IndexError.

(** [seq[i:]] for a non-negative literal [i]. *)
Definition slice_from {A} (i : nat) (l : list A) : list A := skipn i l.

(** [zip(a, b)] stops at the shorter argument. *)
Definition zip {A B} (a : list A) (b : list B) : list (A * B) := combine a b.

(** [enumerate(l)] *)
Definition enumerate {A} (l : list A) : list (nat * A) :=
  combine (seq 0 (List.length l)) l.

(** A list comprehension whose body may raise: the first exception wins. *)
Fixpoint mapM {A B} (f : A -> result B) (l : list A) : result (list B) :=
  match l with
  | [] => Return []
  | x :: l' =>
      match f x with
      | Raise e => Raise e
      | Return y =>
          match mapM f l' with
          | Raise e => Raise e
          | Return ys => Return (y :: ys)
          end
      end
  end.

(** [list.sort] and the sorts of pandas used here are stable; a stable
    insertion sort returns the same list.  [lt] is the [<] of the keys. *)
Fixpoint insert_by {A} (lt : A -> A -> bool) (x : A) (l : list A) : list A :=
  match l with
  | [] => [x]
  | y :: l' => if lt y x then y :: insert_by lt x l' else x :: y :: l'
  end.

Definition sort_by {A} (lt : A -> A -> bool) (l : list A) : list A :=
  List.fold_right (insert_by lt) [] l.

End Py.

#[global] Instance result_ret : MRet Py.result := @Py.Return.
#[global] Instance result_bind : MBind Py.result := fun A B k r => Py.bind r k.

(* ===================================================================== *)
(** * poptimizer/store/moex.py *)
(* ===================================================================== *)

Module Moex.
Import Py.

(** Names of the datasets (module-level constants of moex.py). *)
Definition SECURITIES : string := "securities".
Definition LISTING : string := "listing".
Definition INDEX : string := "MCFTRR".
Definition QUOTES : string := "quotes".

(** Values found in the downloaded records. *)
Inductive field : Type :=
| VNone
| VStr (s : string)
| VNum (q : Q)
| VDate (d : Z).

(** A record is a Python dict, kept here in insertion order. *)
Definition record : Type := list (string * field).

(** Requests sent to the outside world; a manager's session log. *)
Inductive request : Type :=
| BoardSecurities (columns : list string)
| ReadCsv (url : string)
| BoardHistory (start : option Z) (security : string)
               (columns : list string) (board market : string).

(** What a manager sees of its surroundings: the storage collection it is
    bound to, the column names of poptimizer.store.utils, the ISS client
    [apimoex], [pd.read_csv] and [manager.data_formatter]. *)
Record env : Type := {
  full_name : string;
  TICKER : string;
  REG_NUMBER : string;
  LOT_SIZE : string;
  DATE : string;
  CLOSE : string;
  get_board_securities : list string -> result (list record);
  read_csv : string -> result (list (string * string * string));
  get_board_history :
    option Z -> string -> list string -> string -> string -> result (list record);
  strptime : string -> string -> field;
  timestamp_date : Z -> Z;
  data_formatter :
    list record -> list (string * (field -> string * field)) -> list record
}.

(** Computations of a manager: they may raise and they extend the log of
    requests. *)
Definition M (A : Type) : Type := list request -> result A * list request.

Definition ret {A} (a : A) : M A := fun log => (Return a, log).
Definition raise {A} (e : exn) : M A := fun log => (Raise e, log).
Definition bindM {A B} (m : M A) (k : A -> M B) : M B :=
  fun log =>
    match m log with
    | (Return a, log') => k a log'
    | (Raise e, log') => (Raise e, log')
    end.
Definition call {A} (rq : request) (answer : result A) : M A :=
  fun log => (answer, log ++ [rq]).

(** The message of the f-string
    [f"Отсутствуют данные {self._mongo.collection.full_name}.{item}"]. *)
Definition missing_data_msg (e : env) (item : string) : string :=
  "Отсутствуют данные " +:+ full_name e +:+ "." +:+ item.

(** [Securities._download] *)
Definition Securities_download (e : env) (item : string) (last_index : option Z)
  : M (list record) :=
  if negb (String.eqb item SECURITIES)
  then raise (POptimizerError (missing_data_msg e item))
  else
    let columns := ["SECID"; "REGNUMBER"; "LOTSIZE"] in
    bindM (call (BoardSecurities columns) (get_board_securities e columns))
      (fun data =>
         let formatters :=
           [("SECID", fun x => (TICKER e, x));
            ("REGNUMBER", fun x => (REG_NUMBER e, x));
            ("LOTSIZE", fun x => (LOT_SIZE e, x))] in
         ret (data_formatter e data formatters)).

(** The converters of [SecuritiesListing._download]: [x if len(x) else None]. *)
Definition none_if_empty (x : string) : field :=
  if (String.length x =? 0)%nat then VNone else VStr x.

Definition URL : string :=
  "https://www.moex.com/ru/listing/securities-list-csv.aspx?type=1".

(** [SecuritiesListing._download] *)
Definition SecuritiesListing_download
    (e : env) (item : string) (last_index : option Z) : M (list record) :=
  if negb (String.eqb item LISTING)
  then raise (POptimizerError (missing_data_msg e item))
  else
    bindM (call (ReadCsv URL) (read_csv e URL))
      (fun df =>
         ret (List.map
                (fun '(code, number, date) =>
                   [(TICKER e, none_if_empty code);
                    (REG_NUMBER e, none_if_empty number);
                    (DATE e, none_if_empty date)])
                df)).

(** [Index._download] *)
Definition Index_download (e : env) (item : string) (last_index : option Z)
  : M (list record) :=
  if negb (String.eqb item INDEX)
  then raise (POptimizerError (missing_data_msg e item))
  else
    let last_index :=
      match last_index with
      | Some t => Some (timestamp_date e t)
      | None => None
      end in
    bindM (call (BoardHistory last_index INDEX ["TRADEDATE"; "CLOSE"] "RTSI" "index")
                (get_board_history e last_index INDEX ["TRADEDATE"; "CLOSE"]
                                   "RTSI" "index"))
      (fun data =>
         let formatters :=
           [("TRADEDATE",
             fun x => (DATE e,
                       match x with
                       | VStr s => strptime e s "%Y-%m-%d"
                       | _ => VNone
                       end));
            ("CLOSE", fun x => (CLOSE e, x))] in
         ret (data_formatter e data formatters)).

(** The three managers that recognise a single item, and their dispatch. *)
Inductive manager : Type := Securities | SecuritiesListing | Index.

Definition recognized_key (m : manager) : string :=
  match m with
  | Securities => SECURITIES
  | SecuritiesListing => LISTING
  | Index => INDEX
  end.

Definition download (m : manager) : env -> string -> option Z -> M (list record) :=
  match m with
  | Securities => Securities_download
  | SecuritiesListing => SecuritiesListing_download
  | Index => Index_download
  end.

(** ** Quotes *)

(** A candle as returned by [apimoex.get_market_candles]; [begin] is the
    text of the candle's opening time, [value] the turnover. *)
Record candle : Type := {
  begin : string;
  open : Q;
  close : Q;
  high : Q;
  low : Q;
  value : Q
}.

(** [a < b] on the sort keys [(x["begin"], -x["value"])], Python's
    lexicographic comparison of tuples: the first components that differ
    decide. *)
Definition key_lt (a b : candle) : bool :=
  if String.eqb (begin a) (begin b)
  then match (- value a ?= - value b)%Q with Lt => true | _ => false end
  else String.ltb (begin a) (begin b).

(** [data.sort(key=lambda x: (x["begin"], -x["value"]))] *)
Definition sort_by_key (l : list candle) : list candle := sort_by key_lt l.

(** One turn of the loop of [_clean_up]:
    [if not data_clean or data_clean[-1]["begin"] != row["begin"]]. *)
Definition clean_step (data_clean : list candle) (row : candle) : list candle :=
  match List.last (List.map Some data_clean) None with
  | None => data_clean ++ [row]
  | Some prev =>
      if negb (String.eqb (begin prev) (begin row))
      then data_clean ++ [row]
      else data_clean
  end.

(** [Quotes._clean_up] *)
Definition _clean_up (data : list candle) : list candle :=
  let data := sort_by_key data in
  List.fold_left clean_step data [].

End Moex.

(* ===================================================================== *)
(** * poptimizer/ml/examples.py *)
(* ===================================================================== *)

Module Examples.
Import Py.

(** [TRAIN_VAL_SPLIT = 0.9] *)
Definition TRAIN_VAL_SPLIT : Q := 9 # 10.

(** [int(n * TRAIN_VAL_SPLIT)] for a length [n].  The product is never
    negative, so [int] is the floor; and the floor of the double product
    is the floor of [9 n / 10] for every length a table can have (the
    rounding of the product never crosses an integer), so the ratio is
    kept exact. *)
Definition split_position (n : nat) : Z :=
  Qfloor (inject_Z (Z.of_nat n) * TRAIN_VAL_SPLIT).

(** ** Parameter dictionaries and the object store *)

(** Values of a feature's parameters ([{"days": 20, "div_share": 0.0}]). *)
Inductive pval : Type :=
| PInt (z : Z)
| PFloat (q : Q).

(** Dictionaries are mutable objects: a parameter list holds references
    to them, and the store maps a reference to the current content. *)
Abbreviation dict := (gmap string pval).
Abbreviation loc := positive.
Abbreviation heap := (gmap positive (gmap string pval)).

Definition deref (h : heap) (l : loc) : dict := h !!! l.

(** [copy.deepcopy(d)] of a dictionary of immutable values: a new object
    with the same items. *)
Definition deepcopy (h : heap) (l : loc) : heap * loc :=
  let l' := fresh (dom h) in
  (<[l' := deref h l]> h, l').

(** [d[k] = v] *)
Definition setitem (h : heap) (l : loc) (k : string) (v : pval) : heap :=
  <[l := <[k := v]> (deref h l)]> h.

(** [d[k]] *)
Definition dict_getitem (d : dict) (k : string) : result pval :=
  match d !! k with
  | Some v => Return v
  | None => Raise (KeyError k)
  end.

(** A parameter list: a tuple of [(class name, parameters)]. *)
Abbreviation params_t := (list (string * positive)).

(** [params or self._params] *)
Definition py_or (params : option params_t) (default : params_t) : params_t :=
  match params with
  | None | Some [] => default
  | Some p => p
  end.

(** ** Tables *)

(** A cell of a table: a missing value, a number, or a category. *)
Inductive cell : Type :=
| NaN
| Num (q : Q)
| Cat (s : string).

(** Rows are indexed by (date, ticker). *)
Definition key : Type := Z * string.

Definition key_eqb (a b : key) : bool :=
  (fst a =? fst b) && String.eqb (snd a) (snd b).

Definition key_ltb (a b : key) : bool :=
  if fst a =? fst b then String.ltb (snd a) (snd b) else fst a <? fst b.

Record frame : Type := {
  columns : list string;
  rows : list (key * list cell)
}.

Definition index (f : frame) : list key := List.map fst (rows f).

Definition is_nan (c : cell) : bool :=
  match c with NaN => true | _ => false end.

(** [df.dropna(axis=0)]: the rows without a missing value. *)
Definition dropna (f : frame) : frame :=
  {| columns := columns f;
     rows := List.filter (fun r => negb (existsb is_nan (snd r))) (rows f) |}.

(** [df[mask]] and [df.loc[mask]] for a mask computed from the dates. *)
Definition select (p : Z -> bool) (f : frame) : frame :=
  {| columns := columns f;
     rows := List.filter (fun r => p (fst (fst r))) (rows f) |}.

(** [df.index.get_level_values(0)] *)
Definition get_level_values0 (f : frame) : list Z :=
  List.map (fun r => fst (fst r)) (rows f).

(** [Index.unique()]: the distinct values in order of first appearance. *)
Fixpoint unique (l : list Z) : list Z :=
  match l with
  | [] => []
  | x :: l' => x :: List.filter (fun y => negb (y =? x)) (unique l')
  end.

(** [df.iloc[:, i:]] *)
Definition iloc_from (i : nat) (f : frame) : frame :=
  {| columns := skipn i (columns f);
     rows := List.map (fun r => (fst r, skipn i (snd r))) (rows f) |}.

(** [df.iloc[:, i]]; out of bounds raises. *)
Definition iloc_col (i : nat) (f : frame) : result (list (key * cell)) :=
  if (i <? List.length (columns f))%nat
  then Return (List.map (fun r => (fst r, nth i (snd r) NaN)) (rows f))
  else Raise IndexError.

(** Row of a table for a key of the joint index, padded with missing
    values when the table has no such row. *)
Definition row_at (k : key) (f : frame) : list cell :=
  match List.find (fun r => key_eqb (fst r) k) (rows f) with
  | Some r => snd r
  | None => repeat NaN (List.length (columns f))
  end.

Fixpoint nodup_keys (l : list key) : list key :=
  match l with
  | [] => []
  | k :: l' => k :: List.filter (fun k' => negb (key_eqb k' k)) (nodup_keys l')
  end.

Definition same_index (a b : list key) : bool :=
  (List.length a =? List.length b)%nat
  && forallb (fun p => key_eqb (fst p) (snd p)) (combine a b).

(** The index of an outer join: the common index when all tables share
    it, their sorted union otherwise. *)
Definition union_index (fs : list frame) : list key :=
  match fs with
  | [] => []
  | f :: fs' =>
      if forallb (fun g => same_index (index f) (index g)) fs'
      then index f
      else sort_by key_ltb (nodup_keys (List.concat (List.map index fs)))
  end.

(** [pd.concat(data, axis=1)]: the tables side by side, outer-joined on
    the index. *)
Definition concat_axis1 (fs : list frame) : frame :=
  {| columns := List.concat (List.map columns fs);
     rows := List.map
               (fun k => (k, List.concat (List.map (row_at k) fs)))
               (union_index fs) |}.

(** ** Features *)

(** What a class of [poptimizer.ml.feature] provides.  The module itself
    is outside this file; its classes are taken as given. *)
Record feature_class : Type := {
  fc_col_names : list string -> Z -> dict -> list string;
  fc_get : list string -> Z -> dict -> frame;
  fc_is_categorical : dict -> list bool
}.

(** An instance [cls(tickers, date, params)]. *)
Record feature_obj : Type := {
  name : string;
  cls : feature_class;
  f_tickers : list string;
  f_date : Z;
  f_params : loc;
  col_names : list string
}.

(** [feat.get(params)] and [feat.is_categorical(params)] *)
Definition get (h : heap) (feat : feature_obj) (params : loc) : frame :=
  fc_get (cls feat) (f_tickers feat) (f_date feat) (deref h params).

Definition is_categorical (h : heap) (feat : feature_obj) (params : loc)
  : list bool :=
  fc_is_categorical (cls feat) (deref h params).

(** ** The class [Examples] *)

Record t : Type := {
  _tickers : list string;
  _date : Z;
  _params : params_t;
  _test_labels_params : loc;
  _features : list feature_obj
}.

(** The bundle of keyword arguments for [catboost.Pool]. *)
Inductive weight : Type :=
| WNaN
| WInf
| WNum (q : Q).

Record pool : Type := {
  data : frame;
  label : option (list (key * cell));
  pool_weight : list (key * weight);
  cat_features : list nat;
  feature_names : list string
}.

(** [1 / x ** 2] on one cell of a numeric column. *)
Definition inv_square (c : cell) : result weight :=
  match c with
  | NaN => Return WNaN
  | Num q => if Qeq_bool q 0 then Return WInf else Return (WNum (/ (q * q)))
  | Cat _ => Raise TypeError
  end.

Definition inv_square_col (col : list (key * cell)) : result (list (key * weight)) :=
  mapM (fun kc => w ← inv_square (snd kc); Return (fst kc, w)) col.

Section WithFeatureModule.

(** [getattr(feature, cls_name)] *)
Variable feature : string -> option feature_class.

(** [getattr(feature, cls_name)(tickers, date, params)] *)
Definition new_feature (h : heap) (cls_name : string) (tickers : list string)
    (date : Z) (params : loc) : result feature_obj :=
  match feature cls_name with
  | None => Raise (AttributeError cls_name)
  | Some c =>
      Return {| name := cls_name; cls := c; f_tickers := tickers;
                f_date := date; f_params := params;
                col_names := fc_col_names c tickers date (deref h params) |}
  end.

(** [Examples.__init__] *)
Definition __init__ (h : heap) (tickers : list string) (date : Z)
    (params : params_t) : result (t * heap) :=
  p0 ← getitem params 0;
  let '(h1, test_labels_params) := deepcopy h (snd p0) in
  let h2 := setitem h1 test_labels_params "days" (PInt 1) in
  f0 ← new_feature h2 (fst p0) tickers date test_labels_params;
  fs ← mapM (fun p => new_feature h2 (fst p) tickers date (snd p)) params;
  Return ({| _tickers := tickers; _date := date; _params := params;
             _test_labels_params := test_labels_params;
             _features := [f0] ++ fs |}, h2).

End WithFeatureModule.

(** [Examples.get_features_names] *)
Definition get_features_names (self : t) : list string :=
  List.fold_left (fun rez feat => rez ++ col_names feat)
                 (slice_from 2 (_features self)) [].

(** [Examples.categorical_features] *)
Definition categorical_features (h : heap) (self : t) (params : option params_t)
  : list nat :=
  let params := py_or params (_params self) in
  let cat_flag :=
    List.fold_left
      (fun acc fp => acc ++ is_categorical h (fst fp) (snd (snd fp)))
      (zip (slice_from 2 (_features self)) (slice_from 1 params)) [] in
  List.map fst (List.filter snd (enumerate cat_flag)).

(** [Examples.get_all] *)
Definition get_all (h : heap) (self : t) (params : params_t) : result frame :=
  f0 ← getitem (_features self) 0;
  let data :=
    [get h f0 (_test_labels_params self)]
    ++ List.map (fun fp => get h (fst fp) (snd (snd fp)))
                (zip (slice_from 1 (_features self)) params) in
  Return (concat_axis1 data).

(** The keyword arguments built twice in each of the two methods below. *)
Definition pool_params (h : heap) (self : t) (params : option params_t)
    (df part : frame) (with_label : bool) : result pool :=
  lbl ← (if with_label
         then (c ← iloc_col 1 part; Return (Some c))
         else Return None);
  sc ← iloc_col 2 part;
  w ← inv_square_col sc;
  Return {| data := iloc_from 2 part;
            label := lbl;
            pool_weight := w;
            cat_features := categorical_features h self params;
            feature_names := skipn 2 (columns df) |}.

(** [params[0][1]["days"]] used as an index. *)
Definition label_days_of (h : heap) (params : params_t) : result Z :=
  p0 ← getitem params 0;
  v ← dict_getitem (deref h (snd p0)) "days";
  match v with
  | PInt z => Return z
  | PFloat _ => Raise TypeError
  end.

(** [Examples.train_val_pool_params] *)
Definition train_val_pool_params (h : heap) (self : t) (params : option params_t)
  : result (pool * pool) :=
  let params' := py_or params (_params self) in
  all ← get_all h self params';
  let df := dropna all in
  let dates := get_level_values0 df in
  val_start ← getitem dates (split_position (List.length dates));
  let df_val := select (fun d => val_start <=? d) df in
  label_days ← label_days_of h params';
  train_end ← getitem (unique (List.filter (fun d => d <? val_start) dates))
                      (- label_days);
  let df_train := select (fun d => d <=? train_end) df in
  train_params ← pool_params h self (Some params') df df_train true;
  val_params ← pool_params h self (Some params') df df_val true;
  Return (train_params, val_params).

(** [Examples.train_predict_pool_params] *)
Definition train_predict_pool_params (h : heap) (self : t)
  : result (pool * pool) :=
  df ← get_all h self (_params self);
  let df_predict := select (fun d => d =? _date self) df in
  predict_params ← pool_params h self None df df_predict false;
  let df := dropna df in
  train_params ← pool_params h self None df df true;
  Return (train_params, predict_params).

End Examples.

(* ===================================================================== *)
(** * poptimizer/ml/forecaster.py: the guards of the forecast *)
(* ===================================================================== *)

Module Forecaster.
Import Py.

(** ** Consistency of the covariance with the normalization basis *)

(** The text carried by the error of [validate_cov], as asserted by
    [test_validate_cov_error]. *)
Definition COV_MISMATCH : string :=
  "Расчетная ковариация не совпадает с использовавшейся для нормирования".

(** [np.diag(cov)] *)
Definition diag (cov : list (list Q)) : list Q :=
  List.map (fun ir => nth (fst ir) (snd ir) 0%Q) (enumerate cov).

(** [pool["data"].iloc[:, 0]]: the column the predictions were normalized
    with. *)
Definition basis (p : Examples.pool) : list Examples.cell :=
  List.map (fun r => nth 0 (snd r) Examples.NaN) (Examples.rows (Examples.data p)).

(** One diagonal entry against the square of one basis entry, within the
    relative tolerance [rtol]; a missing basis entry matches nothing. *)
Definition close_to_square (rtol : Q) (a : Q) (c : Examples.cell) : result bool :=
  match c with
  | Examples.Num s => Return (Qle_bool (Qabs (a - s * s)) (rtol * Qabs (s * s)))
  | Examples.NaN => Return false
  | Examples.Cat _ => Raise TypeError
  end.

(** Modelled from the spec: [forecaster.validate_cov]; forecaster.py is
    known here through its tests only.  The diagonal of the
    candidate covariance must equal the squared normalization column
    within a relative tolerance; a mismatch raises the project's error
    with the text [COV_MISMATCH]. *)
Definition validate_cov (rtol : Q) (cov : list (list Q)) (p : Examples.pool)
  : result unit :=
  let d := diag cov in
  let b := basis p in
  if negb (List.length d =? List.length b)%nat
  then Raise (POptimizerError COV_MISMATCH)
  else
    oks ← mapM (fun ac => close_to_square rtol (fst ac) (snd ac)) (combine d b);
    if forallb (fun ok : bool => ok) oks
    then Return tt
    else Raise (POptimizerError COV_MISMATCH).

(** Modelled from the spec: [forecaster.ledoit_wolf_cov].  The shrinkage
    estimator and the rescaling are taken as given ([estimate]); the
    result is validated before it is returned. *)
Definition ledoit_wolf_cov (rtol : Q)
    (estimate : list string -> Z -> Examples.pool -> list (list Q) * Q * Q)
    (tickers : list string) (date : Z) (p : Examples.pool)
  : result (list (list Q) * Q * Q) :=
  let '(cov, average_cor, shrinkage) := estimate tickers date p in
  _ ← validate_cov rtol cov p;
  Return (cov, average_cor, shrinkage).

(** ** The forecast and its cache guard *)

(** Values of the model's hyper-parameters; a float is written as the
    fraction, in lowest terms, of its decimal literal. *)
Inductive mval : Type :=
| MInt (z : Z)
| MFloat (num : Z) (den : positive)
| MTuple (items : list string).

(** The parameter set [{"data": (...), "model": {...}}]: the parameters of
    the features in order, and the dictionary of the model. *)
Record params : Type := {
  p_data : list (string * gmap string mval);
  p_model : gmap string mval
}.

(** Modelled from the spec: the value [Forecast] of
    poptimizer.portfolio.metrics, with the fields the specification lists
    (date, tickers, mean, covariance, diagnostics, parameter set). *)
Record Forecast : Type := {
  date : Z;
  tickers : list string;
  mean : list Q;
  cov : list (list Q);
  feature_importance : list Q;
  r : Q;
  r_rang : Q;
  t_stat : Q;
  average_cor : Q;
  shrinkage : Q;
  forecast_params : params
}.

#[global] Instance mval_eq_dec : EqDecision mval.
Proof. solve_decision. Defined.

#[global] Instance params_eq_dec : EqDecision params.
Proof. solve_decision. Defined.

(** Modelled from the spec: [forecaster.validate_cache]; forecaster.py is
    known here through its tests only.  True exactly when the tuple of
    tickers, the date and the parameter set of the cached forecast equal
    the requested ones. *)
Definition validate_cache (forecast_cache : Forecast)
    (tickers' : list string) (date' : Z) (params' : params) : bool :=
  bool_decide (tickers' = tickers forecast_cache)
  && bool_decide (date' = date forecast_cache)
  && bool_decide (params' = forecast_params forecast_cache).

(** [new_params["model"][k] = v] on a copy of the parameter set. *)
Definition set_model_param (k : string) (v : mval) (p : params) : params :=
  {| p_data := p_data p; p_model := <[k := v]> (p_model p) |}.

(** Modelled from the spec: the tail of [forecaster.get_forecast].  Once
    the examples are built and the model is tuned and applied ([mean_of]),
    the covariance is estimated and validated, and only then is the
    forecast assembled. *)
Definition get_forecast (rtol : Q)
    (estimate : list string -> Z -> Examples.pool -> list (list Q) * Q * Q)
    (mean_of : Examples.pool -> list Q)
    (diagnostics : list Q * Q * Q * Q)
    (tickers' : list string) (date' : Z) (p : Examples.pool) (ps : params)
  : result Forecast :=
  let mean' := mean_of p in
  '(cov', average_cor', shrinkage') ← ledoit_wolf_cov rtol estimate tickers' date' p;
  let '(importance, r', r_rang', t') := diagnostics in
  Return {| date := date'; tickers := tickers'; mean := mean'; cov := cov';
            feature_importance := importance; r := r'; r_rang := r_rang';
            t_stat := t'; average_cor := average_cor'; shrinkage := shrinkage';
            forecast_params := ps |}.

End Forecaster.

(* ===================================================================== *)
(** * poptimizer/store/moex.py: the manager of quotes *)
(* ===================================================================== *)

Module Quotes.
Import Py Moex.

(** Requests of the manager of quotes: the listing table kept by
    [SecuritiesListing], the search of securities by registration number
    and the candles of one ticker between two dates. *)
Inductive request : Type :=
| Listing (db_name : string)
| FindSecurities (reg_number : field)
| MarketCandles (ticker : string) (start until : Z).

(** A row of [apimoex.find_securities]. *)
Record found : Type := {
  secid : string;
  regnumber : field
}.

(** What the manager sees of its surroundings, besides those of the other
    managers ([base]): further column names of poptimizer.store.utils, the
    name of its database, [AbstractManager.LAST_HISTORY_DATE], the listing
    table with its accessor [.at[row, column]], [pd.to_datetime] and the
    two calls of [apimoex]. *)
Record env : Type := {
  base : Moex.env;
  OPEN : string;
  HIGH : string;
  LOW : string;
  TURNOVER : string;
  db_name : string;
  LAST_HISTORY_DATE : Z;
  listing : result (string -> string -> result field);
  to_datetime : field -> string -> result Z;
  find_securities : field -> result (list found);
  get_market_candles : string -> Z -> Z -> result (list candle)
}.

(** Computations of the manager: they may raise and they extend the log
    of requests. *)
Definition M (A : Type) : Type := list request -> result A * list request.

Definition ret {A} (a : A) : M A := fun log => (Return a, log).
Definition raise {A} (e : exn) : M A := fun log => (Raise e, log).
Definition lift {A} (r : result A) : M A := fun log => (r, log).
Definition bindM {A B} (m : M A) (k : A -> M B) : M B :=
  fun log =>
    match m log with
    | (Return a, log') => k a log'
    | (Raise e, log') => (Raise e, log')
    end.
Definition call {A} (rq : request) (answer : result A) : M A :=
  fun log => (answer, log ++ [rq]).

(** [a == b] on the values of a record. *)
Definition field_eqb (a b : field) : bool :=
  match a, b with
  | VNone, VNone => true
  | VStr s, VStr s' => String.eqb s s'
  | VNum q, VNum q' => Qeq_bool q q'
  | VDate d, VDate d' => d =? d'
  | _, _ => false
  end.

(** The message of the f-string
    [f"{ticker} - акция без регистрационного номера"]. *)
Definition no_reg_number_msg (ticker : string) : string :=
  ticker +:+ " - акция без регистрационного номера".

(** [Quotes._find_aliases] *)
Definition _find_aliases (e : env) (ticker : string) : M (list string * Z) :=
  bindM (call (Listing (db_name e)) (listing e)) (fun securities =>
  bindM (lift (securities ticker (DATE (base e)))) (fun reg_date =>
  bindM (lift (to_datetime e reg_date "%d.%m.%Y %H:%M:%S")) (fun reg_date =>
  bindM (lift (securities ticker (REG_NUMBER (base e)))) (fun reg_number =>
  match reg_number with
  | VNone => raise (POptimizerError (no_reg_number_msg ticker))
  | _ =>
      bindM (call (FindSecurities reg_number) (find_securities e reg_number))
        (fun results =>
           let tickers :=
             List.map secid
                      (List.filter (fun row => field_eqb (regnumber row) reg_number)
                                   results) in
           ret (tickers, reg_date))
  end)))).

(** The text of the [ValueError] of [futures.ThreadPoolExecutor] when it
    is given no worker. *)
Definition NO_WORKERS : string := "max_workers must be greater than 0".

(** [Quotes._download_many].  Every alias is submitted before any result
    is read, and the results are read in the order of submission, so the
    data and the first exception do not depend on the scheduling of the
    threads; the log records the submissions. *)
Definition _download_many (e : env) (aliases : list string) (reg_date : Z)
  : M (list candle) :=
  fun log =>
    match aliases with
    | [] => (Raise (ExternalError NO_WORKERS), log)
    | _ =>
        let start := timestamp_date (base e) reg_date in
        let until := timestamp_date (base e) (LAST_HISTORY_DATE e) in
        let rez :=
          List.map (fun ticker => get_market_candles e ticker start until) aliases in
        let log' :=
          log ++ List.map (fun ticker => MarketCandles ticker start until) aliases in
        match mapM (fun future => future) rez with
        | Raise x => (Raise x, log')
        | Return data => (Return (_clean_up (List.concat data)), log')
        end
    end.

(** A candle as the dict returned by [apimoex]. *)
Definition candle_record (c : candle) : record :=
  [("begin", VStr (begin c)); ("open", VNum (open c)); ("close", VNum (close c));
   ("high", VNum (high c)); ("low", VNum (low c)); ("value", VNum (value c))].

(** [Quotes._formatter] *)
Definition _formatter (e : env) (data : list candle) : list record :=
  let formatters :=
    [("begin",
      fun x => (DATE (base e),
                match x with
                | VStr s => strptime (base e) s "%Y-%m-%d %H:%M:%S"
                | _ => VNone
                end));
     ("open", fun x => (OPEN e, x));
     ("close", fun x => (CLOSE (base e), x));
     ("high", fun x => (HIGH e, x));
     ("low", fun x => (LOW e, x));
     ("value", fun x => (TURNOVER e, x))] in
  data_formatter (base e) (List.map candle_record data) formatters.

(** [Quotes._download] *)
Definition _download (e : env) (item : string) (last_index : option Z)
  : M (list record) :=
  bindM
    (match last_index with
     | None =>
         bindM (_find_aliases e item) (fun ar =>
         _download_many e (fst ar) (snd ar))
     | Some t =>
         call (MarketCandles item (timestamp_date (base e) t)
                             (timestamp_date (base e) (LAST_HISTORY_DATE e)))
              (get_market_candles e item (timestamp_date (base e) t)
                                  (timestamp_date (base e) (LAST_HISTORY_DATE e)))
     end)
    (fun data => ret (_formatter e data)).

End Quotes.

(* ===================================================================== *)
(** * poptimizer/ml/examples.py: the remaining accessors *)
(* ===================================================================== *)

Module ExamplesRest.
Import Py Examples.

(** [Examples.tickers] *)
Definition tickers (self : t) : list string := _tickers self.

(** [Examples.get_params_space].  [feat.get_params_space()] belongs to the
    classes of the feature module and is taken as given ([space_of]). *)
Definition get_params_space {S : Type} (space_of : feature_obj -> S) (self : t)
  : list (string * S) :=
  List.map (fun feat => (name feat, space_of feat)) (slice_from 1 (_features self)).

End ExamplesRest.

(* ===================================================================== *)
(** * Auxiliary notions used in the statements and proofs *)
(* ===================================================================== *)

Module MoexAux.
Import Moex.

(** The rows kept by the loop of [_clean_up] when the row before the
    first one of [l] had the opening time [prev]. *)
Fixpoint kept (prev : option string) (l : list candle) : list candle :=
  match l with
  | [] => []
  | x :: l' =>
      match prev with
      | Some p => if String.eqb p (begin x) then kept (Some (begin x)) l'
                  else x :: kept (Some (begin x)) l'
      | None => x :: kept (Some (begin x)) l'
      end
  end.

(** [a] is not after [b] in the order of the sort keys. *)
Definition key_le (a b : candle) : Prop := key_lt b a = false.

(** [a < b] on Python strings. *)
Definition str_lt (a b : string) : Prop := String.ltb a b = true.

(** The candle [a] opens strictly before the candle [b]. *)
Definition before (a b : candle) : Prop := str_lt (begin a) (begin b).
End MoexAux.


Module MoexGuard.
Import Moex Py.

(** The exception, if any, with which the outside world answers the one
    request a manager sends for its recognized item. *)
Definition exn_of {A} (r : result A) : option exn :=
  match r with Raise x => Some x | Return _ => None end.

Definition outside_exn (m : manager) (e : env) (last_index : option Z) : option exn :=
  match m with
  | Securities => exn_of (get_board_securities e ["SECID"; "REGNUMBER"; "LOTSIZE"])
  | SecuritiesListing => exn_of (read_csv e URL)
  | Index =>
      exn_of (get_board_history e
                (match last_index with
                 | Some t => Some (timestamp_date e t)
                 | None => None
                 end)
                INDEX ["TRADEDATE"; "CLOSE"] "RTSI" "index")
  end.

(** Surroundings in which every request is answered with an empty table. *)
Definition sample_env : env :=
  {| full_name := "data.misc";
     TICKER := "TICKER";
     REG_NUMBER := "REG_NUMBER";
     LOT_SIZE := "LOT_SIZE";
     DATE := "DATE";
     CLOSE := "CLOSE";
     get_board_securities := fun _ => Return [];
     read_csv := fun _ => Return [];
     get_board_history := fun _ _ _ _ _ => Return [];
     strptime := fun _ _ => VNone;
     timestamp_date := fun t => t;
     data_formatter := fun data _ => data |}.
End MoexGuard.


Module ExamplesAux.
Import Examples Py.

(** A small feature module used to run the code on concrete data: every
    class yields one column named after itself, indexed by the days
    [0 .. date] on which the ticker trades. *)
Definition last_day (ticker : string) (date : Z) : Z :=
  if String.eqb ticker "OLD" then Z.min 5 date else date.

Definition days_of (d : gmap string pval) : Z :=
  match d !! "days" with
  | Some (PInt z) => z
  | _ => 1
  end.

Definition sample_rows (tickers : list string) (date : Z)
    (f : string -> Z -> cell) : list (key * list cell) :=
  List.flat_map
    (fun n =>
       let d := Z.of_nat n in
       List.flat_map
         (fun tk => if d <=? last_day tk date then [((d, tk), [f tk d])] else [])
         tickers)
    (seq 0 (Z.to_nat (date + 1))).

Definition sample_class (nm : string) (categorical : bool)
    (f : Z -> gmap string pval -> string -> Z -> cell) : feature_class :=
  {| fc_col_names := fun _ _ _ => [nm];
     fc_get := fun tickers date ps =>
                 {| columns := [nm];
                    rows := sample_rows tickers date (f date ps) |};
     fc_is_categorical := fun _ => [categorical] |}.

Definition sample_feature (cls_name : string) : option feature_class :=
  if String.eqb cls_name "Label" then
    Some (sample_class "Label" false
            (fun date ps tk d =>
               if d + days_of ps <=? last_day tk date
               then Num (inject_Z (days_of ps)) else NaN))
  else if String.eqb cls_name "Scaler" then
    Some (sample_class "Scaler" false
            (fun _ _ tk d =>
               if d <? 1 then NaN
               else if String.eqb tk "FLAT" then Num 0 else Num 1))
  else if String.eqb cls_name "Ticker" then
    Some (sample_class "Ticker" true (fun _ _ tk _ => Cat tk))
  else if String.eqb cls_name "Mom1m" then
    Some (sample_class "Mom1m" false (fun _ _ _ d => Num (inject_Z d)))
  else None.

(** The caller's objects: three dictionaries and the parameter list that
    refers to them. *)
Definition sample_heap : gmap positive (gmap string pval) :=
  <[1%positive := <["days" := PInt 2]> ∅]>
  (<[2%positive := <["days" := PInt 3]> ∅]>
  (<[3%positive := ∅]> ∅)).

Definition sample_params : list (string * positive) :=
  [("Label", 1%positive); ("Scaler", 2%positive); ("Ticker", 3%positive)].

(** The dates of the rows of a pool. *)
Definition dates_of (p : pool) : list Z := get_level_values0 (data p).

(** Dates in chronological order. *)
Fixpoint chronological (l : list Z) : bool :=
  match l with
  | [] => true
  | x :: l' =>
      match l' with
      | [] => true
      | y :: _ => (x <=? y) && chronological l'
      end
  end.

(** A table is rectangular: every row has one cell per column. *)
Definition rectangular (f : frame) : bool :=
  forallb (fun r => (List.length (snd r) =? List.length (columns f))%nat) (rows f).

(** The tables of the features of an example set are rectangular. *)
Definition well_formed (self : t) : Prop :=
  forall feat, In feat (_features self) ->
  forall tickers date ps, rectangular (fc_get (cls feat) tickers date ps) = true.

(** [1 / x ** 2] as a total function on the cells of a numeric column. *)
Definition weight_of_cell (c : cell) : weight :=
  match c with
  | Num q => if Qeq_bool q 0 then WInf else WNum (/ (q * q))
  | _ => WNaN
  end.
End ExamplesAux.


Module ForecasterAux.
Import Forecaster Py.

(** The pool of [test_validate_cov_error]:
    [pd.DataFrame([[1, 0], [2, 0], [3, 0]])]. *)
Definition test_pool : Examples.pool :=
  {| Examples.data :=
       {| Examples.columns := ["0"; "1"];
          Examples.rows :=
            [((0, ""), [Examples.Num 1; Examples.Num 0]);
             ((1, ""), [Examples.Num 2; Examples.Num 0]);
             ((2, ""), [Examples.Num 3; Examples.Num 0])] |};
     Examples.label := None;
     Examples.pool_weight := [];
     Examples.cat_features := [];
     Examples.feature_names := [] |}.

(** [np.array([[1, 0, 0], [0, 4, 0], [0, 0, 9.1]])] *)
Definition test_cov : list (list Q) :=
  [[1; 0; 0]; [0; 4; 0]; [0; 0; 91 # 10]]%Q.

(** A covariance whose diagonal is the squared basis of [test_pool]. *)
Definition good_cov : list (list Q) :=
  [[1; 0; 0]; [0; 4; 0]; [0; 0; 9]]%Q.

(** The fixtures [PARAMS] and [FORECAST] of test_forecaster.py. *)
Definition PARAMS : params :=
  {| p_data :=
       [("Label", <["days" := MInt 20]> (<["div_share" := MFloat 0 1]> ∅));
        ("Scaler", <["days" := MInt 150]> ∅);
        ("Ticker", ∅);
        ("Mom12m", <["days" := MInt 252]> (<["periods" := MInt 1]> ∅));
        ("DivYield", <["days" := MInt 252]> (<["periods" := MInt 1]> ∅));
        ("Mom1m", <["days" := MInt 21]> ∅)];
     p_model :=
       <["bagging_temperature" := MInt 1]>
       (<["depth" := MInt 6]>
       (<["ignored_features" := MTuple []]>
       (<["l2_leaf_reg" := MInt 3]>
       (<["learning_rate" := MFloat 1 10]>
       (<["one_hot_max_size" := MInt 2]>
       (<["random_strength" := MInt 1]> ∅)))))) |}.

Definition FORECAST : Forecast :=
  {| date := 20190316; tickers := ["RTKM"; "UPRO"; "DSKY"];
     mean := [0%Q]; cov := [[0%Q]]; feature_importance := [];
     r := 0; r_rang := 0; t_stat := 0; average_cor := 0; shrinkage := 0;
     forecast_params := PARAMS |}.

(** A diagonal entry [a] is within the relative tolerance of the square
    of the basis entry [s]. *)
Definition within (rtol a s : Q) : bool :=
  Qle_bool (Qabs (a - s * s)) (rtol * Qabs (s * s)).

End ForecasterAux.


Module ExtraAux.
Import Py Moex Examples ExamplesAux.

(** Two candles carry the same date and the same turnover. *)
Definition same_quote (a b : candle) : Prop :=
  begin a = begin b /\ (value a == value b)%Q.

(** The class names a feature module does not know. *)
Definition unknown (feature : string -> option feature_class)
    (p : string * positive) : bool :=
  match feature (fst p) with Some _ => false | None => true end.

(** The flags gathered by the loop of [categorical_features]. *)
Definition cat_flags (h : gmap positive (gmap string pval)) (self : t)
    (params : option (list (string * positive))) : list bool :=
  List.concat
    (List.map (fun fp => is_categorical h (fst fp) (snd (snd fp)))
              (zip (slice_from 2 (_features self))
                   (slice_from 1 (py_or params (_params self))))).

(** The rows of a table without their first two cells, as the pools
    carry them. *)
Definition feature_rows (f : frame) : list (key * list cell) :=
  rows (iloc_from 2 f).

(** The rows of a table dated strictly between two dates. *)
Definition gap_rows (lo hi : Z) (f : frame) : list (key * list cell) :=
  feature_rows (select (fun d => (lo <? d) && (d <? hi)) f).

(** A pool is aligned: its weights and its labels, when it has labels,
    are indexed like its data, and its feature names are the columns of
    its data. *)
Definition aligned (p : pool) : Prop :=
  List.map fst (pool_weight p) = index (data p)
  /\ (forall l, label p = Some l -> List.map fst l = index (data p))
  /\ columns (data p) = feature_names p.

(** A pool holds no missing value, neither in its data nor in its
    labels. *)
Definition complete (p : pool) : Prop :=
  (forall r, In r (rows (data p)) -> existsb is_nan (snd r) = false)
  /\ (forall l kc, label p = Some l -> In kc l -> snd kc <> NaN).

End ExtraAux.


Module QuotesAux.
Import Py Moex Quotes.

(** The candles request sent for one alias. *)
Definition candles_request (e : env) (reg_date : Z) (ticker : string) : request :=
  MarketCandles ticker (timestamp_date (base e) reg_date)
                (timestamp_date (base e) (LAST_HISTORY_DATE e)).

(** The answer to the candles request of one alias. *)
Definition candles_of (e : env) (reg_date : Z) (ticker : string)
  : result (list candle) :=
  get_market_candles e ticker (timestamp_date (base e) reg_date)
                     (timestamp_date (base e) (LAST_HISTORY_DATE e)).

(** Sample surroundings: the security registered as 1-04-65104-D traded
    as EONR and then as UPRO, on one day under both tickers; FUND has no
    registration number. *)
Definition sample_candle (b : string) (v : Q) : candle :=
  {| begin := b; open := 1; close := 1; high := 1; low := 1; value := v |}.

Definition sample_listing (ticker column : string) : result field :=
  if String.eqb ticker "UPRO" then
    if String.eqb column "DATE" then Return (VStr "19.04.2007 00:00:00")
    else if String.eqb column "REG_NUMBER" then Return (VStr "1-04-65104-D")
    else Raise (KeyError column)
  else if String.eqb ticker "FUND" then
    if String.eqb column "DATE" then Return (VStr "01.02.2013 00:00:00")
    else if String.eqb column "REG_NUMBER" then Return VNone
    else Raise (KeyError column)
  else Raise (KeyError ticker).

Definition sample_quotes_env : env :=
  {| base := MoexGuard.sample_env;
     OPEN := "OPEN"; HIGH := "HIGH"; LOW := "LOW"; TURNOVER := "TURNOVER";
     db_name := "data";
     LAST_HISTORY_DATE := 20181214;
     listing := Return sample_listing;
     to_datetime := fun _ _ => Return 20070419;
     find_securities :=
       fun _ => Return [ {| secid := "UPRO"; regnumber := VStr "1-04-65104-D" |};
                         {| secid := "EONR"; regnumber := VStr "1-04-65104-D" |};
                         {| secid := "UPRO-002D"; regnumber := VStr "1-05-65104-D" |} ];
     get_market_candles :=
       fun ticker _ _ =>
         if String.eqb ticker "UPRO" then
           Return [sample_candle "2016-07-08 00:00:00" 500;
                   sample_candle "2016-07-11 00:00:00" 700]
         else if String.eqb ticker "EONR" then
           Return [sample_candle "2016-07-07 00:00:00" 300;
                   sample_candle "2016-07-08 00:00:00" 200]
         else Raise (ExternalError "no such security") |}.

End QuotesAux.


Module ListingAux.
Import Moex MoexGuard Py.

(** Surroundings in which the listing file has two rows, one of them
    without registration data. *)
Definition sample_csv : list (string * string * string) :=
  [("UPRO", "1-04-65104-D", "19.04.2007 00:00:00"); ("FUND", "", "")].

Definition sample_csv_env : env :=
  {| full_name := full_name sample_env;
     TICKER := TICKER sample_env;
     REG_NUMBER := REG_NUMBER sample_env;
     LOT_SIZE := LOT_SIZE sample_env;
     DATE := DATE sample_env;
     CLOSE := CLOSE sample_env;
     get_board_securities := get_board_securities sample_env;
     read_csv := fun _ => Return sample_csv;
     get_board_history := get_board_history sample_env;
     strptime := strptime sample_env;
     timestamp_date := timestamp_date sample_env;
     data_formatter := data_formatter sample_env |}.

(** The text of a cell of the listing file as the records keep it. *)
Definition kept_text (x : string) (v : field) : Prop :=
  match v with
  | VNone => x = ""
  | VStr s => s = x /\ x <> ""
  | _ => False
  end.
End ListingAux.

(* ===================================================================== *)
(** * Properties *)
(* ===================================================================== *)

Section StringOrder.
Import MoexAux.

Lemma str_lt_iff a b : str_lt a b <-> String_as_OT.lt a b.
Proof.
  unfold str_lt, String.ltb. rewrite <- String_as_OT.cmp_lt.
  unfold String_as_OT.cmp. destruct (String.compare a b); split; congruence.
Qed.

Lemma str_lt_trans a b c : str_lt a b -> str_lt b c -> str_lt a c.
Proof. rewrite !str_lt_iff. apply String_as_OT.lt_trans. Qed.

Lemma str_lt_irrefl a : ~ str_lt a a.
Proof. rewrite str_lt_iff. intros H. exact (String_as_OT.lt_not_eq a a H eq_refl). Qed.

Lemma str_not_lt a b : String.ltb b a = false -> a <> b -> str_lt a b.
Proof.
  unfold str_lt, String.ltb. intros Hba Hne.
  destruct (String.compare a b) eqn:E; [|reflexivity|].
  - apply String.compare_eq_iff in E. contradiction.
  - rewrite String.compare_antisym, E in Hba. discriminate.
Qed.
End StringOrder.

Section CleanUp.
Import Moex MoexAux Py.

Lemma Qopp_compare_lt x y : (- x ?= - y)%Q = Lt <-> ~ (x <= y)%Q.
Proof.
  unfold Qcompare, Qle, Qopp. simpl.
  rewrite Z.compare_lt_iff. lia.
Qed.

Lemma key_le_cases a b :
  key_le a b <->
  (begin a = begin b /\ (value b <= value a)%Q) \/ before a b.
Proof.
  unfold key_le, key_lt, before.
  destruct (String.eqb_spec (begin b) (begin a)) as [E|E].
  - rewrite E. split.
    + intros H. left. split; [reflexivity|].
      destruct (Qlt_le_dec (value a) (value b)) as [L|L]; [|exact L].
      exfalso. destruct (- value b ?= - value a)%Q eqn:C; try discriminate.
      * apply Qeq_alt in C. apply Qopp_lt_compat in L. rewrite C in L.
        exact (Qlt_irrefl _ L).
      * apply Qgt_alt in C. apply Qopp_lt_compat in L.
        exact (Qlt_irrefl _ (Qlt_trans _ _ _ L C)).
    + intros [[_ H]|H].
      * destruct (- value b ?= - value a)%Q eqn:C; try reflexivity.
        apply Qopp_compare_lt in C. contradiction.
      * exfalso. exact (str_lt_irrefl _ H).
  - split.
    + intros H. right. apply str_not_lt; [exact H | congruence].
    + intros [[H _]|H]; [congruence|].
      destruct (String.ltb (begin b) (begin a)) eqn:L; [|reflexivity].
      exfalso. exact (str_lt_irrefl _ (str_lt_trans _ _ _ H L)).
Qed.

Lemma key_le_trans a b c : key_le a b -> key_le b c -> key_le a c.
Proof.
  rewrite !key_le_cases. unfold before.
  intros [[E1 V1]|L1] [[E2 V2]|L2].
  - left. split; [congruence | eapply Qle_trans; eassumption].
  - right. rewrite E1. exact L2.
  - right. rewrite <- E2. exact L1.
  - right. eapply str_lt_trans; eassumption.
Qed.

Lemma key_le_total a b : key_lt a b = true -> key_le a b.
Proof.
  intros H. apply key_le_cases. unfold key_lt in H.
  destruct (String.eqb_spec (begin a) (begin b)) as [E|E].
  - left. split; [exact E|].
    destruct (- value a ?= - value b)%Q eqn:C; try discriminate.
    apply Qopp_compare_lt in C. apply Qlt_le_weak. now apply Qnot_le_lt.
  - right. exact H.
Qed.

Lemma insert_by_In {A} (lt : A -> A -> bool) x y l :
  In y (insert_by lt x l) <-> y = x \/ In y l.
Proof.
  induction l as [|z l IH]; simpl.
  - intuition.
  - destruct (lt z x); simpl; rewrite ?IH; intuition.
Qed.

Lemma sort_by_In {A} (lt : A -> A -> bool) y l :
  In y (sort_by lt l) <-> In y l.
Proof.
  induction l as [|x l IH]; simpl; [tauto|].
  rewrite insert_by_In, IH. intuition.
Qed.

Lemma sort_by_Permutation {A} (lt : A -> A -> bool) l :
  Permutation (sort_by lt l) l.
Proof.
  induction l as [|x l IH]; simpl; [constructor|].
  transitivity (x :: sort_by lt l); [|now constructor].
  generalize (sort_by lt l). clear. intros l.
  induction l as [|z l IH]; simpl; [reflexivity|].
  destruct (lt z x); [|reflexivity].
  rewrite IH. apply perm_swap.
Qed.

Lemma insert_sorted x l :
  StronglySorted key_le l -> StronglySorted key_le (insert_by key_lt x l).
Proof.
  induction 1 as [|z l Hs IH Hall]; simpl.
  - repeat constructor.
  - destruct (key_lt z x) eqn:E.
    + constructor; [exact IH|].
      apply List.Forall_forall. intros y Hy. apply insert_by_In in Hy.
      destruct Hy as [->|Hy]; [now apply key_le_total|].
      rewrite List.Forall_forall in Hall. now apply Hall.
    + constructor; [now constructor|].
      constructor; [exact E|].
      eapply List.Forall_impl; [|exact Hall].
      intros y Hy. eapply key_le_trans; [exact E | exact Hy].
Qed.

Lemma sort_by_key_sorted l : StronglySorted key_le (sort_by_key l).
Proof.
  unfold sort_by_key, sort_by.
  induction l as [|x l IH]; simpl; [constructor | now apply insert_sorted].
Qed.

Lemma last_snoc (acc : list candle) r :
  List.last (List.map Some (acc ++ [r])) None = Some r.
Proof. rewrite List.map_app. simpl. apply List.last_last. Qed.

Lemma clean_loop l : forall acc,
  List.fold_left clean_step l acc
  = acc ++ kept (option_map begin (List.last (List.map Some acc) None)) l.
Proof.
  induction l as [|x l IH]; intros acc; simpl.
  - now rewrite List.app_nil_r.
  - rewrite IH. unfold clean_step.
    destruct (List.last (List.map Some acc) None) as [prev|] eqn:E; simpl.
    + destruct (String.eqb_spec (begin prev) (begin x)) as [Eq|Ne]; simpl.
      * rewrite E. simpl. now rewrite Eq.
      * rewrite last_snoc. simpl. now rewrite <- List.app_assoc.
    + rewrite last_snoc. simpl. now rewrite <- List.app_assoc.
Qed.

Lemma clean_up_kept data : _clean_up data = kept None (sort_by_key data).
Proof. unfold _clean_up. now rewrite clean_loop. Qed.

Lemma kept_In prev l r : In r (kept prev l) -> In r l.
Proof.
  revert prev. induction l as [|x l IH]; intros prev; simpl; [tauto|].
  destruct prev as [p|]; [destruct (String.eqb p (begin x))|]; simpl;
    intros H; try (destruct H as [H|H]; [now left|]); right; eapply IH; eassumption.
Qed.

Lemma kept_sorted l : forall prev,
  StronglySorted key_le l ->
  (forall p y, prev = Some p -> In y l -> p = begin y \/ str_lt p (begin y)) ->
  StronglySorted before (kept prev l)
  /\ forall p r, prev = Some p -> In r (kept prev l) -> str_lt p (begin r).
Proof.
  induction l as [|x l IH]; intros prev Hs Hp; simpl.
  - split; [constructor | intros ? ? ? []].
  - inversion Hs as [|? ? Hs' Hall]; subst.
    rewrite List.Forall_forall in Hall.
    destruct (IH (Some (begin x)) Hs') as [IH1 IH2].
    { intros p y [= <-] Hy. specialize (Hall y Hy).
      apply key_le_cases in Hall. destruct Hall as [[E _]|L]; [now left | now right]. }
    assert (Hx : StronglySorted before (x :: kept (Some (begin x)) l)).
    { constructor; [exact IH1|]. apply List.Forall_forall. intros r Hr.
      exact (IH2 _ r eq_refl Hr). }
    destruct prev as [p|].
    + destruct (String.eqb_spec p (begin x)) as [E|E].
      * split; [exact IH1|]. intros p' r [= <-] Hr. rewrite E. now apply IH2.
      * split; [exact Hx|]. intros p' r [= <-] [<-|Hr].
        -- destruct (Hp p x eq_refl (or_introl eq_refl)); [contradiction|assumption].
        -- destruct (Hp p x eq_refl (or_introl eq_refl)) as [?|L]; [contradiction|].
           eapply str_lt_trans; [exact L | now apply IH2].
    + split; [exact Hx | intros ? ? [=]].
Qed.

Lemma kept_covers l : forall prev y,
  In y l -> prev = Some (begin y) \/ exists r, In r (kept prev l) /\ begin r = begin y.
Proof.
  induction l as [|x l IH]; intros prev y; simpl; [tauto|].
  assert (Hx : prev = Some (begin x) \/
               In x (match prev with
                     | Some p => if String.eqb p (begin x) then kept (Some (begin x)) l
                                 else x :: kept (Some (begin x)) l
                     | None => x :: kept (Some (begin x)) l end)).
  { destruct prev as [p|]; [|right; now left].
    destruct (String.eqb_spec p (begin x)); [left; congruence | right; now left]. }
  intros [<-|Hy].
  - destruct Hx as [Hx|Hx]; [now left | right; eauto].
  - destruct (IH (Some (begin x)) y Hy) as [[= E]|[r [Hr Er]]].
    + rewrite <- E. destruct Hx as [Hx|Hx]; [now left | right; eauto].
    + right. exists r. split; [|exact Er].
      destruct prev as [p|]; [destruct (String.eqb p (begin x))|]; simpl; auto.
Qed.

Lemma kept_max l : forall prev,
  StronglySorted key_le l ->
  forall r r', In r (kept prev l) -> In r' l -> begin r' = begin r ->
               (value r' <= value r)%Q.
Proof.
  induction l as [|x l IH]; intros prev Hs r r'; simpl; [tauto|].
  inversion Hs as [|? ? Hs' Hall]; subst.
  rewrite List.Forall_forall in Hall.
  assert (Htail : In r (kept (Some (begin x)) l) -> In r' (x :: l) ->
                  begin r' = begin r -> (value r' <= value r)%Q).
  { intros Hr [<-|Hr'] E.
    - exfalso. destruct (kept_sorted l (Some (begin x)) Hs') as [_ H2].
      + intros p y [= <-] Hy. specialize (Hall y Hy).
        apply key_le_cases in Hall. destruct Hall as [[E' _]|L]; [now left | now right].
      + specialize (H2 _ r eq_refl Hr). rewrite E in H2. exact (str_lt_irrefl _ H2).
    - eapply IH; eassumption. }
  assert (Hhead : In r' (x :: l) -> begin r' = begin x -> (value r' <= value x)%Q).
  { intros [<-|Hr'] E; [apply Qle_refl|].
    specialize (Hall r' Hr'). apply key_le_cases in Hall.
    destruct Hall as [[_ V]|L]; [exact V|].
    exfalso. unfold before in L. rewrite E in L. exact (str_lt_irrefl _ L). }
  destruct prev as [p|]; [destruct (String.eqb p (begin x))|]; simpl.
  - intros Hr. now apply Htail.
  - intros [<-|Hr]; [now apply Hhead | now apply Htail].
  - intros [<-|Hr]; [now apply Hhead | now apply Htail].
Qed.

Lemma before_unique l :
  StronglySorted before l ->
  forall a b, In a l -> In b l -> begin a = begin b -> a = b.
Proof.
  induction 1 as [|x l Hs IH Hall]; intros a b; simpl; [tauto|].
  rewrite List.Forall_forall in Hall.
  intros [<-|Ha] [<-|Hb] E; try reflexivity.
  - exfalso. specialize (Hall b Hb). unfold before in Hall.
    rewrite E in Hall. exact (str_lt_irrefl _ Hall).
  - exfalso. specialize (Hall a Ha). unfold before in Hall.
    rewrite E in Hall. exact (str_lt_irrefl _ Hall).
  - now apply IH.
Qed.

(** C10.  For every list of candles, [_clean_up] returns rows whose opening
    times are strictly increasing (hence unique and in non-decreasing
    order); every returned row is a row of the input; every opening time of
    the input is kept by exactly one returned row; and the row kept for an
    opening time has the largest turnover among the input rows with that
    opening time. *)
Theorem clean_up_one_row_per_begin_with_max_turnover (data : list candle) :
  let out := _clean_up data in
  StronglySorted before out
  /\ List.NoDup (List.map begin out)
  /\ (forall r, In r out -> In r data)
  /\ (forall y, In y data ->
        exists r, In r out /\ begin r = begin y
                  /\ forall r2, In r2 out -> begin r2 = begin y -> r2 = r)
  /\ (forall r y, In r out -> In y data -> begin y = begin r ->
                  (value y <= value r)%Q).
Proof.
  intros out. subst out. rewrite clean_up_kept.
  pose proof (sort_by_key_sorted data) as Hs.
  destruct (kept_sorted (sort_by_key data) None Hs) as [Hb _]; [intros ? ? [=]|].
  split; [exact Hb|]. split; [|split; [|split]].
  - clear Hs. induction Hb as [|x l Hl IH Hall]; simpl; constructor.
    + rewrite List.Forall_forall in Hall. intros Hin. apply in_map_iff in Hin.
      destruct Hin as [r [E Hr]]. specialize (Hall r Hr). unfold before in Hall.
      rewrite E in Hall. exact (str_lt_irrefl _ Hall).
    + exact IH.
  - intros r Hr. apply kept_In in Hr. now apply sort_by_In in Hr.
  - intros y Hy. apply (sort_by_In key_lt) in Hy.
    destruct (kept_covers _ None y Hy) as [[=]|[r [Hr E]]].
    exists r. split; [exact Hr|]. split; [exact E|].
    intros r2 Hr2 E2. eapply before_unique; eauto. congruence.
  - intros r y Hr Hy E. apply (sort_by_In key_lt) in Hy.
    eapply kept_max; eauto.
Qed.
End CleanUp.

Section Download.
Import Moex MoexGuard Py.

Lemma eqb_recognized_false m item :
  item <> recognized_key m -> String.eqb item (recognized_key m) = false.
Proof. intros H. now apply String.eqb_neq. Qed.

Lemma download_guard m e item last_index log :
  item <> recognized_key m ->
  download m e item last_index log
  = (Raise (POptimizerError (missing_data_msg e item)), log).
Proof.
  intros H. apply eqb_recognized_false in H.
  destruct m; simpl in *;
    unfold Securities_download, SecuritiesListing_download, Index_download;
    rewrite H; reflexivity.
Qed.

Lemma download_recognized m e last_index log :
  exists rq,
    snd (download m e (recognized_key m) last_index log) = log ++ [rq]
    /\ forall x, fst (download m e (recognized_key m) last_index log) = Raise x ->
                 outside_exn m e last_index = Some x.
Proof.
  destruct m; simpl;
    unfold Securities_download, SecuritiesListing_download, Index_download;
    rewrite String.eqb_refl; simpl; unfold bindM, call, ret.
  - eexists. destruct (get_board_securities e _) eqn:E; simpl;
      (split; [reflexivity|]); intros x; [discriminate | now intros [= ->]].
  - eexists. destruct (read_csv e _) eqn:E; simpl;
      (split; [reflexivity|]); intros x; [discriminate | now intros [= ->]].
  - eexists. destruct (get_board_history e _ _ _ _ _) eqn:E; simpl;
      (split; [reflexivity|]); intros x; [discriminate | now intros [= ->]].
Qed.

Lemma missing_data_msg_names_item e item :
  exists pre, missing_data_msg e item = pre +:+ full_name e +:+ "." +:+ item.
Proof. eexists. reflexivity. Qed.

(** C9.  For each of the managers [Securities], [SecuritiesListing] and
    [Index]: a [_download] of an item other than the manager's recognized
    key raises [POptimizerError] at once, with a message that ends with the
    collection's full name, a dot and the requested item, and without
    sending any request (the log is unchanged, nothing is retried); a
    [_download] of the recognized key passes the guard: it sends exactly
    one request, and any exception it raises is the one that request was
    answered with. *)
Theorem download_unrecognized_item_raises
    (m : manager) (e : env) (item : string) (last_index : option Z)
    (log : list request) :
  (item <> recognized_key m ->
     download m e item last_index log
     = (Raise (POptimizerError (missing_data_msg e item)), log)
     /\ exists pre, missing_data_msg e item = pre +:+ full_name e +:+ "." +:+ item)
  /\ (item = recognized_key m ->
      exists rq,
        snd (download m e item last_index log) = log ++ [rq]
        /\ forall x, fst (download m e item last_index log) = Raise x ->
                     outside_exn m e last_index = Some x).
Proof.
  split.
  - intros H. split; [now apply download_guard | apply missing_data_msg_names_item].
  - intros ->. apply download_recognized.
Qed.

(** C9 on a sample: the index manager asked for the listing, and for its
    own item. *)
Lemma download_unrecognized_item_raises_witness :
  download Index sample_env "listing" None []
  = (Raise (POptimizerError (missing_data_msg sample_env "listing")), [])
  /\ exists rq,
       snd (download Index sample_env "MCFTRR" None []) = [] ++ [rq]
       /\ forall x, fst (download Index sample_env "MCFTRR" None []) = Raise x ->
                    outside_exn Index sample_env None = Some x.
Proof.
  split.
  - destruct (download_unrecognized_item_raises Index sample_env "listing" None [])
      as [Hbad _].
    destruct Hbad as [Hraise _]; [discriminate | exact Hraise].
  - destruct (download_unrecognized_item_raises Index sample_env "MCFTRR" None [])
      as [_ Hgood].
    apply Hgood. reflexivity.
Defined.
End Download.


Section PyFacts.
Import Py.

Lemma getitem_Return {A} (l : list A) (i : Z) (x : A) :
  getitem l i = Return x ->
  exists j : nat,
    nth_error l j = Some x
    /\ (j < List.length l)%nat
    /\ Z.of_nat j = (if i <? 0 then i + Z.of_nat (List.length l) else i).
Proof.
  unfold getitem. intros H.
  set (j := if i <? 0 then i + Z.of_nat (List.length l) else i) in *.
  destruct ((0 <=? j) && (j <? Z.of_nat (List.length l))) eqn:B; [|discriminate].
  apply andb_true_iff in B. destruct B as [B1 B2].
  apply Z.leb_le in B1. apply Z.ltb_lt in B2.
  destruct (nth_error l (Z.to_nat j)) eqn:N; [|discriminate].
  injection H as ->. exists (Z.to_nat j). repeat split; [exact N | lia | lia].
Qed.

Lemma getitem_In {A} (l : list A) (i : Z) (x : A) :
  getitem l i = Return x -> In x l.
Proof.
  intros H. apply getitem_Return in H. destruct H as (j & N & _).
  eapply nth_error_In; eassumption.
Qed.

Lemma nth_error_split3 {A} (l : list A) (j : nat) (x : A) :
  nth_error l j = Some x ->
  l = firstn j l ++ [x] ++ skipn (S j) l /\ List.length (firstn j l) = j.
Proof.
  revert j. induction l as [|y l IH]; intros [|j] H; simpl in *; try discriminate.
  - injection H as ->. split; reflexivity.
  - destruct (IH j H) as [E L]. split; [now rewrite <- E | now rewrite L].
Qed.

Lemma mapM_Forall2 {A B} (f : A -> result B) l ys :
  mapM f l = Return ys -> Forall2 (fun x y => f x = Return y) l ys.
Proof.
  revert ys. induction l as [|x l IH]; simpl; intros ys H.
  - injection H as <-. constructor.
  - destruct (f x) eqn:E; [|discriminate].
    destruct (mapM f l) eqn:E'; [|discriminate].
    injection H as <-. constructor; [exact E | now apply IH].
Qed.

Lemma In_slice_from {A} (i : nat) (l : list A) (x : A) :
  In x (slice_from i l) -> In x l.
Proof.
  unfold slice_from. revert l. induction i as [|i IH]; intros [|y l]; simpl; auto.
Qed.
End PyFacts.

Section Tables.
Import Examples ExamplesAux Py.

Lemma dates_select p f :
  get_level_values0 (select p f) = List.filter p (get_level_values0 f).
Proof.
  unfold get_level_values0, select. simpl.
  induction (rows f) as [|r l IH]; simpl; [reflexivity|].
  match goal with |- context [if ?c then _ else _] => destruct c end;
    simpl; [f_equal|]; exact IH.
Qed.

Lemma dates_iloc_from i f :
  get_level_values0 (iloc_from i f) = get_level_values0 f.
Proof.
  unfold get_level_values0, iloc_from. simpl. rewrite List.map_map. reflexivity.
Qed.

Lemma unique_In l x : In x (unique l) <-> In x l.
Proof.
  induction l as [|y l IH]; simpl; [tauto|].
  rewrite filter_In, IH. split.
  - intros [H|[H _]]; auto.
  - intros [H|H]; [now left|].
    destruct (Z.eq_dec x y) as [->|Ne]; [now left|].
    right. split; [exact H|]. apply negb_true_iff. now apply Z.eqb_neq.
Qed.

Lemma chronological_sorted l :
  chronological l = true -> StronglySorted Z.le l.
Proof.
  induction l as [|x l IH]; intros H; [constructor|].
  simpl in H. destruct l as [|y l'].
  - repeat constructor.
  - apply andb_true_iff in H. destruct H as [Hxy Hl]. apply Z.leb_le in Hxy.
    specialize (IH Hl). constructor; [exact IH|].
    inversion IH as [|? ? _ Hall]; subst.
    constructor; [exact Hxy|].
    eapply List.Forall_impl; [|exact Hall]. simpl. intros; lia.
Qed.

Lemma filter_sorted (p : Z -> bool) l :
  StronglySorted Z.le l -> StronglySorted Z.le (List.filter p l).
Proof.
  induction 1 as [|x l Hs IH Hall]; simpl; [constructor|].
  destruct (p x); [|exact IH].
  constructor; [exact IH|].
  rewrite List.Forall_forall in *. intros y Hy. apply filter_In in Hy. now apply Hall.
Qed.

Lemma unique_increasing l :
  StronglySorted Z.le l -> StronglySorted Z.lt (unique l).
Proof.
  induction 1 as [|x l Hs IH Hall]; simpl; [constructor|].
  rewrite List.Forall_forall in Hall.
  assert (Hf : forall (l' : list Z),
             StronglySorted Z.lt l' ->
             StronglySorted Z.lt (List.filter (fun y => negb (y =? x)) l')).
  { induction 1 as [|z l' Hs' IH' Hall']; simpl; [constructor|].
    destruct (negb (z =? x)); [|exact IH'].
    constructor; [exact IH'|].
    rewrite List.Forall_forall in *. intros y Hy. apply filter_In in Hy. now apply Hall'. }
  constructor; [now apply Hf|].
  apply List.Forall_forall. intros y Hy. apply filter_In in Hy.
  destruct Hy as [Hy Hne]. apply (proj1 (unique_In _ _)) in Hy.
  apply negb_true_iff, Z.eqb_neq in Hne. specialize (Hall y Hy). lia.
Qed.

Lemma increasing_app_inv (l1 l2 : list Z) x :
  StronglySorted Z.lt (l1 ++ [x] ++ l2) ->
  (forall d, In d l1 -> d < x) /\ (forall d, In d l2 -> x < d).
Proof.
  induction l1 as [|y l1 IH]; simpl; intros H.
  - inversion H as [|? ? _ Hall]; subst. rewrite List.Forall_forall in Hall.
    split; [tauto | exact Hall].
  - inversion H as [|? ? Hs Hall]; subst. rewrite List.Forall_forall in Hall.
    destruct (IH Hs) as [H1 H2]. split; [|exact H2].
    intros d [<-|Hd]; [|now apply H1].
    apply Hall. apply in_or_app. right. now left.
Qed.
End Tables.

Section Pools.
Import Examples ExamplesAux Py.

Lemma row_at_width k f :
  rectangular f = true -> List.length (row_at k f) = List.length (columns f).
Proof.
  unfold rectangular, row_at. intros H.
  destruct (List.find _ (rows f)) as [r|] eqn:E.
  - apply find_some in E. destruct E as [Hin _].
    rewrite forallb_forall in H. specialize (H r Hin). now apply Nat.eqb_eq in H.
  - apply repeat_length.
Qed.

Lemma concat_axis1_rectangular fs :
  (forall f, In f fs -> rectangular f = true) ->
  rectangular (concat_axis1 fs) = true.
Proof.
  intros H. unfold rectangular, concat_axis1. simpl.
  apply forallb_forall. intros r Hr. apply in_map_iff in Hr.
  destruct Hr as (k & <- & _). simpl. apply Nat.eqb_eq.
  clear -H. induction fs as [|f fs IH]; simpl; [reflexivity|].
  rewrite !List.length_app, row_at_width by (apply H; now left).
  rewrite IH; [reflexivity|]. intros g Hg. apply H. now right.
Qed.

Lemma get_all_rectangular h self ps all :
  well_formed self -> get_all h self ps = Return all -> rectangular all = true.
Proof.
  unfold get_all. intros W H.
  destruct (getitem (_features self) 0) as [f0|] eqn:E0; [|discriminate].
  simpl in H. injection H as <-.
  apply concat_axis1_rectangular. intros f [<-|Hf].
  - apply W. eapply getitem_In; eassumption.
  - apply in_map_iff in Hf. destruct Hf as ([feat p] & <- & Hin).
    apply W. unfold zip in Hin. apply in_combine_l in Hin. simpl.
    destruct (_features self); [contradiction | now right].
Qed.

Lemma inv_square_col_weights col ws :
  inv_square_col col = Return ws ->
  ws = List.map (fun kc => (fst kc, weight_of_cell (snd kc))) col
  /\ forall kc, In kc col -> exists q, snd kc = NaN \/ snd kc = Num q.
Proof.
  unfold inv_square_col. revert ws.
  induction col as [|[k c] col IH]; simpl; intros ws H.
  - injection H as <-. split; [reflexivity | tauto].
  - destruct c as [|q|s]; simpl in H; try discriminate.
    + destruct (mapM _ col) as [ws'|] eqn:E; [|discriminate].
      injection H as <-. destruct (IH _ eq_refl) as [-> Hc].
      split; [reflexivity|]. intros kc [<-|Hin]; [exists 0%Q; now left | now apply Hc].
    + assert (Hq : (w ← (if Qeq_bool q 0 then Return WInf
                          else Return (WNum (/ (q * q)))); Return (k, w))
                   = Return (k, if Qeq_bool q 0 then WInf else WNum (/ (q * q)))).
      { destruct (Qeq_bool q 0); reflexivity. }
      rewrite Hq in H. clear Hq.
      destruct (mapM _ col) as [ws'|] eqn:E; [|discriminate].
      injection H as <-. destruct (IH _ eq_refl) as [-> Hc].
      split; [reflexivity|]. intros kc [<-|Hin]; [exists q; now right | now apply Hc].
Qed.

Lemma pool_params_inv h self ps df part b p :
  pool_params h self ps df part b = Return p ->
  data p = iloc_from 2 part
  /\ feature_names p = skipn 2 (columns df)
  /\ cat_features p = categorical_features h self ps
  /\ (2 < List.length (columns part))%nat
  /\ pool_weight p
     = List.map (fun r => (fst r, weight_of_cell (nth 2 (snd r) NaN))) (rows part)
  /\ (forall r, In r (rows part) -> exists q, nth 2 (snd r) NaN = NaN
                                              \/ nth 2 (snd r) NaN = Num q)
  /\ (b = false -> label p = None)
  /\ (b = true -> (1 < List.length (columns part))%nat /\
                  label p = Some (List.map (fun r => (fst r, nth 1 (snd r) NaN))
                                           (rows part))).
Proof.
  unfold pool_params, iloc_col. intros H.
  assert (Hfin : forall lbl,
             (sc ← (if (2 <? List.length (columns part))%nat
                    then Return (List.map (fun r => (fst r, nth 2 (snd r) NaN))
                                          (rows part))
                    else Raise IndexError);
              w ← inv_square_col sc;
              Return {| data := iloc_from 2 part; label := lbl; pool_weight := w;
                        cat_features := categorical_features h self ps;
                        feature_names := skipn 2 (columns df) |}) = Return p ->
             data p = iloc_from 2 part
             /\ feature_names p = skipn 2 (columns df)
             /\ cat_features p = categorical_features h self ps
             /\ (2 < List.length (columns part))%nat
             /\ pool_weight p
                = List.map (fun r => (fst r, weight_of_cell (nth 2 (snd r) NaN)))
                           (rows part)
             /\ (forall r, In r (rows part) ->
                           exists q, nth 2 (snd r) NaN = NaN
                                     \/ nth 2 (snd r) NaN = Num q)
             /\ label p = lbl).
  { intros lbl H'.
    destruct (2 <? List.length (columns part))%nat eqn:E2; [|discriminate].
    apply Nat.ltb_lt in E2. unfold mbind, result_bind, bind in H'.
    destruct (inv_square_col _) as [ws|] eqn:Ew; [|discriminate].
    injection H' as <-. simpl.
    apply inv_square_col_weights in Ew. destruct Ew as [-> Hc].
    rewrite List.map_map. simpl.
    repeat split; try reflexivity; try assumption.
    intros r Hr. apply (Hc (fst r, nth 2 (snd r) NaN)).
    apply in_map_iff. exists r. split; [reflexivity | exact Hr]. }
  destruct b.
  - destruct (1 <? List.length (columns part))%nat eqn:E1; [|discriminate].
    apply Nat.ltb_lt in E1.
    destruct (Hfin _ H) as (H1 & H2 & H3 & H4 & H5 & H6 & H7).
    repeat split; try assumption; try discriminate; intros _; assumption.
  - destruct (Hfin _ H) as (H1 & H2 & H3 & H4 & H5 & H6 & H7).
    repeat split; try assumption; try discriminate; intros _; assumption.
Qed.

Lemma train_val_inv h self params tr va ps :
  train_val_pool_params h self params = Return (tr, va) ->
  ps = py_or params (_params self) ->
  exists all val_start label_days train_end,
    get_all h self ps = Return all
    /\ getitem (get_level_values0 (dropna all))
               (split_position (List.length (get_level_values0 (dropna all))))
       = Return val_start
    /\ label_days_of h ps = Return label_days
    /\ getitem (unique (List.filter (fun d => d <? val_start)
                                    (get_level_values0 (dropna all))))
               (- label_days)
       = Return train_end
    /\ pool_params h self (Some ps) (dropna all)
                   (select (fun d => d <=? train_end) (dropna all)) true
       = Return tr
    /\ pool_params h self (Some ps) (dropna all)
                   (select (fun d => val_start <=? d) (dropna all)) true
       = Return va.
Proof.
  unfold train_val_pool_params. intros H ->.
  unfold mbind, result_bind, bind in H.
  destruct (get_all h self _) as [all|] eqn:E1; [|discriminate].
  destruct (getitem _ (split_position _)) as [val_start|] eqn:E2; [|discriminate].
  destruct (label_days_of h _) as [label_days|] eqn:E3; [|discriminate].
  destruct (getitem (unique _) _) as [train_end|] eqn:E4; [|discriminate].
  destruct (pool_params h self _ (dropna all)
              (select (fun d => d <=? train_end) (dropna all)) true)
    as [tr'|] eqn:E5; [|discriminate].
  destruct (pool_params h self _ (dropna all)
              (select (fun d => val_start <=? d) (dropna all)) true)
    as [va'|] eqn:E6; [|discriminate].
  injection H as <- <-.
  exists all, val_start, label_days, train_end. auto 10.
Qed.
End Pools.

Section TrainValidation.
Import Examples ExamplesAux Py.

Lemma pool_dates h self ps df p part b pool :
  pool_params h self ps df part b = Return pool ->
  part = select p df ->
  dates_of pool = List.filter p (get_level_values0 df)
  /\ rows (data pool)
     = List.map (fun r => (fst r, skipn 2 (snd r)))
                (List.filter (fun r => p (fst (fst r))) (rows df)).
Proof.
  intros H ->. apply pool_params_inv in H. destruct H as (Hd & _).
  unfold dates_of. rewrite Hd, dates_iloc_from, dates_select.
  split; reflexivity.
Qed.

Lemma split_position_nonneg n : 0 <= split_position n.
Proof.
  unfold split_position. change 0 with (Qfloor 0). apply Qfloor_resp_le.
  apply Qmult_le_0_compat; [|discriminate].
  change 0%Q with (inject_Z 0). rewrite <- Zle_Qle. lia.
Qed.

(** C3.  When [train_val_pool_params] returns, the validation start is the
    date of the row at position [int(n * 0.9)] among the [n] rows left
    after dropping incomplete rows (a percentile of the rows, not of the
    distinct dates); the validation block consists of exactly the rows
    dated at or after that date, and every row of the training block is
    dated strictly before it. *)
Theorem validation_starts_at_row_percentile h self params tr va :
  train_val_pool_params h self params = Return (tr, va) ->
  exists all val_start,
    get_all h self (py_or params (_params self)) = Return all
    /\ nth_error (get_level_values0 (dropna all))
                 (Z.to_nat (split_position
                              (List.length (get_level_values0 (dropna all)))))
       = Some val_start
    /\ rows (data va)
       = List.map (fun r => (fst r, skipn 2 (snd r)))
                  (List.filter (fun r => val_start <=? fst (fst r))
                               (rows (dropna all)))
    /\ (forall d, In d (dates_of va) <->
                  In d (get_level_values0 (dropna all)) /\ val_start <= d)
    /\ (forall d, In d (dates_of tr) ->
                  In d (get_level_values0 (dropna all)) /\ d < val_start).
Proof.
  intros H.
  destruct (train_val_inv _ _ _ _ _ _ H eq_refl)
    as (all & val_start & label_days & train_end & Hall & Hvs & Hld & Hte & Htr & Hva).
  exists all, val_start. split; [exact Hall|].
  destruct (pool_dates _ _ _ _ _ _ _ _ Hva eq_refl) as [Hdv Hrv].
  destruct (pool_dates _ _ _ _ _ _ _ _ Htr eq_refl) as [Hdt _].
  split; [|split; [exact Hrv|split]].
  - apply getitem_Return in Hvs. destruct Hvs as (j & Hn & _ & Hj).
    pose proof (split_position_nonneg
                  (List.length (get_level_values0 (dropna all)))) as Hp.
    destruct (split_position _ <? 0) eqn:B; [apply Z.ltb_lt in B; lia|].
    rewrite <- Hj, Nat2Z.id. exact Hn.
  - intros d. rewrite Hdv, filter_In, Z.leb_le. tauto.
  - intros d. rewrite Hdt, filter_In, Z.leb_le. intros [Hin Hle].
    split; [exact Hin|].
    apply getitem_In, unique_In, filter_In in Hte.
    destruct Hte as [_ Hlt]. apply Z.ltb_lt in Hlt. lia.
Qed.

(** C1.  When [train_val_pool_params] returns, the validation block starts
    at [val_start], its earliest date; the training block ends at
    [train_end], the distinct pre-split date found [label_days] places
    from the end ([later] holds the [label_days - 1] distinct pre-split
    dates after it, for [label_days >= 1]); [train_end] is the latest date
    of the training block and is strictly earlier than [val_start]; and
    with the rows in chronological order the training block holds exactly
    the distinct pre-split dates up to [train_end], the dates of [later]
    being the only pre-split dates left out. *)
Theorem train_block_rolled_back h self params tr va :
  train_val_pool_params h self params = Return (tr, va) ->
  exists all val_start label_days train_end earlier later,
    get_all h self (py_or params (_params self)) = Return all
    /\ label_days_of h (py_or params (_params self)) = Return label_days
    /\ (In val_start (dates_of va) /\ forall d, In d (dates_of va) -> val_start <= d)
    /\ unique (List.filter (fun d => d <? val_start)
                           (get_level_values0 (dropna all)))
       = earlier ++ [train_end] ++ later
    /\ (1 <= label_days -> Z.of_nat (List.length later) = label_days - 1)
    /\ (In train_end (dates_of tr) /\ forall d, In d (dates_of tr) -> d <= train_end)
    /\ train_end < val_start
    /\ (chronological (get_level_values0 (dropna all)) = true ->
        (forall d, In d later -> train_end < d < val_start)
        /\ (forall d, In d (dates_of tr) <-> In d (earlier ++ [train_end]))).
Proof.
  intros H.
  destruct (train_val_inv _ _ _ _ _ _ H eq_refl)
    as (all & val_start & label_days & train_end & Hall & Hvs & Hld & Hte & Htr & Hva).
  destruct (pool_dates _ _ _ _ _ _ _ _ Hva eq_refl) as [Hdv _].
  destruct (pool_dates _ _ _ _ _ _ _ _ Htr eq_refl) as [Hdt _].
  set (dates := get_level_values0 (dropna all)) in *.
  set (D := unique (List.filter (fun d => d <? val_start) dates)) in *.
  assert (HD : forall d, In d D <-> In d dates /\ d < val_start).
  { intros d. unfold D. rewrite unique_In, filter_In, Z.ltb_lt. tauto. }
  pose proof (getitem_In _ _ _ Hte) as HteD. apply HD in HteD.
  destruct HteD as [Hte_in Hte_lt].
  apply getitem_Return in Hte. destruct Hte as (j & Hn & Hjlt & Hj).
  destruct (nth_error_split3 _ _ _ Hn) as [Hsplit Hlen].
  exists all, val_start, label_days, train_end, (firstn j D), (skipn (S j) D).
  split; [exact Hall|]. split; [exact Hld|].
  split.
  { split.
    - rewrite Hdv, filter_In, Z.leb_le. split; [|lia].
      eapply getitem_In; eassumption.
    - intros d. rewrite Hdv, filter_In, Z.leb_le. tauto. }
  split; [exact Hsplit|].
  split.
  { intros Hpos. rewrite List.length_skipn.
    destruct (- label_days <? 0) eqn:B; [|apply Z.ltb_ge in B; lia]. lia. }
  split.
  { split.
    - rewrite Hdt, filter_In, Z.leb_le. split; [exact Hte_in | lia].
    - intros d. rewrite Hdt, filter_In, Z.leb_le. tauto. }
  split; [exact Hte_lt|].
  intros Hchr.
  assert (Hinc : StronglySorted Z.lt (firstn j D ++ [train_end] ++ skipn (S j) D)).
  { rewrite <- Hsplit. unfold D. apply unique_increasing, filter_sorted.
    now apply chronological_sorted. }
  apply increasing_app_inv in Hinc. destruct Hinc as [Hearly Hlate].
  split.
  - intros d Hd. split; [now apply Hlate|].
    assert (In d D) as HdD.
    { rewrite Hsplit. apply in_or_app. right. apply in_or_app. now right. }
    apply HD in HdD. tauto.
  - intros d. rewrite Hdt, filter_In, Z.leb_le. split.
    + intros [Hin Hle].
      assert (In d D) as HdD by (apply HD; split; [exact Hin | lia]).
      rewrite Hsplit in HdD. apply in_app_or in HdD.
      destruct HdD as [Hd|Hd]; [apply in_or_app; now left|].
      apply in_app_or in Hd. destruct Hd as [Hd|Hd]; [apply in_or_app; now right|].
      apply Hlate in Hd. lia.
    + intros Hd. apply in_app_or in Hd. destruct Hd as [Hd|[<-|[]]].
      * split; [|apply Hearly in Hd; lia].
        assert (In d D) as HdD by (rewrite Hsplit; apply in_or_app; now left).
        apply HD in HdD. tauto.
      * split; [exact Hte_in | lia].
Qed.
End TrainValidation.

Section Construction.
Import Examples ExamplesAux Py.

Variable feature : string -> option feature_class.

Lemma new_feature_inv h cls_name tickers date l f :
  new_feature feature h cls_name tickers date l = Return f ->
  exists c, feature cls_name = Some c
            /\ name f = cls_name /\ cls f = c /\ f_params f = l
            /\ f_tickers f = tickers /\ f_date f = date
            /\ col_names f = fc_col_names c tickers date (deref h l).
Proof.
  unfold new_feature. destruct (feature cls_name) as [c|]; [|discriminate].
  intros [= <-]. exists c. simpl. repeat split; reflexivity.
Qed.

Lemma new_features_inv h tickers date (ps : list (string * positive)) fs :
  mapM (fun p => new_feature feature h (fst p) tickers date (snd p)) ps = Return fs ->
  List.map name fs = List.map fst ps
  /\ List.map f_params fs = List.map snd ps
  /\ List.length fs = List.length ps
  /\ (forall f, In f fs -> f_tickers f = tickers /\ f_date f = date).
Proof.
  intros H. apply mapM_Forall2 in H.
  induction H as [|p f ps' fs' Hf HF IH]; simpl.
  - split; [|split; [|split]]; try reflexivity. intros f [].
  - apply new_feature_inv in Hf.
    destruct Hf as (c & _ & Hn & _ & Hp & Ht & Hd & _).
    destruct IH as (IH1 & IH2 & IH3 & IH4).
    rewrite Hn, Hp, IH1, IH2, IH3. split; [|split; [|split]]; try reflexivity.
    intros g [<-|Hg]; [split; assumption | now apply IH4].
Qed.

Lemma init_inv h tickers date (ps : list (string * positive)) self h' :
  __init__ feature h tickers date ps = Return (self, h') ->
  exists p0 rest f0 fs,
    ps = p0 :: rest
    /\ _test_labels_params self = fresh (dom h)
    /\ h' = <[fresh (dom h) := <["days" := PInt 1]> (deref h (snd p0))]> h
    /\ new_feature feature h' (fst p0) tickers date (fresh (dom h)) = Return f0
    /\ mapM (fun p => new_feature feature h' (fst p) tickers date (snd p)) ps
       = Return fs
    /\ _features self = f0 :: fs
    /\ _params self = ps /\ _tickers self = tickers /\ _date self = date.
Proof.
  unfold __init__. intros H.
  destruct ps as [|p0 rest]; [discriminate|].
  change (getitem (p0 :: rest) 0) with (Return (A:=string * positive) p0) in H.
  unfold mbind, result_bind, bind, deepcopy, setitem in H.
  set (tl := fresh (dom h)) in *.
  assert (Hh : <[tl := <["days" := PInt 1]> (deref (<[tl := deref h (snd p0)]> h) tl)]>
                 (<[tl := deref h (snd p0)]> h)
               = <[tl := <["days" := PInt 1]> (deref h (snd p0))]> h).
  { unfold deref at 1. rewrite lookup_total_insert_eq. apply insert_insert_eq. }
  rewrite Hh in H. clear Hh.
  set (h2 := <[tl := <["days" := PInt 1]> (deref h (snd p0))]> h) in *.
  destruct (new_feature feature h2 (fst p0) tickers date tl) as [f0|] eqn:E0;
    [|discriminate].
  destruct (mapM _ (p0 :: rest)) as [fs|] eqn:E1; [|discriminate].
  injection H as <- <-. exists p0, rest, f0, fs. simpl.
  repeat split; try reflexivity; assumption.
Qed.

Lemma fresh_not_allocated (h : gmap positive (gmap string pval)) :
  h !! fresh (dom h) = None.
Proof. apply not_elem_of_dom. apply is_fresh. Qed.

(** C8.  After [Examples.__init__] on a store in which the caller's
    dictionaries are live: the parameter list kept by the object is the
    caller's; the parameters of the test-label feature are a new
    dictionary, distinct from each of the caller's, holding the items of
    the first entry's dictionary with ["days"] set to 1; every dictionary
    of the caller has the content it had before, so the production label
    feature, which refers to the first entry's own dictionary, still sees
    the caller's ["days"]; and a later assignment into either of the two
    label dictionaries leaves the other one unchanged. *)
Theorem init_copies_label_params h tickers date (ps : list (string * positive))
    self h' :
  __init__ feature h tickers date ps = Return (self, h') ->
  (forall p, In p ps -> is_Some (h !! snd p)) ->
  exists p0 rest f_test f_label others,
    ps = p0 :: rest
    /\ _params self = ps
    /\ _features self = f_test :: f_label :: others
    /\ f_params f_test = _test_labels_params self
    /\ h !! _test_labels_params self = None
    /\ (forall p, In p ps -> snd p <> _test_labels_params self)
    /\ deref h' (_test_labels_params self)
       = <["days" := PInt 1]> (deref h (snd p0))
    /\ (forall l, is_Some (h !! l) -> h' !! l = h !! l)
    /\ (forall p, In p ps -> deref h' (snd p) = deref h (snd p))
    /\ (name f_label = fst p0 /\ f_params f_label = snd p0)
    /\ deref h' (f_params f_label) !! "days" = deref h (snd p0) !! "days"
    /\ (forall k v,
           deref (setitem h' (_test_labels_params self) k v) (snd p0)
           = deref h' (snd p0)
           /\ deref (setitem h' (snd p0) k v) (_test_labels_params self)
              = deref h' (_test_labels_params self)).
Proof.
  intros H Hlive. apply init_inv in H.
  destruct H as (p0 & rest & f0 & fs & -> & Htl & -> & Hf0 & Hfs & Hfeat & Hps & _).
  pose proof (fresh_not_allocated h) as Hfresh. rewrite <- Htl in *.
  set (tl := _test_labels_params self) in *.
  assert (Hne : forall p, In p (p0 :: rest) -> snd p <> tl).
  { intros p Hp E. destruct (Hlive p Hp) as [d Hd]. rewrite E in Hd. congruence. }
  assert (Hkeep : forall l, l <> tl ->
             (<[tl := <["days" := PInt 1]> (deref h (snd p0))]> h) !! l = h !! l).
  { intros l Hl. now rewrite lookup_insert_ne. }
  simpl in Hfs. destruct (new_feature feature _ (fst p0) tickers date (snd p0))
    as [f1|] eqn:E1; [|discriminate].
  destruct (mapM _ rest) as [fr|] eqn:E2; [|discriminate]. injection Hfs as <-.
  apply new_feature_inv in Hf0. destruct Hf0 as (c0 & _ & _ & _ & Hp0 & _).
  apply new_feature_inv in E1. destruct E1 as (c1 & _ & Hn1 & _ & Hp1 & _).
  exists p0, rest, f0, f1, fr.
  assert (Hd0 : deref (<[tl := <["days" := PInt 1]> (deref h (snd p0))]> h) (snd p0)
                = deref h (snd p0)).
  { unfold deref, lookup_total, map_lookup_total.
    rewrite Hkeep; [reflexivity | apply Hne; now left]. }
  repeat split; try assumption; try reflexivity.
  - unfold deref. now rewrite lookup_total_insert_eq.
  - intros l [d Hd]. apply Hkeep. intros E. rewrite E in Hd. congruence.
  - intros p Hp. unfold deref, lookup_total, map_lookup_total.
    rewrite Hkeep; [reflexivity | now apply Hne].
  - rewrite Hp1, Hd0. reflexivity.
  - unfold setitem. unfold deref at 1. unfold lookup_total, map_lookup_total.
    rewrite lookup_insert_ne; [reflexivity|]. intros E. symmetry in E.
    revert E. apply Hne. now left.
  - unfold setitem. unfold deref at 1. unfold lookup_total, map_lookup_total.
    rewrite lookup_insert_ne; [reflexivity|]. apply Hne. now left.
Qed.
End Construction.

Section Columns.
Import Examples ExamplesAux Py.

Variable feature : string -> option feature_class.

Lemma extend_loop {A B} (g : A -> list B) l acc :
  List.fold_left (fun rez x => rez ++ g x) l acc = acc ++ List.concat (List.map g l).
Proof.
  revert acc. induction l as [|x l IH]; intros acc; simpl.
  - now rewrite List.app_nil_r.
  - now rewrite IH, <- List.app_assoc.
Qed.

Lemma combine_fst_all {A B} (l1 : list A) (l2 : list B) :
  (List.length l1 <= List.length l2)%nat -> List.map fst (combine l1 l2) = l1.
Proof.
  revert l2. induction l1 as [|x l1 IH]; intros [|y l2] H; simpl in *;
    try reflexivity; try lia.
  rewrite IH; [reflexivity | lia].
Qed.

Lemma get_all_tables h self params f0 others :
  _features self = f0 :: others ->
  get_all h self params
  = Return (concat_axis1
              (get h f0 (_test_labels_params self)
               :: List.map (fun fp => get h (fst fp) (snd (snd fp)))
                           (combine others params))).
Proof.
  intros Hf. unfold get_all. rewrite Hf.
  change (getitem (f0 :: others) 0) with (Return f0). reflexivity.
Qed.

Lemma get_all_columns h self params f0 others :
  _features self = f0 :: others ->
  exists all,
    get_all h self params = Return all
    /\ columns all
       = columns (get h f0 (_test_labels_params self))
         ++ List.concat (List.map (fun fp => columns (get h (fst fp) (snd (snd fp))))
                                  (combine others params)).
Proof.
  intros Hf. rewrite (get_all_tables _ _ _ _ _ Hf).
  eexists. split; [reflexivity|].
  unfold concat_axis1. simpl. rewrite List.map_map. reflexivity.
Qed.

(** C6.  For an example set built by [Examples.__init__] and for every
    parameter list passed to [get_all] (on any later store that kept the
    test-label dictionary), the joint table is the side-by-side join of the
    test-label table, computed from the first entry's dictionary with
    ["days"] forced to 1 whatever the list passed, and of the tables of the
    configured features in their configured order (label, scaler,
    predictive features), each under the parameters at its position of the
    list; its columns are their columns in that order; and every
    configured feature contributes its block when the list has an entry
    for each of them. *)
Theorem get_all_column_order h tickers date (ps : list (string * positive)) self h' :
  __init__ feature h tickers date ps = Return (self, h') ->
  exists p0 c0 f_test others,
    hd_error ps = Some p0 /\ feature (fst p0) = Some c0
    /\ _features self = f_test :: others
    /\ List.map name others = List.map fst ps
    /\ forall h'' params,
         h'' !! _test_labels_params self = h' !! _test_labels_params self ->
         exists all,
           get_all h'' self params = Return all
           /\ all
              = concat_axis1
                  (fc_get c0 tickers date (<["days" := PInt 1]> (deref h (snd p0)))
                   :: List.map (fun fp => get h'' (fst fp) (snd (snd fp)))
                               (combine others params))
           /\ columns all
              = columns (fc_get c0 tickers date
                                (<["days" := PInt 1]> (deref h (snd p0))))
                ++ List.concat
                     (List.map (fun fp => columns (get h'' (fst fp) (snd (snd fp))))
                               (combine others params))
           /\ ((List.length ps <= List.length params)%nat ->
               List.map fst (combine others params) = others).
Proof.
  intros H. apply init_inv in H.
  destruct H as (p0 & rest & f0 & fs & -> & Htl & -> & Hf0 & Hfs & Hfeat & _).
  apply new_feature_inv in Hf0.
  destruct Hf0 as (c0 & Hc0 & _ & Hcls & _ & Ht & Hd & _).
  apply new_features_inv in Hfs. destruct Hfs as (Hnames & _ & Hlen & _).
  exists p0, c0, f0, fs. repeat split; try assumption.
  intros h'' params Hsame.
  assert (Htest : get h'' f0 (_test_labels_params self)
                  = fc_get c0 tickers date (<["days" := PInt 1]> (deref h (snd p0)))).
  { unfold get, deref, lookup_total, map_lookup_total.
    rewrite Hsame, Htl, lookup_insert_eq, Hcls, Ht, Hd. reflexivity. }
  destruct (get_all_columns h'' self params f0 fs Hfeat) as (all & Hall & Hcols).
  exists all. split; [exact Hall|]. split; [|split].
  - rewrite (get_all_tables _ _ _ _ _ Hfeat), Htest in Hall. now injection Hall.
  - rewrite Hcols, Htest. reflexivity.
  - intros Hle. apply combine_fst_all. lia.
Qed.

(** C2.  For an example set built by [Examples.__init__],
    [get_features_names] is the flattened list of the column names of the
    features configured after the first entry of the parameter list: the
    scaler and the predictive features, without the test label and the
    label; its length is the total number of those names.  When each
    feature's table has the columns the feature announces and the two label
    tables have one column each, it is the list of feature names, and of
    data columns, of the pools returned by [train_val_pool_params]. *)
Theorem feature_names_start_at_scaler h tickers date (ps : list (string * positive))
    self h' :
  __init__ feature h tickers date ps = Return (self, h') ->
  exists f_test f_label rest,
    _features self = f_test :: f_label :: rest
    /\ List.map name rest = List.map fst (skipn 1 ps)
    /\ get_features_names self = List.concat (List.map col_names rest)
    /\ List.length (get_features_names self)
       = list_sum (List.map (fun f => List.length (col_names f)) rest)
    /\ forall params tr va,
         (forall feat, In feat (_features self) ->
            forall d, columns (fc_get (cls feat) (f_tickers feat) (f_date feat) d)
                      = col_names feat) ->
         List.length (col_names f_test) = 1%nat ->
         List.length (col_names f_label) = 1%nat ->
         (List.length ps <= List.length (py_or params ps))%nat ->
         train_val_pool_params h' self params = Return (tr, va) ->
         feature_names tr = get_features_names self
         /\ columns (data tr) = get_features_names self
         /\ feature_names va = get_features_names self
         /\ columns (data va) = get_features_names self.
Proof.
  intros H. apply init_inv in H.
  destruct H as (p0 & rest & f0 & fs & -> & Htl & Hh & Hf0 & Hfs & Hfeat & Hps & _).
  pose proof (new_features_inv _ _ _ _ _ _ Hfs) as (Hnames & _ & Hlen & _).
  destruct fs as [|f1 fr]; [discriminate Hlen|].
  exists f0, f1, fr.
  assert (Hgfn : get_features_names self = List.concat (List.map col_names fr)).
  { unfold get_features_names. rewrite Hfeat. unfold slice_from. simpl.
    now rewrite extend_loop. }
  split; [exact Hfeat|]. split; [now injection Hnames|]. split; [exact Hgfn|].
  split.
  { rewrite Hgfn, List.length_concat, List.map_map. reflexivity. }
  intros params tr va Hcoh H0 H1 Hle Htv.
  destruct (train_val_inv _ _ _ _ _ _ Htv eq_refl)
    as (all & val_start & label_days & train_end & Hall & _ & _ & _ & Htr & Hva).
  rewrite Hps in *.
  destruct (get_all_columns h' self (py_or params (p0 :: rest)) f0 (f1 :: fr) Hfeat)
    as (all' & Hall' & Hcols).
  rewrite Hall in Hall'. injection Hall' as <-.
  assert (Hskip : skipn 2 (columns all) = get_features_names self).
  { rewrite Hcols, Hgfn.
    assert (Hblk : forall (others : list feature_obj) (qs : list (string * positive)),
               (forall feat, In feat others -> In feat (_features self)) ->
               (List.length others <= List.length qs)%nat ->
               List.concat (List.map (fun fp => columns (get h' (fst fp) (snd (snd fp))))
                                     (combine others qs))
               = List.concat (List.map col_names others)).
    { induction others as [|o others IH]; intros [|q qs] Hin Hl; simpl in *;
        try reflexivity; try lia.
      unfold get at 1. rewrite Hcoh by (apply Hin; now left).
      rewrite IH; [reflexivity | intros; apply Hin; now right | lia]. }
    rewrite Hblk.
    - unfold get. rewrite Hcoh by (rewrite Hfeat; now left).
      simpl. destruct (col_names f0) as [|a [|b l0]]; try discriminate H0.
      destruct (col_names f1) as [|a1 [|b1 l1]]; try discriminate H1.
      reflexivity.
    - intros feat Hin. rewrite Hfeat. now right.
    - simpl in *. lia. }
  apply pool_params_inv in Htr. destruct Htr as (Hdt & Hft & _).
  apply pool_params_inv in Hva. destruct Hva as (Hdv & Hfv & _).
  rewrite Hdt, Hdv, Hft, Hfv. simpl. auto.
Qed.
End Columns.

Section Weights.
Import Examples ExamplesAux Py.

Lemma weights_of_complete_rows h self ps all part b p :
  rectangular all = true ->
  pool_params h self ps (dropna all) part b = Return p ->
  columns part = columns all ->
  (forall r, In r (rows part) -> In r (rows (dropna all))) ->
  forall kw, In kw (pool_weight p) ->
    exists cells q,
      In (fst kw, cells) (rows all)
      /\ existsb is_nan cells = false
      /\ nth 2 cells NaN = Num q
      /\ snd kw = (if Qeq_bool q 0 then WInf else WNum (/ (q * q))).
Proof.
  intros Hrect H Hcols Hsub kw Hkw.
  apply pool_params_inv in H.
  destruct H as (_ & _ & _ & Hwide & Hw & Hnum & _).
  rewrite Hw in Hkw. apply in_map_iff in Hkw. destruct Hkw as ([k cells] & <- & Hr).
  specialize (Hnum _ Hr). specialize (Hsub _ Hr). simpl in *.
  apply filter_In in Hsub. destruct Hsub as [Hin Hnn]. simpl in Hnn.
  apply negb_true_iff in Hnn.
  unfold rectangular in Hrect. rewrite forallb_forall in Hrect.
  specialize (Hrect _ Hin). apply Nat.eqb_eq in Hrect. simpl in Hrect.
  assert (Hnth : In (nth 2 cells NaN) cells).
  { apply nth_In. rewrite Hrect, <- Hcols. exact Hwide. }
  destruct Hnum as (q & [Hq|Hq]).
  - exfalso. rewrite Hq in Hnth.
    assert (existsb is_nan cells = true) as Hex
        by (apply existsb_exists; exists NaN; split; [exact Hnth | reflexivity]).
    congruence.
  - exists cells, q. rewrite Hq. simpl. repeat split; assumption.
Qed.

Lemma select_rows p f r : In r (rows (select p f)) -> In r (rows f).
Proof. unfold select. simpl. intros H. now apply filter_In in H. Qed.

Lemma train_predict_inv h self tr pr :
  train_predict_pool_params h self = Return (tr, pr) ->
  exists all,
    get_all h self (_params self) = Return all
    /\ pool_params h self None all (select (fun d => d =? _date self) all) false
       = Return pr
    /\ pool_params h self None (dropna all) (dropna all) true = Return tr.
Proof.
  unfold train_predict_pool_params. intros H.
  unfold mbind, result_bind, bind in H.
  destruct (get_all h self _) as [all|] eqn:E1; [|discriminate].
  destruct (pool_params h self None all _ false) as [pr'|] eqn:E2; [|discriminate].
  destruct (pool_params h self None (dropna all) _ true) as [tr'|] eqn:E3;
    [|discriminate].
  injection H as <- <-. exists all. auto.
Qed.

(** C5.  With rectangular feature tables: every weight of the training and
    validation pools of [train_val_pool_params], and of the training pool
    of [train_predict_pool_params], is computed on the scaler of a row of
    the joint table that has no missing cell, so on a number [q]; the
    weight is [1 / q ** 2], infinite when [q] is zero (such rows are
    kept).  The prediction pool has one weight for every row of the joint
    table at the as-of date, none dropped. *)
Theorem weights_only_on_complete_rows h self :
  well_formed self ->
  (forall params tr va,
      train_val_pool_params h self params = Return (tr, va) ->
      forall kw, In kw (pool_weight tr) \/ In kw (pool_weight va) ->
        exists all cells q,
          get_all h self (py_or params (_params self)) = Return all
          /\ In (fst kw, cells) (rows all)
          /\ existsb is_nan cells = false
          /\ nth 2 cells NaN = Num q
          /\ snd kw = (if Qeq_bool q 0 then WInf else WNum (/ (q * q))))
  /\ (forall tr pr,
         train_predict_pool_params h self = Return (tr, pr) ->
         exists all,
           get_all h self (_params self) = Return all
           /\ (forall kw, In kw (pool_weight tr) ->
                 exists cells q,
                   In (fst kw, cells) (rows all)
                   /\ existsb is_nan cells = false
                   /\ nth 2 cells NaN = Num q
                   /\ snd kw = (if Qeq_bool q 0 then WInf else WNum (/ (q * q))))
           /\ pool_weight pr
              = List.map (fun r => (fst r, weight_of_cell (nth 2 (snd r) NaN)))
                         (List.filter (fun r => fst (fst r) =? _date self)
                                      (rows all))).
Proof.
  intros W. split.
  - intros params tr va H kw Hkw.
    destruct (train_val_inv _ _ _ _ _ _ H eq_refl)
      as (all & val_start & label_days & train_end & Hall & _ & _ & _ & Htr & Hva).
    pose proof (get_all_rectangular _ _ _ _ W Hall) as Hrect.
    exists all.
    destruct Hkw as [Hkw|Hkw].
    + destruct (weights_of_complete_rows _ _ _ _ _ _ _ Hrect Htr eq_refl
                  (select_rows _ _) kw Hkw) as (cells & q & Hq).
      exists cells, q. split; [exact Hall | exact Hq].
    + destruct (weights_of_complete_rows _ _ _ _ _ _ _ Hrect Hva eq_refl
                  (select_rows _ _) kw Hkw) as (cells & q & Hq).
      exists cells, q. split; [exact Hall | exact Hq].
  - intros tr pr H. apply train_predict_inv in H.
    destruct H as (all & Hall & Hpr & Htr).
    pose proof (get_all_rectangular _ _ _ _ W Hall) as Hrect.
    exists all. split; [exact Hall|]. split.
    + intros kw Hkw.
      exact (weights_of_complete_rows _ _ _ _ _ _ _ Hrect Htr eq_refl
               (fun r Hr => Hr) kw Hkw).
    + apply pool_params_inv in Hpr. destruct Hpr as (_ & _ & _ & _ & Hw & _).
      exact Hw.
Qed.
End Weights.

Section Samples.
Import Examples ExamplesAux Py.

Lemma sample_class_rectangular nm categorical f tickers date ps :
  rectangular (fc_get (sample_class nm categorical f) tickers date ps) = true.
Proof.
  unfold rectangular. simpl. apply forallb_forall. intros r Hr.
  unfold sample_rows in Hr. apply in_flat_map in Hr. destruct Hr as (n & _ & Hr).
  apply in_flat_map in Hr. destruct Hr as (tk & _ & Hr).
  destruct (Z.of_nat n <=? last_day tk date); [|destruct Hr].
  destruct Hr as [<-|[]]. reflexivity.
Qed.

Lemma sample_feature_rectangular n c :
  sample_feature n = Some c ->
  forall tickers date ps, rectangular (fc_get c tickers date ps) = true.
Proof.
  unfold sample_feature. intros H tickers date ps.
  repeat (destruct (String.eqb n _);
          [injection H as <-; apply sample_class_rectangular|]).
  discriminate.
Qed.

Lemma init_well_formed feature h tickers date (ps : list (string * positive))
    self h' :
  (forall n c, feature n = Some c ->
               forall ts d q, rectangular (fc_get c ts d q) = true) ->
  __init__ feature h tickers date ps = Return (self, h') ->
  well_formed self.
Proof.
  intros Hreg H. apply init_inv in H.
  destruct H as (p0 & rest & f0 & fs & _ & _ & _ & Hf0 & Hfs & Hfeat & _).
  unfold well_formed. rewrite Hfeat. intros feat [<-|Hin].
  - apply new_feature_inv in Hf0. destruct Hf0 as (c & Hc & _ & <- & _).
    now apply (Hreg _ _ Hc).
  - apply mapM_Forall2 in Hfs. clear Hfeat.
    induction Hfs as [|p f ps' fs' Hf HF IH]; [destruct Hin|].
    destruct Hin as [<-|Hin]; [|now apply IH].
    apply new_feature_inv in Hf. destruct Hf as (c & Hc & _ & <- & _).
    now apply (Hreg _ _ Hc).
Qed.

Lemma sample_feature_columns n c :
  sample_feature n = Some c ->
  forall ts dt d d',
    columns (fc_get c ts dt d) = fc_col_names c ts dt d'
    /\ List.length (fc_col_names c ts dt d') = 1%nat.
Proof.
  unfold sample_feature. intros H ts dt d d'.
  repeat (destruct (String.eqb n _);
          [injection H as <-; split; reflexivity|]).
  discriminate.
Qed.

Lemma sample_init_coherent h tickers date (ps : list (string * positive)) self h' :
  __init__ sample_feature h tickers date ps = Return (self, h') ->
  forall feat, In feat (_features self) ->
    (forall d, columns (fc_get (cls feat) (f_tickers feat) (f_date feat) d)
               = col_names feat)
    /\ List.length (col_names feat) = 1%nat.
Proof.
  intros H. apply init_inv in H.
  destruct H as (p0 & rest & f0 & fs & _ & _ & _ & Hf0 & Hfs & Hfeat & _).
  assert (Hone : forall hh n l f,
             new_feature sample_feature hh n tickers date l = Return f ->
             (forall d, columns (fc_get (cls f) (f_tickers f) (f_date f) d)
                        = col_names f)
             /\ List.length (col_names f) = 1%nat).
  { intros hh n l f Hf. apply new_feature_inv in Hf.
    destruct Hf as (c & Hc & _ & Hcls & _ & Ht & Hd & Hcol).
    rewrite Hcls, Ht, Hd, Hcol.
    split.
    - intros d. exact (proj1 (sample_feature_columns _ _ Hc _ _ _ _)).
    - exact (proj2 (sample_feature_columns _ _ Hc tickers date (deref hh l) _)). }
  rewrite Hfeat. intros feat [<-|Hin]; [now apply (Hone _ _ _ _ Hf0)|].
  apply mapM_Forall2 in Hfs. clear Hfeat.
  induction Hfs as [|p f ps' fs' Hf HF IH]; [destruct Hin|].
  destruct Hin as [<-|Hin]; [now apply (Hone _ _ _ _ Hf) | now apply IH].
Qed.
End Samples.

Section Counterexamples.
Import Examples ExamplesAux Py.

(** C1, on sample data.  One ticker, ten complete dates 1..10, a label
    horizon of 2 days: the validation block starts at date 10, the distinct
    pre-split dates are 1..9, and the training block runs up to date 8,
    which is one of the last two distinct pre-split dates and is exactly,
    not strictly less than, two distinct dates before the split. *)
Lemma train_block_keeps_a_date_of_the_last_label_days :
  match __init__ sample_feature sample_heap ["A"] 12 sample_params with
  | Return (self, h) =>
      match train_val_pool_params h self None, get_all h self (_params self) with
      | Return (tr, va), Return all =>
          label_days_of h (_params self) = Return 2
          /\ dates_of va = [10]
          /\ unique (List.filter (fun d => d <? 10) (get_level_values0 (dropna all)))
             = [1; 2; 3; 4; 5; 6; 7; 8; 9]
          /\ dates_of tr = [1; 2; 3; 4; 5; 6; 7; 8]
      | _, _ => False
      end
  | Raise _ => False
  end.
Proof. vm_compute. repeat split; reflexivity. Qed.

(** C3, on sample data.  Ticker "OLD" stops trading early, so early dates
    have two rows and late dates one: the distinct dates are 1..10, whose
    90th percentile is date 10, but the validation block starts at date 9,
    the date of the row at the 90th percentile of the rows. *)
Lemma split_is_by_rows_not_by_distinct_dates :
  match __init__ sample_feature sample_heap ["A"; "OLD"] 12 sample_params with
  | Return (self, h) =>
      match train_val_pool_params h self None, get_all h self (_params self) with
      | Return (tr, va), Return all =>
          let distinct := unique (get_level_values0 (dropna all)) in
          distinct = [1; 2; 3; 4; 5; 6; 7; 8; 9; 10]
          /\ getitem distinct (split_position (List.length distinct)) = Return 10
          /\ dates_of va = [9; 10]
      | _, _ => False
      end
  | Raise _ => False
  end.
Proof. vm_compute. repeat split; reflexivity. Qed.

(** C5, on sample data.  Ticker "FLAT" has a zero scaler: its complete row
    stays in the validation pool and gets an infinite weight.  With the
    as-of date 0 the scaler is missing, and the prediction pool gets its
    weights from those missing values. *)
Lemma weights_computed_on_zero_and_missing_scalers :
  match __init__ sample_feature sample_heap ["A"; "FLAT"] 12 sample_params,
        __init__ sample_feature sample_heap ["A"; "FLAT"] 0 sample_params with
  | Return (self, h), Return (self0, h0) =>
      match train_val_pool_params h self None, train_predict_pool_params h0 self0 with
      | Return (tr, va), Return (tr0, pr0) =>
          rows (data va) = [((10, "A"), [Num 1; Cat "A"]);
                            ((10, "FLAT"), [Num 0; Cat "FLAT"])]
          /\ pool_weight va = [((10, "A"), WNum 1); ((10, "FLAT"), WInf)]
          /\ rows (data pr0) = [((0, "A"), [NaN; Cat "A"]);
                                ((0, "FLAT"), [NaN; Cat "FLAT"])]
          /\ pool_weight pr0 = [((0, "A"), WNaN); ((0, "FLAT"), WNaN)]
      | _, _ => False
      end
  | _, _ => False
  end.
Proof. vm_compute. repeat split; reflexivity. Qed.

(** C6, on sample data.  An example set with a label, a scaler and a
    ticker feature, asked for the joint table under a parameter list with
    a single entry: the table has the test-label and label columns only;
    there is no scaler column at position 2. *)
Lemma short_parameter_list_drops_the_scaler_column :
  match __init__ sample_feature sample_heap ["A"] 12 sample_params with
  | Return (self, h) =>
      match get_all h self [("Label", 1%positive)] with
      | Return all =>
          List.map name (_features self) = ["Label"; "Label"; "Scaler"; "Ticker"]
          /\ columns all = ["Label"; "Label"]
          /\ nth_error (columns all) 2 = None
      | Raise _ => False
      end
  | Raise _ => False
  end.
Proof. vm_compute. repeat split; reflexivity. Qed.

(** C2, on sample data.  For an example set with a label, a scaler and a
    ticker feature, [get_features_names] starts with the scaler's
    column. *)
Lemma feature_names_include_the_scaler :
  match __init__ sample_feature sample_heap ["A"] 12 sample_params with
  | Return (self, h) =>
      List.map name (_features self) = ["Label"; "Label"; "Scaler"; "Ticker"]
      /\ List.map col_names (_features self)
         = [["Label"]; ["Label"]; ["Scaler"]; ["Ticker"]]
      /\ get_features_names self = ["Scaler"; "Ticker"]
  | Raise _ => False
  end.
Proof. vm_compute. repeat split; reflexivity. Qed.
End Counterexamples.

Section Witnesses.
Import Examples ExamplesAux Py.

(** C3 on the sample with the early-retired ticker. *)
Lemma validation_starts_at_row_percentile_witness :
  exists self h tr va,
    __init__ sample_feature sample_heap ["A"; "OLD"] 12 sample_params
    = Return (self, h)
    /\ train_val_pool_params h self None = Return (tr, va)
    /\ exists all val_start,
         get_all h self (py_or None (_params self)) = Return all
         /\ nth_error (get_level_values0 (dropna all))
                      (Z.to_nat (split_position
                                   (List.length (get_level_values0 (dropna all)))))
            = Some val_start
         /\ rows (data va)
            = List.map (fun r => (fst r, skipn 2 (snd r)))
                       (List.filter (fun r => val_start <=? fst (fst r))
                                    (rows (dropna all)))
         /\ (forall d, In d (dates_of va) <->
                       In d (get_level_values0 (dropna all)) /\ val_start <= d)
         /\ (forall d, In d (dates_of tr) ->
                       In d (get_level_values0 (dropna all)) /\ d < val_start).
Proof.
  assert (E : match __init__ sample_feature sample_heap ["A"; "OLD"] 12 sample_params
              with
              | Return (self, h) => is_raise (train_val_pool_params h self None)
              | Raise _ => true
              end = false) by (vm_compute; reflexivity).
  destruct (__init__ sample_feature sample_heap ["A"; "OLD"] 12 sample_params)
    as [[self h]|e]; [|discriminate E].
  destruct (train_val_pool_params h self None) as [[tr va]|e] eqn:E1;
    [|discriminate E].
  exists self, h, tr, va. split; [reflexivity|]. split; [exact E1|].
  exact (validation_starts_at_row_percentile h self None tr va E1).
Defined.

(** C1 on the one-ticker sample: the rows are in chronological order and
    the label horizon is 2 days. *)
Lemma train_block_rolled_back_witness :
  exists self h tr va all0,
    __init__ sample_feature sample_heap ["A"] 12 sample_params = Return (self, h)
    /\ train_val_pool_params h self None = Return (tr, va)
    /\ get_all h self (py_or None (_params self)) = Return all0
    /\ chronological (get_level_values0 (dropna all0)) = true
    /\ label_days_of h (py_or None (_params self)) = Return 2
    /\ exists all val_start label_days train_end earlier later,
         get_all h self (py_or None (_params self)) = Return all
         /\ label_days_of h (py_or None (_params self)) = Return label_days
         /\ (In val_start (dates_of va)
             /\ forall d, In d (dates_of va) -> val_start <= d)
         /\ unique (List.filter (fun d => d <? val_start)
                                (get_level_values0 (dropna all)))
            = earlier ++ [train_end] ++ later
         /\ (1 <= label_days -> Z.of_nat (List.length later) = label_days - 1)
         /\ (In train_end (dates_of tr)
             /\ forall d, In d (dates_of tr) -> d <= train_end)
         /\ train_end < val_start
         /\ (chronological (get_level_values0 (dropna all)) = true ->
             (forall d, In d later -> train_end < d < val_start)
             /\ (forall d, In d (dates_of tr) <-> In d (earlier ++ [train_end]))).
Proof.
  assert (E : match __init__ sample_feature sample_heap ["A"] 12 sample_params with
              | Return (self, h) =>
                  match train_val_pool_params h self None,
                        get_all h self (py_or None (_params self)),
                        label_days_of h (py_or None (_params self)) with
                  | Return _, Return all, Return ld =>
                      chronological (get_level_values0 (dropna all)) && (ld =? 2)
                  | _, _, _ => false
                  end
              | Raise _ => false
              end = true) by (vm_compute; reflexivity).
  destruct (__init__ sample_feature sample_heap ["A"] 12 sample_params)
    as [[self h]|e]; [|discriminate E].
  destruct (train_val_pool_params h self None) as [[tr va]|e] eqn:E1;
    [|discriminate E].
  destruct (get_all h self (py_or None (_params self))) as [all0|e] eqn:E2;
    [|discriminate E].
  destruct (label_days_of h (py_or None (_params self))) as [ld|e] eqn:E3;
    [|discriminate E].
  apply andb_true_iff in E. destruct E as [Ec El]. apply Z.eqb_eq in El. subst ld.
  exists self, h, tr, va, all0.
  split; [reflexivity|]. split; [exact E1|]. split; [exact E2|].
  split; [exact Ec|]. split; [exact E3|].
  exact (train_block_rolled_back h self None tr va E1).
Defined.

(** C8 on the sample store and parameter list. *)
Lemma init_copies_label_params_witness :
  exists self h',
    __init__ sample_feature sample_heap ["A"] 12 sample_params = Return (self, h')
    /\ (forall p, In p sample_params -> is_Some (sample_heap !! snd p))
    /\ exists p0 rest f_test f_label others,
         sample_params = p0 :: rest
         /\ _params self = sample_params
         /\ _features self = f_test :: f_label :: others
         /\ f_params f_test = _test_labels_params self
         /\ sample_heap !! _test_labels_params self = None
         /\ (forall p, In p sample_params -> snd p <> _test_labels_params self)
         /\ deref h' (_test_labels_params self)
            = <["days" := PInt 1]> (deref sample_heap (snd p0))
         /\ (forall l, is_Some (sample_heap !! l) -> h' !! l = sample_heap !! l)
         /\ (forall p, In p sample_params ->
                       deref h' (snd p) = deref sample_heap (snd p))
         /\ (name f_label = fst p0 /\ f_params f_label = snd p0)
         /\ deref h' (f_params f_label) !! "days"
            = deref sample_heap (snd p0) !! "days"
         /\ (forall k v,
                deref (setitem h' (_test_labels_params self) k v) (snd p0)
                = deref h' (snd p0)
                /\ deref (setitem h' (snd p0) k v) (_test_labels_params self)
                   = deref h' (_test_labels_params self)).
Proof.
  assert (E : is_raise (__init__ sample_feature sample_heap ["A"] 12 sample_params)
              = false) by (vm_compute; reflexivity).
  destruct (__init__ sample_feature sample_heap ["A"] 12 sample_params)
    as [[self h']|e] eqn:E0; [|discriminate E].
  assert (Hlive : forall p, In p sample_params -> is_Some (sample_heap !! snd p)).
  { intros p [<-|[<-|[<-|[]]]]; eexists; reflexivity. }
  exists self, h'. split; [reflexivity|]. split; [exact Hlive|].
  exact (init_copies_label_params sample_feature sample_heap ["A"] 12
           sample_params self h' E0 Hlive).
Defined.

(** C6 on the one-ticker sample. *)
Lemma get_all_column_order_witness :
  exists self h',
    __init__ sample_feature sample_heap ["A"] 12 sample_params = Return (self, h')
    /\ exists p0 c0 f_test others,
         hd_error sample_params = Some p0 /\ sample_feature (fst p0) = Some c0
         /\ _features self = f_test :: others
         /\ List.map name others = List.map fst sample_params
         /\ forall h'' params,
              h'' !! _test_labels_params self = h' !! _test_labels_params self ->
              exists all,
                get_all h'' self params = Return all
                /\ all
                   = concat_axis1
                       (fc_get c0 ["A"] 12
                               (<["days" := PInt 1]> (deref sample_heap (snd p0)))
                        :: List.map (fun fp => get h'' (fst fp) (snd (snd fp)))
                                    (combine others params))
                /\ columns all
                   = columns (fc_get c0 ["A"] 12
                                     (<["days" := PInt 1]>
                                        (deref sample_heap (snd p0))))
                     ++ List.concat
                          (List.map
                             (fun fp => columns (get h'' (fst fp) (snd (snd fp))))
                             (combine others params))
                /\ ((List.length sample_params <= List.length params)%nat ->
                    List.map fst (combine others params) = others).
Proof.
  assert (E : is_raise (__init__ sample_feature sample_heap ["A"] 12 sample_params)
              = false) by (vm_compute; reflexivity).
  destruct (__init__ sample_feature sample_heap ["A"] 12 sample_params)
    as [[self h']|e] eqn:E0; [|discriminate E].
  exists self, h'. split; [reflexivity|].
  exact (get_all_column_order sample_feature sample_heap ["A"] 12
           sample_params self h' E0).
Defined.

(** C5 on the sample with the zero-scaler ticker. *)
Lemma weights_only_on_complete_rows_witness :
  exists self h,
    __init__ sample_feature sample_heap ["A"; "FLAT"] 12 sample_params
    = Return (self, h)
    /\ well_formed self
    /\ (forall params tr va,
           train_val_pool_params h self params = Return (tr, va) ->
           forall kw, In kw (pool_weight tr) \/ In kw (pool_weight va) ->
             exists all cells q,
               get_all h self (py_or params (_params self)) = Return all
               /\ In (fst kw, cells) (rows all)
               /\ existsb is_nan cells = false
               /\ nth 2 cells NaN = Num q
               /\ snd kw = (if Qeq_bool q 0 then WInf else WNum (/ (q * q))))
    /\ (forall tr pr,
           train_predict_pool_params h self = Return (tr, pr) ->
           exists all,
             get_all h self (_params self) = Return all
             /\ (forall kw, In kw (pool_weight tr) ->
                   exists cells q,
                     In (fst kw, cells) (rows all)
                     /\ existsb is_nan cells = false
                     /\ nth 2 cells NaN = Num q
                     /\ snd kw = (if Qeq_bool q 0 then WInf
                                  else WNum (/ (q * q))))
             /\ pool_weight pr
                = List.map (fun r => (fst r, weight_of_cell (nth 2 (snd r) NaN)))
                           (List.filter (fun r => fst (fst r) =? _date self)
                                        (rows all))).
Proof.
  assert (E : is_raise (__init__ sample_feature sample_heap ["A"; "FLAT"] 12
                          sample_params) = false) by (vm_compute; reflexivity).
  destruct (__init__ sample_feature sample_heap ["A"; "FLAT"] 12 sample_params)
    as [[self h]|e] eqn:E0; [|discriminate E].
  assert (W : well_formed self).
  { eapply init_well_formed; [apply sample_feature_rectangular | exact E0]. }
  exists self, h. split; [reflexivity|]. split; [exact W|].
  exact (weights_only_on_complete_rows h self W).
Defined.

(** C2 on the one-ticker sample, pools included. *)
Lemma feature_names_start_at_scaler_witness :
  exists self h' tr va,
    __init__ sample_feature sample_heap ["A"] 12 sample_params = Return (self, h')
    /\ train_val_pool_params h' self None = Return (tr, va)
    /\ (exists f_test f_label rest,
           _features self = f_test :: f_label :: rest
           /\ List.map name rest = List.map fst (skipn 1 sample_params)
           /\ get_features_names self = List.concat (List.map col_names rest))
    /\ feature_names tr = get_features_names self
    /\ columns (data tr) = get_features_names self
    /\ feature_names va = get_features_names self
    /\ columns (data va) = get_features_names self.
Proof.
  assert (E : match __init__ sample_feature sample_heap ["A"] 12 sample_params with
              | Return (self, h) => is_raise (train_val_pool_params h self None)
              | Raise _ => true
              end = false) by (vm_compute; reflexivity).
  destruct (__init__ sample_feature sample_heap ["A"] 12 sample_params)
    as [[self h']|e] eqn:E0; [|discriminate E].
  destruct (train_val_pool_params h' self None) as [[tr va]|e] eqn:E1;
    [|discriminate E].
  pose proof (sample_init_coherent _ _ _ _ _ _ E0) as Hcoh.
  destruct (feature_names_start_at_scaler sample_feature sample_heap ["A"] 12
              sample_params self h' E0)
    as (f_test & f_label & rest & Hfeat & Hnames & Hgfn & _ & Hpool).
  exists self, h', tr, va. split; [reflexivity|]. split; [exact E1|].
  split; [exists f_test, f_label, rest; auto|].
  apply (Hpool None tr va).
  - intros feat Hin. now apply Hcoh.
  - apply Hcoh. rewrite Hfeat. now left.
  - apply Hcoh. rewrite Hfeat. right. now left.
  - simpl. lia.
  - exact E1.
Defined.
End Witnesses.

Section ValidateCov.
Import Forecaster ForecasterAux Py.

Lemma mapM_close rtol d ss :
  mapM (fun ac => close_to_square rtol (fst ac) (snd ac))
       (combine d (List.map Examples.Num ss))
  = Return (List.map (fun as_ => within rtol (fst as_) (snd as_)) (combine d ss)).
Proof.
  revert ss. induction d as [|a d IH]; intros [|s ss]; simpl; try reflexivity.
  now rewrite IH.
Qed.

Lemma forallb_id_map {A} (g : A -> bool) l :
  forallb (fun ok : bool => ok) (List.map g l) = forallb g l.
Proof. induction l as [|x l IH]; simpl; [reflexivity | now rewrite IH]. Qed.

Lemma validate_cov_numeric rtol cov p ss :
  basis p = List.map Examples.Num ss ->
  validate_cov rtol cov p
  = if negb (List.length (diag cov) =? List.length ss)%nat
    then Raise (POptimizerError COV_MISMATCH)
    else if forallb (fun as_ => within rtol (fst as_) (snd as_)) (combine (diag cov) ss)
         then Return tt
         else Raise (POptimizerError COV_MISMATCH).
Proof.
  intros Hb. unfold validate_cov. rewrite Hb, List.length_map.
  destruct (negb _); [reflexivity|].
  rewrite mapM_close. simpl. unfold mbind, result_bind, bind.
  now rewrite forallb_id_map.
Qed.

Lemma within_exact rtol a s : (0 <= rtol)%Q -> (a == s * s)%Q -> within rtol a s = true.
Proof.
  intros Hr E. unfold within. apply Qle_bool_iff.
  assert (H0 : (a - s * s == 0)%Q) by (rewrite E; ring).
  rewrite H0. change (Qabs 0) with 0%Q.
  apply Qmult_le_0_compat; [exact Hr | apply Qabs_nonneg].
Qed.

Lemma within_far rtol a s :
  (rtol * Qabs (s * s) < Qabs (a - s * s))%Q -> within rtol a s = false.
Proof.
  intros H. unfold within. destruct (Qle_bool _ _) eqn:E; [|reflexivity].
  apply Qle_bool_iff in E. exfalso. exact (Qlt_not_le _ _ H E).
Qed.

Lemma validate_cov_exact rtol cov p ss :
  (0 <= rtol)%Q ->
  basis p = List.map Examples.Num ss ->
  Forall2 (fun a s => a == s * s)%Q (diag cov) ss ->
  validate_cov rtol cov p = Return tt.
Proof.
  intros Hr Hb HF. rewrite (validate_cov_numeric _ _ _ ss Hb). clear Hb.
  assert (Hall : forallb (fun as_ => within rtol (fst as_) (snd as_))
                         (combine (diag cov) ss) = true).
  { induction HF as [|a s d ss' E HF IH]; simpl; [reflexivity|].
    now rewrite (within_exact _ _ _ Hr E). }
  assert (Hlen : List.length (diag cov) = List.length ss).
  { clear Hall. induction HF as [|a s d ss' E HF IH]; simpl; [reflexivity|].
    now rewrite IH. }
  rewrite Hall, Hlen, Nat.eqb_refl. reflexivity.
Qed.

Lemma validate_cov_mismatch rtol cov p ss i a s :
  basis p = List.map Examples.Num ss ->
  nth_error (diag cov) i = Some a ->
  nth_error ss i = Some s ->
  (rtol * Qabs (s * s) < Qabs (a - s * s))%Q ->
  validate_cov rtol cov p = Raise (POptimizerError COV_MISMATCH).
Proof.
  intros Hb Ha Hs Hfar. rewrite (validate_cov_numeric _ _ _ ss Hb).
  destruct (negb _); [reflexivity|].
  assert (forallb (fun as_ => within rtol (fst as_) (snd as_))
                  (combine (diag cov) ss) = false) as ->; [|reflexivity].
  clear Hb. revert i ss Ha Hs. generalize (diag cov).
  induction l as [|x l IH]; intros [|i] [|y ss'] Ha Hs; simpl in *; try discriminate.
  - injection Ha as ->. injection Hs as ->. now rewrite within_far.
  - rewrite (IH i ss' Ha Hs). apply andb_false_r.
Qed.

Lemma test_cov_rejected rtol :
  (rtol <= 1 # 100)%Q ->
  validate_cov rtol test_cov test_pool = Raise (POptimizerError COV_MISMATCH).
Proof.
  intros Hr.
  apply (validate_cov_mismatch rtol test_cov test_pool [1; 2; 3]%Q 2%nat (91 # 10) 3);
    try reflexivity.
  apply Qle_lt_trans with ((1 # 100) * Qabs (3 * 3))%Q.
  - apply Qmult_le_compat_r; [exact Hr | apply Qabs_nonneg].
  - reflexivity.
Qed.

Lemma failure_aborts rtol estimate mean_of diagnostics tickers' date' p ps e :
  validate_cov rtol (fst (fst (estimate tickers' date' p))) p = Raise e ->
  ledoit_wolf_cov rtol estimate tickers' date' p = Raise e
  /\ get_forecast rtol estimate mean_of diagnostics tickers' date' p ps = Raise e.
Proof.
  intros H. unfold get_forecast, ledoit_wolf_cov.
  destruct (estimate tickers' date' p) as [[c a] s]. simpl in H.
  rewrite H. split; reflexivity.
Qed.

(** C4.  For a relative tolerance between 0 and 1e-2: [validate_cov]
    returns when the diagonal of the covariance equals the squared basis
    column entry by entry; it raises [POptimizerError] with the text
    [COV_MISMATCH] when some diagonal entry differs from the squared basis
    entry by more than the tolerance, in particular for the diagonal
    [1, 4, 9.1] against the basis [1, 2, 3]; and when it raises,
    [ledoit_wolf_cov] and [get_forecast] raise the same error instead of
    returning a forecast. *)
Theorem validate_cov_accepts_exact_rejects_mismatch (rtol : Q) :
  (0 <= rtol)%Q -> (rtol <= 1 # 100)%Q ->
  (forall cov p ss,
      basis p = List.map Examples.Num ss ->
      Forall2 (fun a s => a == s * s)%Q (diag cov) ss ->
      validate_cov rtol cov p = Return tt)
  /\ (forall cov p ss i a s,
         basis p = List.map Examples.Num ss ->
         nth_error (diag cov) i = Some a ->
         nth_error ss i = Some s ->
         (rtol * Qabs (s * s) < Qabs (a - s * s))%Q ->
         validate_cov rtol cov p = Raise (POptimizerError COV_MISMATCH))
  /\ validate_cov rtol test_cov test_pool = Raise (POptimizerError COV_MISMATCH)
  /\ (forall estimate mean_of diagnostics tickers' date' p ps e,
         validate_cov rtol (fst (fst (estimate tickers' date' p))) p = Raise e ->
         ledoit_wolf_cov rtol estimate tickers' date' p = Raise e
         /\ get_forecast rtol estimate mean_of diagnostics tickers' date' p ps
            = Raise e).
Proof.
  intros Hlo Hhi. split; [|split; [|split]].
  - intros. eapply validate_cov_exact; eassumption.
  - intros. eapply validate_cov_mismatch; eassumption.
  - now apply test_cov_rejected.
  - intros. eapply failure_aborts; eassumption.
Qed.

(** C4 at the tolerance 1e-5, on the pool of the test. *)
Lemma validate_cov_accepts_exact_rejects_mismatch_witness :
  validate_cov (1 # 100000) good_cov test_pool = Return tt
  /\ validate_cov (1 # 100000) test_cov test_pool
     = Raise (POptimizerError COV_MISMATCH).
Proof.
  destruct (validate_cov_accepts_exact_rejects_mismatch (1 # 100000))
    as (Hok & _ & Hbad & _); [discriminate | discriminate |].
  split; [|exact Hbad].
  apply (Hok good_cov test_pool [1; 2; 3]%Q); [reflexivity|].
  repeat constructor.
Defined.
End ValidateCov.

Section ValidateCache.
Import Forecaster ForecasterAux.

Lemma validate_cache_spec f tickers' date' params' :
  validate_cache f tickers' date' params' = true
  <-> tickers' = tickers f /\ date' = date f /\ params' = forecast_params f.
Proof.
  unfold validate_cache. rewrite !andb_true_iff, !bool_decide_eq_true. tauto.
Qed.

Lemma validate_cache_false f tickers' date' params' :
  tickers' <> tickers f \/ date' <> date f \/ params' <> forecast_params f ->
  validate_cache f tickers' date' params' = false.
Proof.
  intros H. destruct (validate_cache f tickers' date' params') eqn:E; [|reflexivity].
  apply validate_cache_spec in E. tauto.
Qed.

Lemma set_model_param_changes k v p :
  p_model p !! k <> Some v -> set_model_param k v p <> p.
Proof.
  intros H E. apply H. rewrite <- E at 1. simpl. apply lookup_insert_eq.
Qed.

(** C7.  [validate_cache] accepts a forecast for its own tickers, date and
    parameters; it is true exactly when the requested tuple of tickers (as
    an ordered tuple), the requested date and the requested parameters
    equal those of the cached forecast; changing the tickers, the date,
    the parameters, or a single hyper-parameter of the model makes it
    false, and so does swapping two different tickers.  It is a function
    of its arguments only. *)
Theorem validate_cache_reflexive_and_exact
    (f : Forecast) (tickers' : list string) (date' : Z) (params' : params) :
  validate_cache f (tickers f) (date f) (forecast_params f) = true
  /\ (validate_cache f tickers' date' params' = true
      <-> tickers' = tickers f /\ date' = date f /\ params' = forecast_params f)
  /\ (tickers' <> tickers f ->
      validate_cache f tickers' (date f) (forecast_params f) = false)
  /\ (date' <> date f ->
      validate_cache f (tickers f) date' (forecast_params f) = false)
  /\ (params' <> forecast_params f ->
      validate_cache f (tickers f) (date f) params' = false)
  /\ (forall k v, p_model (forecast_params f) !! k <> Some v ->
      validate_cache f (tickers f) (date f)
                     (set_model_param k v (forecast_params f)) = false)
  /\ (forall a b, a <> b -> tickers f = [a; b] ->
      validate_cache f [b; a] (date f) (forecast_params f) = false).
Proof.
  split; [now apply validate_cache_spec|].
  split; [apply validate_cache_spec|].
  repeat split; intros; apply validate_cache_false; auto.
  - right. right. now apply set_model_param_changes.
  - left. congruence.
Qed.

(** C7 on the fixtures of the tests. *)
Lemma validate_cache_reflexive_and_exact_witness :
  validate_cache FORECAST ["RTKM"; "UPRO"; "DSKY"] 20190316 PARAMS = true
  /\ validate_cache FORECAST ["RTKM"; "UPRO"; "DSKY"; "FEES"] 20190316 PARAMS = false
  /\ validate_cache FORECAST ["RTKM"; "UPRO"; "DSKY"] 20190315 PARAMS = false
  /\ validate_cache FORECAST ["RTKM"; "UPRO"; "DSKY"] 20190316
       (set_model_param "learning_rate" (MFloat 11 100) PARAMS) = false.
Proof.
  destruct (validate_cache_reflexive_and_exact FORECAST
              ["RTKM"; "UPRO"; "DSKY"; "FEES"] 20190315 PARAMS)
    as (Hrefl & _ & Ht & Hd & _ & Hp & _).
  split; [exact Hrefl|]. split; [apply Ht; discriminate|].
  split; [apply Hd; discriminate|].
  apply Hp. vm_compute. discriminate.
Defined.
End ValidateCache.

(* ===================================================================== *)
(** * Further properties of the code *)
(* ===================================================================== *)

Section CleanUpAgain.
Import Moex MoexAux ExtraAux Py.

Lemma before_key_le a b : before a b -> key_le a b.
Proof. intros H. apply key_le_cases. now right. Qed.

Lemma sort_by_key_sorted_id l :
  StronglySorted key_le l -> sort_by_key l = l.
Proof.
  unfold sort_by_key, sort_by.
  induction 1 as [|x l Hs IH Hall]; simpl; [reflexivity|].
  rewrite IH. destruct l as [|y l']; [reflexivity|]. simpl.
  inversion Hall as [|? ? Hxy _]; subst. unfold key_le in Hxy. now rewrite Hxy.
Qed.

Lemma kept_increasing_id l : forall prev,
  StronglySorted before l ->
  (forall p y, prev = Some p -> In y l -> str_lt p (begin y)) ->
  kept prev l = l.
Proof.
  induction l as [|x l IH]; intros prev Hs Hp; simpl; [reflexivity|].
  inversion Hs as [|? ? Hs' Hall]; subst. rewrite List.Forall_forall in Hall.
  assert (Htail : kept (Some (begin x)) l = l).
  { apply IH; [exact Hs'|]. intros p y [= <-] Hy. now apply Hall. }
  destruct prev as [p|]; [|now rewrite Htail].
  destruct (String.eqb_spec p (begin x)) as [E|_]; [|now rewrite Htail].
  exfalso. specialize (Hp p x eq_refl (or_introl eq_refl)).
  rewrite E in Hp. exact (str_lt_irrefl _ Hp).
Qed.

Lemma clean_up_increasing_id data :
  StronglySorted before data -> _clean_up data = data.
Proof.
  intros Hs. rewrite clean_up_kept.
  rewrite sort_by_key_sorted_id.
  - apply kept_increasing_id; [exact Hs | intros ? ? [=]].
  - clear -Hs. induction Hs as [|x l Hs IH Hall]; constructor; [exact IH|].
    eapply List.Forall_impl; [|exact Hall]. intros y. apply before_key_le.
Qed.

Lemma clean_up_increasing data : StronglySorted before (_clean_up data).
Proof.
  rewrite clean_up_kept.
  destruct (kept_sorted (sort_by_key data) None (sort_by_key_sorted data))
    as [H _]; [intros ? ? [=] | exact H].
Qed.

(** X1.  A list of candles whose opening times are already strictly
    increasing is returned unchanged by [_clean_up]. *)
Theorem clean_up_keeps_clean_data (data : list candle) :
  StronglySorted before data -> _clean_up data = data.
Proof. apply clean_up_increasing_id. Qed.

(** X2.  [_clean_up] is idempotent: cleaning a cleaned list changes
    nothing. *)
Theorem clean_up_idempotent (data : list candle) :
  _clean_up (_clean_up data) = _clean_up data.
Proof. apply clean_up_increasing_id, clean_up_increasing. Qed.

Lemma increasing_unique (l1 l2 : list string) :
  StronglySorted str_lt l1 -> StronglySorted str_lt l2 ->
  (forall x, In x l1 <-> In x l2) -> l1 = l2.
Proof.
  intros H1. revert l2. induction H1 as [|a l1 Hs1 IH Ha]; intros l2 H2 Heq.
  - destruct l2 as [|b l2]; [reflexivity|].
    exfalso. apply (proj2 (Heq b)). now left.
  - destruct H2 as [|b l2 Hs2 Hb].
    + exfalso. apply (proj1 (Heq a)). now left.
    + rewrite List.Forall_forall in Ha, Hb.
      assert (a = b) as ->.
      { destruct (proj1 (Heq a) (or_introl eq_refl)) as [E|Hin]; [now symmetry|].
        destruct (proj2 (Heq b) (or_introl eq_refl)) as [E|Hin']; [exact E|].
        exfalso. specialize (Hb a Hin). specialize (Ha b Hin').
        exact (str_lt_irrefl _ (str_lt_trans _ _ _ Ha Hb)). }
      f_equal. apply IH; [exact Hs2|].
      intros x. split; intros Hx.
      * destruct (proj1 (Heq x) (or_intror Hx)) as [E|Hin]; [|exact Hin].
        exfalso. subst x. exact (str_lt_irrefl _ (Ha b Hx)).
      * destruct (proj2 (Heq x) (or_intror Hx)) as [E|Hin]; [|exact Hin].
        exfalso. subst x. exact (str_lt_irrefl _ (Hb b Hx)).
Qed.

Lemma before_map_begin l :
  StronglySorted before l -> StronglySorted str_lt (List.map begin l).
Proof.
  induction 1 as [|x l Hs IH Hall]; simpl; constructor; [exact IH|].
  rewrite List.Forall_forall in *. intros b Hb. apply in_map_iff in Hb.
  destruct Hb as (y & <- & Hy). now apply Hall.
Qed.

Lemma clean_up_begins data b :
  In b (List.map begin (_clean_up data)) <-> In b (List.map begin data).
Proof.
  rewrite clean_up_kept, !in_map_iff. split.
  - intros (r & E & Hr). exists r. split; [exact E|].
    apply kept_In in Hr. now apply sort_by_In in Hr.
  - intros (y & E & Hy). apply (sort_by_In key_lt) in Hy.
    destruct (kept_covers _ None y Hy) as [[=]|(r & Hr & Er)].
    exists r. split; [congruence | exact Hr].
Qed.

Lemma clean_up_max data r y :
  In r (_clean_up data) -> In y data -> begin y = begin r -> (value y <= value r)%Q.
Proof.
  rewrite clean_up_kept. intros Hr Hy E. apply (sort_by_In key_lt) in Hy.
  eapply kept_max; eauto. apply sort_by_key_sorted.
Qed.

Lemma clean_up_In data r : In r (_clean_up data) -> In r data.
Proof.
  rewrite clean_up_kept. intros Hr. apply kept_In in Hr. now apply sort_by_In in Hr.
Qed.

Lemma map_eq_Forall2 {A B} (f : A -> B) (P : A -> A -> Prop) l l' :
  List.map f l = List.map f l' ->
  (forall a b, In a l -> In b l' -> f a = f b -> P a b) ->
  Forall2 P l l'.
Proof.
  revert l'. induction l as [|a l IH]; intros [|b l'] E HP; simpl in E;
    try discriminate; [constructor|].
  injection E as E1 E2. constructor.
  - apply HP; [now left | now left | exact E1].
  - apply IH; [exact E2|]. intros x y Hx Hy. apply HP; now right.
Qed.

(** X3.  The dates and turnovers kept by [_clean_up] depend only on which
    candles the input holds, not on their order: two inputs with the same
    candles give outputs with the same list of opening times and, row by
    row, equal turnovers. *)
Theorem clean_up_order_independent (data data' : list candle) :
  (forall r, In r data <-> In r data') ->
  List.map begin (_clean_up data) = List.map begin (_clean_up data')
  /\ Forall2 same_quote (_clean_up data) (_clean_up data').
Proof.
  intros Hsame.
  assert (Hb : List.map begin (_clean_up data) = List.map begin (_clean_up data')).
  { apply increasing_unique; try apply before_map_begin, clean_up_increasing.
    intros b. rewrite !clean_up_begins, !in_map_iff.
    split; intros (r & E & Hr); exists r; (split; [exact E|]); now apply Hsame. }
  split; [exact Hb|].
  apply (map_eq_Forall2 begin); [exact Hb|].
  intros a b Ha Hb' E. split; [exact E|]. apply Qle_antisym.
  - apply (clean_up_max data' b a); [exact Hb' | | exact E].
    apply Hsame. now apply clean_up_In.
  - apply (clean_up_max data a b); [exact Ha | | now symmetry].
    apply Hsame. now apply clean_up_In.
Qed.
End CleanUpAgain.

Section QuotesFacts.
Import Moex MoexAux Quotes QuotesAux Py.

Lemma mapM_futures {A} (rez : list (result A)) :
  match mapM (fun future => future) rez with
  | Return data => rez = List.map Return data
  | Raise x =>
      exists pre post,
        rez = List.map Return pre ++ [Raise x] ++ post
  end.
Proof.
  induction rez as [|r rez IH]; simpl; [reflexivity|].
  destruct r as [a|x]; [|exists [], rez; reflexivity].
  destruct (mapM (fun future => future) rez) as [data|x].
  - now rewrite IH.
  - destruct IH as (pre & post & ->). exists (a :: pre), post. reflexivity.
Qed.

Lemma mapM_futures_first {A} (pre : list A) x (post : list (result A)) :
  mapM (fun future => future) (List.map Return pre ++ Raise x :: post) = Raise x.
Proof. induction pre as [|a pre IH]; simpl; [reflexivity | now rewrite IH]. Qed.

Lemma mapM_futures_all {A} (data : list A) :
  mapM (fun future => future) (List.map Return data) = Return data.
Proof. induction data as [|a data IH]; simpl; [reflexivity | now rewrite IH]. Qed.

Lemma download_many_unfold e aliases reg_date log :
  aliases <> [] ->
  _download_many e aliases reg_date log
  = (match mapM (fun future => future) (List.map (candles_of e reg_date) aliases) with
     | Raise x => Raise x
     | Return data => Return (_clean_up (List.concat data))
     end,
     log ++ List.map (candles_request e reg_date) aliases).
Proof.
  intros Hne. unfold _download_many. destruct aliases as [|a l]; [contradiction|].
  fold (candles_of e reg_date). fold (candles_request e reg_date).
  destruct (mapM _ _); reflexivity.
Qed.

(** X4.  [_download_many] raises without sending a request when it is
    given no alias (the executor refuses to start without workers).  With
    aliases, it requests the candles of every alias, in order and over the
    same dates, before reading any answer: if the request of some alias
    fails while those of the aliases before it succeed, that failure is
    raised, and all the requests have been sent. *)
Theorem download_many_first_failure
    (e : env) (reg_date : Z) (log : list request)
    (before_ after_ : list string) (failed : string) (x : exn) :
  _download_many e [] reg_date log = (Raise (ExternalError NO_WORKERS), log)
  /\ ((forall t, In t before_ -> is_raise (candles_of e reg_date t) = false) ->
      candles_of e reg_date failed = Raise x ->
      _download_many e (before_ ++ [failed] ++ after_) reg_date log
      = (Raise x,
         log ++ List.map (candles_request e reg_date) (before_ ++ [failed] ++ after_))).
Proof.
  split; [reflexivity|]. intros Hok Hbad.
  rewrite download_many_unfold by (destruct before_; discriminate).
  f_equal. rewrite !List.map_app. simpl. rewrite Hbad.
  assert (Hpre : exists pre, List.map (candles_of e reg_date) before_
                             = List.map Return pre).
  { clear -Hok. induction before_ as [|t l IH]; [exists []; reflexivity|].
    destruct IH as (pre & Hpre); [intros; apply Hok; now right|].
    pose proof (Hok t (or_introl eq_refl)) as Ht.
    destruct (candles_of e reg_date t) as [cs|] eqn:E; [|discriminate Ht].
    exists (cs :: pre). simpl. now rewrite E, Hpre. }
  destruct Hpre as (pre & ->).
  now rewrite (mapM_futures_first pre x).
Qed.

(** X5.  When [_download_many] returns, the candles of every alias were
    requested, and the data returned is the clean-up of all the answers
    together: its opening times are strictly increasing, every row of it
    comes from the answer for one of the aliases, and every candle answered
    for an alias is represented by the row of its opening time, whose
    turnover is at least as large. *)
Theorem download_many_merges_aliases
    (e : env) (aliases : list string) (reg_date : Z) (log log' : list request)
    (data : list candle) :
  _download_many e aliases reg_date log = (Return data, log') ->
  log' = log ++ List.map (candles_request e reg_date) aliases
  /\ StronglySorted before data
  /\ (forall r, In r data ->
        exists t cs, In t aliases /\ candles_of e reg_date t = Return cs /\ In r cs)
  /\ (forall t cs c, In t aliases -> candles_of e reg_date t = Return cs -> In c cs ->
        exists r, In r data /\ begin r = begin c /\ (value c <= value r)%Q).
Proof.
  intros H.
  destruct aliases as [|a l] eqn:Ea; [discriminate H|]. rewrite <- Ea in *.
  rewrite download_many_unfold in H by (rewrite Ea; discriminate).
  pose proof (mapM_futures (List.map (candles_of e reg_date) aliases)) as Hm.
  destruct (mapM _ _) as [answers|x]; [|discriminate H].
  injection H as <- <-. split; [reflexivity|].
  split; [apply clean_up_increasing|].
  assert (Hans : forall cs, In cs answers <->
                            exists t, In t aliases /\ candles_of e reg_date t = Return cs).
  { intros cs. split.
    - intros Hcs. assert (In (Return cs) (List.map (candles_of e reg_date) aliases))
        as Hin by (rewrite Hm; now apply in_map).
      apply in_map_iff in Hin. destruct Hin as (t & Et & Ht). eauto.
    - intros (t & Ht & Et).
      assert (In (Return cs) (List.map Return answers)) as Hin
          by (rewrite <- Hm, <- Et; now apply in_map).
      apply in_map_iff in Hin. destruct Hin as (cs' & [= ->] & Hcs). exact Hcs. }
  split.
  - intros r Hr. apply clean_up_In in Hr.
    apply (proj1 (in_concat _ _)) in Hr.
    destruct Hr as (cs & Hcs & Hr). apply Hans in Hcs.
    destruct Hcs as (t & Ht & Et). eauto.
  - intros t cs c Ht Et Hc.
    assert (Hin : In c (List.concat answers)).
    { apply in_concat. exists cs. split; [|exact Hc]. apply Hans. eauto. }
    assert (Hb : In (begin c) (List.map begin (_clean_up (List.concat answers)))).
    { apply clean_up_begins. now apply in_map. }
    apply in_map_iff in Hb. destruct Hb as (r & Er & Hr).
    exists r. split; [exact Hr|]. split; [exact Er|].
    eapply clean_up_max; eauto.
Qed.
End QuotesFacts.

Section QuotesAliases.
Import Moex MoexAux Quotes QuotesAux Py.

Lemma find_aliases_inv e ticker log log' tickers reg_date :
  _find_aliases e ticker log = (Return (tickers, reg_date), log') ->
  exists table reg results,
    listing e = Return table
    /\ table ticker (REG_NUMBER (base e)) = Return reg
    /\ reg <> VNone
    /\ find_securities e reg = Return results
    /\ log' = log ++ [Listing (db_name e); FindSecurities reg]
    /\ tickers = List.map secid
                          (List.filter (fun row => field_eqb (regnumber row) reg)
                                       results).
Proof.
  unfold _find_aliases, bindM, call, lift, raise, ret. intros H.
  destruct (listing e) as [table|]; [|discriminate H].
  destruct (table ticker (DATE (base e))) as [d|]; [|discriminate H].
  destruct (to_datetime e d _) as [t|]; [|discriminate H].
  destruct (table ticker (REG_NUMBER (base e))) as [reg|] eqn:Er; [|discriminate H].
  exists table, reg.
  destruct reg as [|s|q|z]; [discriminate H| | |];
    (destruct (find_securities e _) as [results|] eqn:Ef; [|discriminate H]);
    injection H as <- <- <-; exists results;
    rewrite <- List.app_assoc; repeat split;
    try reflexivity; try assumption; discriminate.
Qed.

(** X6.  For a ticker whose listing row has no registration number,
    [_find_aliases] raises [POptimizerError] with a message naming the
    ticker, after the listing has been read and before any search or
    candles request; a full [_download] of that ticker fails the same
    way. *)
Theorem find_aliases_without_reg_number
    (e : env) (ticker : string) (log : list request)
    (table : string -> string -> result field) (reg_date : field) (registered : Z) :
  listing e = Return table ->
  table ticker (DATE (base e)) = Return reg_date ->
  to_datetime e reg_date "%d.%m.%Y %H:%M:%S" = Return registered ->
  table ticker (REG_NUMBER (base e)) = Return VNone ->
  _find_aliases e ticker log
  = (Raise (POptimizerError (no_reg_number_msg ticker)), log ++ [Listing (db_name e)])
  /\ _download e ticker None log
     = (Raise (POptimizerError (no_reg_number_msg ticker)),
        log ++ [Listing (db_name e)]).
Proof.
  intros Hl Hd Ht Hr.
  assert (H : _find_aliases e ticker log
              = (Raise (POptimizerError (no_reg_number_msg ticker)),
                 log ++ [Listing (db_name e)])).
  { unfold _find_aliases, bindM, call, lift, raise. now rewrite Hl, Hd, Ht, Hr. }
  split; [exact H|]. unfold _download, bindM at 1 2. now rewrite H.
Qed.

(** [find_aliases_without_reg_number] on sample data. *)
Lemma find_aliases_without_reg_number_witness :
  _find_aliases sample_quotes_env "FUND" []
  = (Raise (POptimizerError (no_reg_number_msg "FUND")), [] ++ [Listing "data"])
  /\ _download sample_quotes_env "FUND" None []
     = (Raise (POptimizerError (no_reg_number_msg "FUND")), [] ++ [Listing "data"]).
Proof.
  apply (find_aliases_without_reg_number sample_quotes_env "FUND" [] sample_listing
           (VStr "01.02.2013 00:00:00") 20070419); reflexivity.
Defined.

(** X7.  When [_find_aliases] returns, the ticker has a registration
    number, the listing was read and one search was made for that number,
    and the aliases are exactly the tickers of the search results that
    carry the same registration number, in the order of the results. *)
Theorem find_aliases_share_reg_number
    (e : env) (ticker : string) (log log' : list request)
    (tickers : list string) (reg_date : Z) :
  _find_aliases e ticker log = (Return (tickers, reg_date), log') ->
  exists table reg results,
    listing e = Return table
    /\ table ticker (REG_NUMBER (base e)) = Return reg
    /\ reg <> VNone
    /\ find_securities e reg = Return results
    /\ log' = log ++ [Listing (db_name e); FindSecurities reg]
    /\ tickers = List.map secid
                          (List.filter (fun row => field_eqb (regnumber row) reg)
                                       results)
    /\ (forall a, In a tickers <->
                  exists row, In row results /\ secid row = a
                              /\ field_eqb (regnumber row) reg = true).
Proof.
  intros H. apply find_aliases_inv in H.
  destruct H as (table & reg & results & Hl & Hr & Hn & Hf & Hlog & Ht).
  exists table, reg, results. repeat split; try assumption.
  - intros Ha. rewrite Ht in Ha. apply in_map_iff in Ha.
    destruct Ha as (row & E & Hrow). apply filter_In in Hrow.
    exists row. tauto.
  - intros (row & Hrow & E & Heq). rewrite Ht. apply in_map_iff.
    exists row. split; [exact E|]. apply filter_In. tauto.
Qed.

(** [find_aliases_share_reg_number] on sample data. *)
Lemma find_aliases_share_reg_number_witness :
  _find_aliases sample_quotes_env "UPRO" []
  = (Return (["UPRO"; "EONR"], 20070419),
     [Listing "data"; FindSecurities (VStr "1-04-65104-D")])
  /\ exists table reg results,
       listing sample_quotes_env = Return table
       /\ table "UPRO" (REG_NUMBER (base sample_quotes_env)) = Return reg
       /\ reg <> VNone
       /\ find_securities sample_quotes_env reg = Return results
       /\ [Listing "data"; FindSecurities (VStr "1-04-65104-D")]
          = [] ++ [Listing (db_name sample_quotes_env); FindSecurities reg]
       /\ ["UPRO"; "EONR"]
          = List.map secid
                     (List.filter (fun row => field_eqb (regnumber row) reg) results)
       /\ (forall a, In a ["UPRO"; "EONR"] <->
                     exists row, In row results /\ secid row = a
                                 /\ field_eqb (regnumber row) reg = true).
Proof.
  assert (E : _find_aliases sample_quotes_env "UPRO" []
              = (Return (["UPRO"; "EONR"], 20070419),
                 [Listing "data"; FindSecurities (VStr "1-04-65104-D")]))
    by reflexivity.
  split; [exact E|].
  exact (find_aliases_share_reg_number sample_quotes_env "UPRO" [] _ _ _ E).
Defined.



(** [download_many_merges_aliases] on sample data. *)
Lemma download_many_merges_aliases_witness :
  exists data log',
    _download_many sample_quotes_env ["UPRO"; "EONR"] 20070419 [] = (Return data, log')
    /\ List.map begin data
       = ["2016-07-07 00:00:00"; "2016-07-08 00:00:00"; "2016-07-11 00:00:00"]
    /\ log' = [] ++ List.map (candles_request sample_quotes_env 20070419)
                             ["UPRO"; "EONR"]
    /\ StronglySorted before data.
Proof.
  assert (E : match _download_many sample_quotes_env ["UPRO"; "EONR"] 20070419 [] with
              | (Return data, _) =>
                  forallb (fun p => String.eqb (fst p) (snd p))
                          (combine (List.map begin data)
                                   ["2016-07-07 00:00:00"; "2016-07-08 00:00:00";
                                    "2016-07-11 00:00:00"])
                  && (List.length data =? 3)%nat
              | _ => false
              end = true) by (vm_compute; reflexivity).
  destruct (_download_many sample_quotes_env ["UPRO"; "EONR"] 20070419 [])
    as [[data|x] log'] eqn:Ed; [|discriminate E].
  destruct (download_many_merges_aliases sample_quotes_env ["UPRO"; "EONR"]
              20070419 [] log' data Ed) as (Hlog & Hs & _).
  exists data, log'. split; [reflexivity|]. split; [|split; assumption].
  apply andb_true_iff in E. destruct E as [Eb El]. apply Nat.eqb_eq in El.
  destruct data as [|a [|b [|c [|d l]]]]; try discriminate El.
  simpl in Eb. rewrite !andb_true_iff in Eb. destruct Eb as (E1 & E2 & E3 & _).
  apply String.eqb_eq in E1, E2, E3. simpl. congruence.
Defined.

(** [download_many_first_failure] on sample data. *)
Lemma download_many_first_failure_witness :
  _download_many sample_quotes_env [] 20070419 []
  = (Raise (ExternalError NO_WORKERS), [])
  /\ _download_many sample_quotes_env (["UPRO"] ++ ["GONE"] ++ ["EONR"]) 20070419 []
     = (Raise (ExternalError "no such security"),
        [] ++ List.map (candles_request sample_quotes_env 20070419)
                       (["UPRO"] ++ ["GONE"] ++ ["EONR"])).
Proof.
  destruct (download_many_first_failure sample_quotes_env 20070419 []
              ["UPRO"] ["EONR"] "GONE" (ExternalError "no such security"))
    as [Hempty Hfail].
  split; [exact Hempty|]. apply Hfail.
  - intros t [<-|[]]. reflexivity.
  - reflexivity.
Defined.

(** [clean_up_keeps_clean_data] on sample data. *)
Lemma clean_up_keeps_clean_data_witness :
  StronglySorted before [sample_candle "2016-07-07 00:00:00" 300;
                         sample_candle "2016-07-08 00:00:00" 500]
  /\ _clean_up [sample_candle "2016-07-07 00:00:00" 300;
                sample_candle "2016-07-08 00:00:00" 500]
     = [sample_candle "2016-07-07 00:00:00" 300;
        sample_candle "2016-07-08 00:00:00" 500].
Proof.
  assert (H : StronglySorted before [sample_candle "2016-07-07 00:00:00" 300;
                                     sample_candle "2016-07-08 00:00:00" 500]).
  { repeat constructor. }
  split; [exact H | exact (clean_up_keeps_clean_data _ H)].
Defined.

(** [clean_up_order_independent] on sample data. *)
Lemma clean_up_order_independent_witness :
  (forall r, In r [sample_candle "2016-07-08 00:00:00" 500;
                   sample_candle "2016-07-08 00:00:00" 200]
             <-> In r [sample_candle "2016-07-08 00:00:00" 200;
                       sample_candle "2016-07-08 00:00:00" 500])
  /\ List.map begin (_clean_up [sample_candle "2016-07-08 00:00:00" 500;
                                sample_candle "2016-07-08 00:00:00" 200])
     = List.map begin (_clean_up [sample_candle "2016-07-08 00:00:00" 200;
                                  sample_candle "2016-07-08 00:00:00" 500])
  /\ Forall2 ExtraAux.same_quote
             (_clean_up [sample_candle "2016-07-08 00:00:00" 500;
                         sample_candle "2016-07-08 00:00:00" 200])
             (_clean_up [sample_candle "2016-07-08 00:00:00" 200;
                         sample_candle "2016-07-08 00:00:00" 500]).
Proof.
  assert (H : forall r, In r [sample_candle "2016-07-08 00:00:00" 500;
                              sample_candle "2016-07-08 00:00:00" 200]
                        <-> In r [sample_candle "2016-07-08 00:00:00" 200;
                                  sample_candle "2016-07-08 00:00:00" 500]).
  { intros r. simpl. tauto. }
  split; [exact H | exact (clean_up_order_independent _ _ H)].
Defined.
End QuotesAliases.

Section ConstructionOutcome.
Import Examples ExamplesAux ExamplesRest ExtraAux Py.

Variable feature : string -> option feature_class.

Lemma new_features_outcome h tickers date (ps : list (string * positive)) :
  match List.find (unknown feature) ps with
  | Some p =>
      mapM (fun p => new_feature feature h (fst p) tickers date (snd p)) ps
      = Raise (AttributeError (fst p))
  | None =>
      exists fs,
        mapM (fun p => new_feature feature h (fst p) tickers date (snd p)) ps
        = Return fs
  end.
Proof.
  induction ps as [|p ps IH]; simpl; [eexists; reflexivity|].
  unfold unknown at 1, new_feature at 1 3.
  destruct (feature (fst p)) as [c|]; [|reflexivity].
  destruct (List.find (unknown feature) ps) as [q|].
  - now rewrite IH.
  - destruct IH as (fs & ->). eexists. reflexivity.
Qed.

(** X9.  [Examples.__init__] raises [IndexError] on an empty parameter
    list; otherwise it raises [AttributeError] for the first class name of
    the list that the feature module does not have, and returns when the
    module has them all, with one feature more than the list has entries
    (the test label comes first). *)
Theorem init_outcome h tickers date (ps : list (string * positive)) :
  match ps with
  | [] => __init__ feature h tickers date ps = Raise IndexError
  | _ :: _ =>
      match List.find (unknown feature) ps with
      | Some p => __init__ feature h tickers date ps = Raise (AttributeError (fst p))
      | None =>
          exists self h',
            __init__ feature h tickers date ps = Return (self, h')
            /\ List.length (_features self) = S (List.length ps)
            /\ tickers = ExamplesRest.tickers self
      end
  end.
Proof.
  destruct ps as [|p0 rest]; [reflexivity|].
  unfold __init__.
  change (getitem (p0 :: rest) 0) with (Return (A:=string * positive) p0).
  unfold mbind, result_bind, bind, deepcopy.
  set (h2 := setitem _ _ _ _).
  set (r0 := new_feature feature h2 (fst p0) tickers date (fresh (dom h))).
  pose proof (new_features_outcome h2 tickers date (p0 :: rest)) as Hall.
  simpl List.find in Hall |- *.
  unfold unknown at 1 in Hall. unfold unknown at 1.
  destruct (feature (fst p0)) as [c0|] eqn:E0.
  - assert (exists f0, r0 = Return f0) as (f0 & ->)
        by (unfold r0, new_feature; rewrite E0; eexists; reflexivity).
    destruct (List.find (unknown feature) rest) as [q|].
    + now rewrite Hall.
    + destruct Hall as (fs & Hfs). rewrite Hfs.
      eexists. eexists. split; [reflexivity|]. simpl. split; [|reflexivity].
      apply new_features_inv in Hfs. destruct Hfs as (_ & _ & -> & _). reflexivity.
  - unfold r0, new_feature. now rewrite E0.
Qed.

(** X10.  For an example set built by [Examples.__init__],
    [get_params_space] has one entry per entry of the parameter list, in
    the same order and under the same class names; the test label has no
    entry. *)
Theorem params_space_follows_params {S : Type} (space_of : feature_obj -> S)
    h tickers date (ps : list (string * positive)) self h' :
  __init__ feature h tickers date ps = Return (self, h') ->
  List.map fst (get_params_space space_of self) = List.map fst ps
  /\ List.length (get_params_space space_of self) = List.length ps.
Proof.
  intros H. apply init_inv in H.
  destruct H as (p0 & rest & f0 & fs & -> & _ & _ & _ & Hfs & Hfeat & _).
  apply new_features_inv in Hfs. destruct Hfs as (Hn & _ & Hl & _).
  unfold get_params_space. rewrite Hfeat. unfold slice_from. simpl skipn.
  rewrite List.map_map, List.length_map. simpl fst. split; [exact Hn | exact Hl].
Qed.
End ConstructionOutcome.

Section Categorical.
Import Examples ExamplesAux ExtraAux Py.

Lemma positions_from (flags : list bool) : forall k n,
  In n (List.map fst (List.filter snd (combine (seq k (List.length flags)) flags)))
  <-> (k <= n)%nat /\ nth_error flags (n - k) = Some true.
Proof.
  induction flags as [|b flags IH]; intros k n; simpl.
  - split; [tauto|]. intros [_ H]. destruct (n - k)%nat; discriminate.
  - assert (Hrest : In n (List.map fst (List.filter snd (combine (seq (S k)
                                               (List.length flags)) flags)))
                    <-> (k < n)%nat /\ nth_error flags (n - S k) = Some true).
    { rewrite IH. split; intros [H1 H2]; split; try lia; exact H2. }
    destruct b; simpl; rewrite ?Hrest; split.
    + intros [<-|[H1 H2]]; [split; [lia|now rewrite Nat.sub_diag]|].
      split; [lia|]. replace (n - k)%nat with (S (n - S k)) by lia. exact H2.
    + intros [H1 H2]. destruct (Nat.eq_dec k n) as [->|Hne]; [now left|].
      right. split; [lia|]. replace (n - k)%nat with (S (n - S k)) in H2 by lia.
      exact H2.
    + intros [H1 H2]. split; [lia|].
      replace (n - k)%nat with (S (n - S k)) by lia. exact H2.
    + intros [H1 H2]. destruct (Nat.eq_dec k n) as [->|Hne].
      * rewrite Nat.sub_diag in H2. discriminate.
      * split; [lia|]. replace (n - k)%nat with (S (n - S k)) in H2 by lia. exact H2.
Qed.

Lemma positions_increasing (flags : list bool) : forall k,
  StronglySorted lt
    (List.map fst (List.filter snd (combine (seq k (List.length flags)) flags))).
Proof.
  induction flags as [|b flags IH]; intros k; simpl; [constructor|].
  destruct b; simpl; [|apply IH].
  constructor; [apply IH|]. apply List.Forall_forall. intros n Hn.
  apply positions_from in Hn. lia.
Qed.

Lemma categorical_features_flags h self params :
  categorical_features h self params
  = List.map fst (List.filter snd (enumerate (cat_flags h self params))).
Proof.
  unfold categorical_features, cat_flags. now rewrite extend_loop.
Qed.

Lemma flags_within_names h (feats : list feature_obj) :
  (forall feat p, In feat feats ->
                  List.length (is_categorical h feat p) = List.length (col_names feat)) ->
  forall (qs : list (string * positive)),
    (List.length (List.concat (List.map (fun fp => is_categorical h (fst fp) (snd (snd fp)))
                                        (combine feats qs)))
     <= List.length (List.concat (List.map col_names feats)))%nat.
Proof.
  induction feats as [|f feats IH]; intros Hlen qs; simpl; [lia|].
  destruct qs as [|q qs]; simpl; [lia|].
  rewrite !List.length_app, Hlen by now left.
  specialize (IH (fun feat p Hin => Hlen feat p (or_intror Hin)) qs). lia.
Qed.

(** X11.  [categorical_features] returns, in increasing order and without
    repetition, exactly the positions of the flags that are true among the
    flags of the features after the label; when every feature gives one
    flag per column it announces, each position is a valid index into
    [get_features_names]. *)
Theorem categorical_positions h self params :
  StronglySorted lt (categorical_features h self params)
  /\ (forall n, In n (categorical_features h self params)
                <-> nth_error (cat_flags h self params) n = Some true)
  /\ ((forall feat p, In feat (slice_from 2 (_features self)) ->
         List.length (is_categorical h feat p) = List.length (col_names feat)) ->
      forall n, In n (categorical_features h self params) ->
                (n < List.length (get_features_names self))%nat).
Proof.
  rewrite categorical_features_flags. unfold enumerate.
  split; [apply positions_increasing|].
  assert (Hpos : forall n,
             In n (List.map fst (List.filter snd
                     (combine (seq 0 (List.length (cat_flags h self params)))
                              (cat_flags h self params))))
             <-> nth_error (cat_flags h self params) n = Some true).
  { intros n. rewrite positions_from, Nat.sub_0_r. split; [tauto|]. split; [lia|tauto]. }
  split; [exact Hpos|].
  intros Hlen n Hn. apply Hpos in Hn.
  assert (n < List.length (cat_flags h self params))%nat as Hlt
      by (apply nth_error_Some; congruence).
  unfold get_features_names. rewrite extend_loop, List.app_nil_l.
  pose proof (flags_within_names h (slice_from 2 (_features self)) Hlen
                (slice_from 1 (py_or params (_params self)))) as Hle.
  unfold cat_flags, zip in Hlt. lia.
Qed.
End Categorical.

Section PoolShape.
Import Examples ExamplesAux ExtraAux Py.

Lemma pool_params_aligned h self ps df part b p :
  pool_params h self ps df part b = Return p ->
  columns part = columns df ->
  aligned p
  /\ index (data p) = index part
  /\ (b = true -> exists l, label p = Some l)
  /\ (b = false -> label p = None).
Proof.
  intros H Hc. apply pool_params_inv in H.
  destruct H as (Hd & Hf & _ & _ & Hw & _ & Hn & Hl).
  assert (Hi : index (data p) = index part).
  { rewrite Hd. unfold index, iloc_from. simpl. now rewrite List.map_map. }
  split; [|split; [exact Hi|split; [|exact Hn]]].
  - unfold aligned. rewrite Hi. split; [|split].
    + rewrite Hw, List.map_map. reflexivity.
    + intros l Hlab. destruct b.
      * destruct (Hl eq_refl) as [_ Hlab']. rewrite Hlab' in Hlab.
        injection Hlab as <-. rewrite List.map_map. reflexivity.
      * rewrite (Hn eq_refl) in Hlab. discriminate.
    + rewrite Hd, Hf. simpl. now rewrite Hc.
  - intros ->. destruct (Hl eq_refl) as [_ Hlab]. eauto.
Qed.

(** X12.  The two pools returned by [train_val_pool_params] are aligned:
    in each, the weights and the labels are indexed exactly like the rows
    of the data and the feature names are the columns of the data; both
    carry labels, and they share their feature names and their
    categorical positions. *)
Theorem train_val_pools_aligned h self params tr va :
  train_val_pool_params h self params = Return (tr, va) ->
  aligned tr /\ aligned va
  /\ (exists l, label tr = Some l) /\ (exists l, label va = Some l)
  /\ feature_names tr = feature_names va
  /\ cat_features tr = cat_features va.
Proof.
  intros H.
  destruct (train_val_inv _ _ _ _ _ _ H eq_refl)
    as (all & val_start & label_days & train_end & _ & _ & _ & _ & Htr & Hva).
  destruct (pool_params_aligned _ _ _ _ _ _ _ Htr eq_refl) as (At & _ & Lt & _).
  destruct (pool_params_aligned _ _ _ _ _ _ _ Hva eq_refl) as (Av & _ & Lv & _).
  apply pool_params_inv in Htr. destruct Htr as (_ & Ft & Ct & _).
  apply pool_params_inv in Hva. destruct Hva as (_ & Fv & Cv & _).
  split; [exact At|]. split; [exact Av|]. split; [now apply Lt|].
  split; [now apply Lv|]. split; congruence.
Qed.

Lemma map_filter_comm {A B} (f : A -> B) (p : B -> bool) l :
  List.map f (List.filter (fun x => p (f x)) l) = List.filter p (List.map f l).
Proof.
  induction l as [|x l IH]; simpl; [reflexivity|].
  destruct (p (f x)); simpl; now rewrite IH.
Qed.

Lemma dates_of_index (p : pool) :
  dates_of p = List.map fst (index (data p)).
Proof.
  unfold dates_of, get_level_values0, index. now rewrite List.map_map.
Qed.

(** X13.  Of the two pools returned by [train_predict_pool_params], the
    prediction pool has no label and holds one row for every row of the
    joint table dated at the as-of date, and no other row; the training
    pool holds every complete row of the joint table, whatever its date;
    both are aligned and share their feature names and their categorical
    positions. *)
Theorem train_predict_pools_shape h self tr pr :
  train_predict_pool_params h self = Return (tr, pr) ->
  exists all,
    get_all h self (_params self) = Return all
    /\ index (data pr) = List.filter (fun k => fst k =? _date self) (index all)
    /\ (forall d, In d (dates_of pr) -> d = _date self)
    /\ label pr = None
    /\ index (data tr) = index (dropna all)
    /\ aligned tr /\ aligned pr
    /\ feature_names pr = feature_names tr
    /\ cat_features pr = cat_features tr.
Proof.
  intros H. apply train_predict_inv in H. destruct H as (all & Hall & Hpr & Htr).
  exists all. split; [exact Hall|].
  destruct (pool_params_aligned _ _ _ _ _ _ _ Hpr eq_refl) as (Ap & Ip & _ & Lp).
  destruct (pool_params_aligned _ _ _ _ _ _ _ Htr eq_refl) as (At & It & _ & _).
  assert (Hidx : index (data pr)
                 = List.filter (fun k => fst k =? _date self) (index all)).
  { rewrite Ip. unfold index, select. simpl.
    apply (map_filter_comm fst (fun k => fst k =? _date self)). }
  apply pool_params_inv in Hpr. destruct Hpr as (_ & Fp & Cp & _).
  apply pool_params_inv in Htr. destruct Htr as (_ & Ft & Ct & _).
  split; [exact Hidx|]. split.
  { intros d Hd. rewrite dates_of_index, Hidx in Hd. apply in_map_iff in Hd.
    destruct Hd as (k & <- & Hk). apply filter_In in Hk. destruct Hk as [_ Hk].
    now apply Z.eqb_eq in Hk. }
  split; [now apply Lp|]. split; [exact It|]. split; [exact At|].
  split; [exact Ap|]. split; [now rewrite Fp, Ft | now rewrite Cp, Ct].
Qed.

Lemma existsb_skipn {A} (f : A -> bool) n l :
  existsb f l = false -> existsb f (skipn n l) = false.
Proof.
  revert l. induction n as [|n IH]; intros [|x l]; simpl; auto.
  intros H. apply orb_false_iff in H. now apply IH.
Qed.

Lemma existsb_false_In {A} (f : A -> bool) l x :
  existsb f l = false -> In x l -> f x = false.
Proof.
  intros H Hx. destruct (f x) eqn:E; [|reflexivity].
  assert (existsb f l = true) by (apply existsb_exists; eauto). congruence.
Qed.

Lemma pool_params_complete h self ps all part b p :
  rectangular all = true ->
  pool_params h self ps (dropna all) part b = Return p ->
  columns part = columns all ->
  (forall r, In r (rows part) -> In r (rows (dropna all))) ->
  complete p.
Proof.
  intros Hrect H Hc Hsub. apply pool_params_inv in H.
  destruct H as (Hd & _ & _ & _ & _ & _ & Hn & Hl).
  assert (Hrow : forall r, In r (rows part) ->
                           existsb is_nan (snd r) = false
                           /\ List.length (snd r) = List.length (columns part)).
  { intros r Hr. specialize (Hsub r Hr). apply filter_In in Hsub.
    destruct Hsub as [Hin Hnn]. apply negb_true_iff in Hnn. split; [exact Hnn|].
    unfold rectangular in Hrect. rewrite forallb_forall in Hrect.
    specialize (Hrect r Hin). apply Nat.eqb_eq in Hrect. now rewrite Hc. }
  split.
  - intros r Hr. rewrite Hd in Hr. apply in_map_iff in Hr.
    destruct Hr as (r0 & <- & Hr0). simpl. apply existsb_skipn. now apply Hrow.
  - intros l kc Hlab Hkc. destruct b; [|rewrite (Hn eq_refl) in Hlab; discriminate].
    destruct (Hl eq_refl) as [Hwide Hlab']. rewrite Hlab' in Hlab.
    injection Hlab as <-. apply in_map_iff in Hkc. destruct Hkc as (r & <- & Hr).
    simpl. destruct (Hrow r Hr) as [Hnn Hlen]. intros E.
    assert (In (nth 1 (snd r) NaN) (snd r)) as Hin by (apply nth_In; lia).
    rewrite E in Hin. pose proof (existsb_false_In _ _ _ Hnn Hin). discriminate.
Qed.

(** X14.  With rectangular feature tables, the training and validation
    pools of [train_val_pool_params] and the training pool of
    [train_predict_pool_params] hold no missing value: no cell of their
    data and none of their labels is missing. *)
Theorem training_pools_complete h self :
  well_formed self ->
  (forall params tr va,
      train_val_pool_params h self params = Return (tr, va) ->
      complete tr /\ complete va)
  /\ (forall tr pr,
         train_predict_pool_params h self = Return (tr, pr) -> complete tr).
Proof.
  intros W. split.
  - intros params tr va H.
    destruct (train_val_inv _ _ _ _ _ _ H eq_refl)
      as (all & val_start & label_days & train_end & Hall & _ & _ & _ & Htr & Hva).
    pose proof (get_all_rectangular _ _ _ _ W Hall) as Hrect.
    split; eapply pool_params_complete; eauto using select_rows.
  - intros tr pr H. apply train_predict_inv in H.
    destruct H as (all & Hall & _ & Htr).
    pose proof (get_all_rectangular _ _ _ _ W Hall) as Hrect.
    eapply pool_params_complete; eauto.
Qed.
End PoolShape.

Section SplitShape.
Import Examples ExamplesAux ExtraAux Py.

Lemma split_position_spec n : split_position n = (9 * Z.of_nat n) / 10.
Proof.
  unfold split_position, TRAIN_VAL_SPLIT, Qfloor, Qmult, inject_Z. simpl.
  f_equal. lia.
Qed.

Lemma split_position_lt n : (0 < n)%nat -> split_position n < Z.of_nat n.
Proof.
  intros H. rewrite split_position_spec.
  apply Z.div_lt_upper_bound; lia.
Qed.

Lemma sorted_split {A} (R : A -> A -> Prop) (p : A -> bool) l :
  StronglySorted R l ->
  (forall a b, R a b -> p b = true -> p a = true) ->
  l = List.filter p l ++ List.filter (fun x => negb (p x)) l.
Proof.
  intros Hs Hp. induction Hs as [|x l Hs IH Hall]; simpl; [reflexivity|].
  destruct (p x) eqn:E; simpl; [now rewrite <- IH|].
  rewrite List.Forall_forall in Hall.
  assert (Hnone : forall y, In y l -> p y = false).
  { intros y Hy. destruct (p y) eqn:Ey; [|reflexivity].
    rewrite (Hp x y (Hall y Hy) Ey) in E. discriminate. }
  assert (List.filter p l = []) as ->.
  { clear -Hnone. induction l as [|y l IH]; simpl; [reflexivity|].
    rewrite (Hnone y) by now left. apply IH. intros; apply Hnone; now right. }
  simpl. f_equal.
  clear -Hnone. induction l as [|y l IH]; simpl; [reflexivity|].
  rewrite (Hnone y) by now left. simpl. f_equal. apply IH. intros; apply Hnone; now right.
Qed.

Lemma sorted_map_inv {A} (f : A -> Z) l :
  StronglySorted Z.le (List.map f l) ->
  StronglySorted (fun a b => f a <= f b) l.
Proof.
  induction l as [|x l IH]; simpl; intros H; [constructor|].
  inversion H as [|? ? Hs Hall]; subst. constructor; [now apply IH|].
  rewrite List.Forall_forall in *. intros y Hy. apply Hall. now apply in_map.
Qed.

Lemma sorted_filter_rows {A} (R : A -> A -> Prop) (p : A -> bool) l :
  StronglySorted R l -> StronglySorted R (List.filter p l).
Proof.
  induction 1 as [|x l Hs IH Hall]; simpl; [constructor|].
  destruct (p x); [|exact IH]. constructor; [exact IH|].
  rewrite List.Forall_forall in *. intros y Hy. apply filter_In in Hy. now apply Hall.
Qed.

Lemma filter_filter {A} (p q : A -> bool) l :
  List.filter p (List.filter q l) = List.filter (fun x => q x && p x) l.
Proof.
  induction l as [|x l IH]; simpl; [reflexivity|].
  destruct (q x); simpl; [destruct (p x)|]; now rewrite IH.
Qed.

Lemma rows_three_way (R : list (key * list cell)) lo hi :
  lo < hi ->
  StronglySorted (fun a b => fst (fst a) <= fst (fst b)) R ->
  R = List.filter (fun r => fst (fst r) <=? lo) R
      ++ List.filter (fun r => (lo <? fst (fst r)) && (fst (fst r) <? hi)) R
      ++ List.filter (fun r => hi <=? fst (fst r)) R.
Proof.
  intros Hlt Hs.
  rewrite (sorted_split _ (fun r => fst (fst r) <=? lo) R Hs) at 1.
  2:{ intros a b Hab Hb. apply Z.leb_le in Hb. apply Z.leb_le. lia. }
  f_equal.
  set (R2 := List.filter (fun x => negb (fst (fst x) <=? lo)) R).
  assert (Hs2 : StronglySorted (fun a b => fst (fst a) <= fst (fst b)) R2)
    by now apply sorted_filter_rows.
  rewrite (sorted_split _ (fun r => fst (fst r) <? hi) R2 Hs2).
  2:{ intros a b Hab Hb. apply Z.ltb_lt in Hb. apply Z.ltb_lt. lia. }
  unfold R2. rewrite !filter_filter. f_equal; apply List.filter_ext; intros r.
  - rewrite Z.leb_antisym, negb_involutive. reflexivity.
  - destruct (fst (fst r) <=? lo) eqn:E1; destruct (fst (fst r) <? hi) eqn:E2;
      destruct (hi <=? fst (fst r)) eqn:E3; simpl; try reflexivity;
      rewrite ?Z.leb_le, ?Z.leb_gt, ?Z.ltb_lt, ?Z.ltb_ge in *; lia.
Qed.

(** X15.  With the complete rows in chronological order, the pools of
    [train_val_pool_params] cut the complete rows into three consecutive
    stretches: the training rows, then the rows dated strictly between the
    end of training and the validation start, which belong to no pool,
    then the validation rows.  No complete row is in both pools and none
    outside the gap is lost. *)
Theorem train_gap_validation_partition h self params tr va :
  train_val_pool_params h self params = Return (tr, va) ->
  exists all train_end val_start,
    get_all h self (py_or params (_params self)) = Return all
    /\ train_end < val_start
    /\ (chronological (get_level_values0 (dropna all)) = true ->
        feature_rows (dropna all)
        = rows (data tr) ++ gap_rows train_end val_start (dropna all)
                         ++ rows (data va)).
Proof.
  intros H.
  destruct (train_val_inv _ _ _ _ _ _ H eq_refl)
    as (all & val_start & label_days & train_end & Hall & Hvs & Hld & Hte & Htr & Hva).
  exists all, train_end, val_start. split; [exact Hall|].
  assert (Hlt : train_end < val_start).
  { apply getitem_In, unique_In, filter_In in Hte. destruct Hte as [_ Hte].
    now apply Z.ltb_lt in Hte. }
  split; [exact Hlt|]. intros Hchr.
  destruct (pool_dates _ _ _ _ _ _ _ _ Htr eq_refl) as [_ ->].
  destruct (pool_dates _ _ _ _ _ _ _ _ Hva eq_refl) as [_ ->].
  unfold gap_rows, feature_rows, iloc_from, select. simpl.
  rewrite <- !List.map_app. f_equal.
  apply rows_three_way; [exact Hlt|].
  apply sorted_map_inv. apply chronological_sorted in Hchr. exact Hchr.
Qed.

Lemma sorted_app_r (l1 l2 : list Z) :
  StronglySorted Z.le (l1 ++ l2) -> StronglySorted Z.le l2.
Proof.
  induction l1 as [|x l1 IH]; simpl; [tauto|].
  intros H. inversion H; subst. now apply IH.
Qed.

Lemma filter_length_mono {A} (p q : A -> bool) l :
  (forall x, In x l -> p x = true -> q x = true) ->
  (List.length (List.filter p l) <= List.length (List.filter q l))%nat.
Proof.
  induction l as [|x l IH]; intros H; simpl; [lia|].
  assert (IH' := IH (fun y Hy => H y (or_intror Hy))).
  destruct (p x) eqn:E.
  - rewrite (H x (or_introl eq_refl) E). simpl. lia.
  - destruct (q x); simpl; lia.
Qed.

Lemma sorted_threshold_app (l1 l2 : list Z) v :
  StronglySorted Z.le (l1 ++ v :: l2) ->
  (List.length (List.filter (fun d : Z => (d <? v)%Z) (l1 ++ v :: l2))
   <= List.length l1)%nat
  /\ (S (List.length l2)
      <= List.length (List.filter (fun d : Z => (v <=? d)%Z) (l1 ++ v :: l2)))%nat.
Proof.
  intros Hs. apply sorted_app_r in Hs.
  inversion Hs as [|? ? _ Hall]; subst. rewrite List.Forall_forall in Hall.
  rewrite !List.filter_app, !List.length_app. simpl.
  rewrite Z.ltb_irrefl, Z.leb_refl. simpl.
  assert (List.filter (fun d => d <? v) l2 = []) as ->.
  { clear -Hall. induction l2 as [|y l2 IH]; simpl; [reflexivity|].
    assert (v <= y) by (apply Hall; now left).
    destruct (y <? v) eqn:E; [apply Z.ltb_lt in E; lia|].
    apply IH. intros; apply Hall; now right. }
  assert (List.filter (fun d => v <=? d) l2 = l2) as ->.
  { clear -Hall. induction l2 as [|y l2 IH]; simpl; [reflexivity|].
    assert (v <= y) by (apply Hall; now left).
    destruct (v <=? y) eqn:E; [|apply Z.leb_gt in E; lia].
    f_equal. apply IH. intros; apply Hall; now right. }
  simpl. pose proof (List.filter_length_le (fun d => d <? v) l1). lia.
Qed.

Lemma sorted_threshold (l : list Z) pos v :
  StronglySorted Z.le l -> nth_error l pos = Some v ->
  (List.length (List.filter (fun d : Z => (d <? v)%Z) l) <= pos)%nat
  /\ (List.length l - pos
      <= List.length (List.filter (fun d : Z => (v <=? d)%Z) l))%nat.
Proof.
  intros Hs Hn. destruct (nth_error_split3 _ _ _ Hn) as [Hsplit Hlen].
  simpl in Hsplit. rewrite Hsplit in Hs.
  destruct (sorted_threshold_app _ _ _ Hs) as [H1 H2].
  rewrite <- Hsplit in H1, H2. rewrite Hlen in H1. split; [exact H1|].
  assert (List.length l = pos + S (List.length (skipn (S pos) l)))%nat.
  { rewrite Hsplit at 1. rewrite List.length_app, Hlen. reflexivity. }
  lia.
Qed.

(** X16.  With the complete rows in chronological order, the training pool
    of [train_val_pool_params] holds at most nine tenths of the complete
    rows and the validation pool at least one tenth of them. *)
Theorem train_validation_shares h self params tr va :
  train_val_pool_params h self params = Return (tr, va) ->
  exists all,
    get_all h self (py_or params (_params self)) = Return all
    /\ (chronological (get_level_values0 (dropna all)) = true ->
        (10 * List.length (rows (data tr)) <= 9 * List.length (rows (dropna all)))%nat
        /\ (List.length (rows (dropna all)) <= 10 * List.length (rows (data va)))%nat).
Proof.
  intros H.
  destruct (train_val_inv _ _ _ _ _ _ H eq_refl)
    as (all & val_start & label_days & train_end & Hall & Hvs & Hld & Hte & Htr & Hva).
  exists all. split; [exact Hall|]. intros Hchr.
  apply chronological_sorted in Hchr.
  destruct (pool_dates _ _ _ _ _ _ _ _ Htr eq_refl) as [Hdt _].
  destruct (pool_dates _ _ _ _ _ _ _ _ Hva eq_refl) as [Hdv _].
  assert (Ht : List.length (rows (data tr)) = List.length (dates_of tr))
    by (unfold dates_of, get_level_values0; now rewrite List.length_map).
  assert (Hv : List.length (rows (data va)) = List.length (dates_of va))
    by (unfold dates_of, get_level_values0; now rewrite List.length_map).
  assert (Hn : List.length (rows (dropna all))
               = List.length (get_level_values0 (dropna all)))
    by (unfold get_level_values0; now rewrite List.length_map).
  rewrite Ht, Hv, Hn, Hdt, Hdv. clear Ht Hv Hn Hdt Hdv.
  set (dates := get_level_values0 (dropna all)) in *.
  assert (Hlt : train_end < val_start).
  { apply getitem_In, unique_In, filter_In in Hte. destruct Hte as [_ Hte].
    now apply Z.ltb_lt in Hte. }
  apply getitem_Return in Hvs. destruct Hvs as (j & Hj & Hjlt & Hpos).
  pose proof (split_position_nonneg (List.length dates)) as Hnn.
  destruct (split_position (List.length dates) <? 0) eqn:B;
    [apply Z.ltb_lt in B; lia|].
  rewrite split_position_spec in Hpos.
  destruct (sorted_threshold dates j val_start Hchr Hj) as [Hbelow Habove].
  pose proof (filter_length_mono (fun d => d <=? train_end) (fun d => d <? val_start)
                dates) as Hmono.
  assert (Hm : (List.length (List.filter (fun d : Z => (d <=? train_end)%Z) dates)
                <= List.length (List.filter (fun d : Z => (d <? val_start)%Z)
                                            dates))%nat).
  { apply Hmono. intros x _ Hx. apply Z.leb_le in Hx. apply Z.ltb_lt. lia. }
  assert (Hdiv : 10 * Z.of_nat j <= 9 * Z.of_nat (List.length dates)
                 /\ 9 * Z.of_nat (List.length dates) < 10 * Z.of_nat j + 10).
  { rewrite Hpos.
    pose proof (Z.mul_div_le (9 * Z.of_nat (List.length dates)) 10 ltac:(lia)).
    pose proof (Z.mul_succ_div_gt (9 * Z.of_nat (List.length dates)) 10 ltac:(lia)).
    lia. }
  lia.
Qed.
End SplitShape.

Section SplitFailures.
Import Examples ExamplesAux ExtraAux Py.

Lemma getitem_out_of_range {A} (l : list A) (i : Z) :
  Z.of_nat (List.length l) <= i \/ i < - Z.of_nat (List.length l) ->
  getitem l i = Raise IndexError.
Proof.
  intros H. unfold getitem.
  destruct (i <? 0) eqn:B.
  - apply Z.ltb_lt in B.
    destruct (0 <=? i + Z.of_nat (List.length l)) eqn:B1; [|reflexivity].
    apply Z.leb_le in B1. lia.
  - apply Z.ltb_ge in B. destruct (0 <=? i) eqn:B1; [|reflexivity].
    destruct (i <? Z.of_nat (List.length l)) eqn:B2; [|reflexivity].
    apply Z.ltb_lt in B2. lia.
Qed.

Lemma getitem_in_range {A} (l : list A) (i : Z) :
  0 <= i < Z.of_nat (List.length l) -> exists x, getitem l i = Return x.
Proof.
  intros H. unfold getitem.
  destruct (i <? 0) eqn:B; [apply Z.ltb_lt in B; lia|].
  destruct (0 <=? i) eqn:B1; [|apply Z.leb_gt in B1; lia].
  destruct (i <? Z.of_nat (List.length l)) eqn:B2; [|apply Z.ltb_ge in B2; lia].
  simpl. destruct (nth_error l (Z.to_nat i)) as [x|] eqn:E; [eauto|].
  apply nth_error_None in E. lia.
Qed.

(** X17.  If no row of the joint table is complete,
    [train_val_pool_params] raises [IndexError]: there is no row from
    which to take the validation start. *)
Theorem train_val_no_complete_row h self params all :
  get_all h self (py_or params (_params self)) = Return all ->
  rows (dropna all) = [] ->
  train_val_pool_params h self params = Raise IndexError.
Proof.
  intros Hall Hempty. unfold train_val_pool_params. rewrite Hall.
  unfold mbind, result_bind, bind, get_level_values0. now rewrite Hempty.
Qed.

(** X18.  If the number of distinct dates before the validation start is
    smaller than the label horizon (in particular if the validation start
    is the earliest complete date), [train_val_pool_params] raises
    [IndexError]: the end of training cannot be rolled back that far. *)
Theorem train_val_too_few_dates h self params all val_start label_days :
  get_all h self (py_or params (_params self)) = Return all ->
  getitem (get_level_values0 (dropna all))
          (split_position (List.length (get_level_values0 (dropna all))))
  = Return val_start ->
  label_days_of h (py_or params (_params self)) = Return label_days ->
  Z.of_nat (List.length (unique (List.filter (fun d => d <? val_start)
                                             (get_level_values0 (dropna all)))))
  < label_days ->
  train_val_pool_params h self params = Raise IndexError.
Proof.
  intros Hall Hvs Hld Hfew. unfold train_val_pool_params. rewrite Hall.
  unfold mbind, result_bind, bind. rewrite Hvs, Hld.
  rewrite getitem_out_of_range; [reflexivity|]. right. lia.
Qed.

(** X19.  If the joint table has a complete row and the dictionary of the
    first entry of the parameter list has no ["days"],
    [train_val_pool_params] raises [KeyError] for that key. *)
Theorem train_val_without_days h self params all p0 rest :
  get_all h self (py_or params (_params self)) = Return all ->
  rows (dropna all) <> [] ->
  py_or params (_params self) = p0 :: rest ->
  deref h (snd p0) !! "days" = None ->
  train_val_pool_params h self params = Raise (KeyError "days").
Proof.
  intros Hall Hrows Hps Hdays. unfold train_val_pool_params. rewrite Hall.
  unfold mbind, result_bind, bind.
  destruct (getitem_in_range (get_level_values0 (dropna all))
              (split_position (List.length (get_level_values0 (dropna all)))))
    as (val_start & ->).
  { split; [apply split_position_nonneg|]. apply split_position_lt.
    unfold get_level_values0. rewrite List.length_map.
    destruct (rows (dropna all)); [contradiction | simpl; lia]. }
  unfold label_days_of. rewrite Hps.
  change (getitem (p0 :: rest) 0) with (Return (A:=string * positive) p0).
  unfold mbind, result_bind, bind, dict_getitem. now rewrite Hdays.
Qed.
End SplitFailures.

Section NamesIgnored.
Import Examples ExamplesAux ExtraAux Py.

Lemma combine_snd_ext {A B} (g : A -> positive -> B) (fs : list A) :
  forall (qs qs' : list (string * positive)),
    List.map snd qs = List.map snd qs' ->
    List.map (fun fp => g (fst fp) (snd (snd fp))) (combine fs qs)
    = List.map (fun fp => g (fst fp) (snd (snd fp))) (combine fs qs').
Proof.
  induction fs as [|f fs IH]; intros [|q qs] [|q' qs'] H; simpl in *;
    try reflexivity; try discriminate.
  injection H as H1 H2. rewrite H1. f_equal. now apply IH.
Qed.

Lemma skipn_map_snd (n : nat) (qs qs' : list (string * positive)) :
  List.map snd qs = List.map snd qs' ->
  List.map snd (skipn n qs) = List.map snd (skipn n qs').
Proof. intros H. rewrite <- !List.skipn_map. now rewrite H. Qed.

Lemma py_or_map_snd (qs qs' d : list (string * positive)) :
  List.map snd qs = List.map snd qs' ->
  List.map snd (py_or (Some qs) d) = List.map snd (py_or (Some qs') d).
Proof.
  intros H. destruct qs as [|q qs]; destruct qs' as [|q' qs']; simpl in *;
    try discriminate; [reflexivity | exact H].
Qed.

Lemma get_all_names_ext h self (qs qs' : list (string * positive)) :
  List.map snd qs = List.map snd qs' -> get_all h self qs = get_all h self qs'.
Proof.
  intros H. unfold get_all, zip.
  now rewrite (combine_snd_ext (get h) _ qs qs' H).
Qed.

Lemma categorical_names_ext h self (qs qs' : list (string * positive)) :
  List.map snd qs = List.map snd qs' ->
  categorical_features h self (Some qs) = categorical_features h self (Some qs').
Proof.
  intros H. rewrite !categorical_features_flags. unfold cat_flags, zip.
  rewrite (combine_snd_ext (is_categorical h) _ _ _
             (skipn_map_snd 1 _ _ (py_or_map_snd _ _ (_params self) H))).
  reflexivity.
Qed.

Lemma label_days_names_ext h (qs qs' : list (string * positive)) :
  List.map snd qs = List.map snd qs' -> label_days_of h qs = label_days_of h qs'.
Proof.
  intros H. unfold label_days_of.
  destruct qs as [|q qs]; destruct qs' as [|q' qs']; simpl in H; try discriminate;
    [reflexivity|].
  injection H as H1 _.
  change (getitem (q :: qs) 0) with (Return (A:=string * positive) q).
  change (getitem (q' :: qs') 0) with (Return (A:=string * positive) q').
  unfold mbind, result_bind, bind. now rewrite H1.
Qed.

Lemma pool_params_names_ext h self (qs qs' : list (string * positive)) df part b :
  List.map snd qs = List.map snd qs' ->
  pool_params h self (Some qs) df part b = pool_params h self (Some qs') df part b.
Proof.
  intros H. unfold pool_params. now rewrite (categorical_names_ext h self qs qs' H).
Qed.

(** X20.  The class names of the parameter list passed to [get_all],
    [categorical_features] or [train_val_pool_params] are never consulted:
    two lists that hold the same dictionaries at the same positions give
    the same result, whatever names they carry. *)
Theorem passed_names_are_ignored h self (qs qs' : list (string * positive)) :
  List.map snd qs = List.map snd qs' ->
  get_all h self qs = get_all h self qs'
  /\ categorical_features h self (Some qs) = categorical_features h self (Some qs')
  /\ train_val_pool_params h self (Some qs) = train_val_pool_params h self (Some qs').
Proof.
  intros H. split; [now apply get_all_names_ext|].
  split; [now apply categorical_names_ext|].
  pose proof (py_or_map_snd qs qs' (_params self) H) as Hq.
  unfold train_val_pool_params.
  set (q := py_or (Some qs) (_params self)) in *.
  set (q' := py_or (Some qs') (_params self)) in *.
  rewrite (get_all_names_ext h self q q' Hq), (label_days_names_ext h q q' Hq).
  unfold mbind, result_bind, bind.
  destruct (get_all h self q') as [all|]; [|reflexivity].
  destruct (getitem _ _) as [val_start|]; [|reflexivity].
  destruct (label_days_of h q') as [label_days|]; [|reflexivity].
  destruct (getitem _ _) as [train_end|]; [|reflexivity].
  rewrite !(pool_params_names_ext h self q q' _ _ _ Hq). reflexivity.
Qed.
End NamesIgnored.

Section ExtraWitnesses.
Import Examples ExamplesAux ExamplesRest ExtraAux Py.

(** [params_space_follows_params] on sample data. *)
Lemma params_space_follows_params_witness :
  exists self h',
    __init__ sample_feature sample_heap ["A"] 12 sample_params = Return (self, h')
    /\ List.map fst (get_params_space col_names self) = List.map fst sample_params
    /\ List.length (get_params_space col_names self) = List.length sample_params.
Proof.
  assert (E : is_raise (__init__ sample_feature sample_heap ["A"] 12 sample_params)
              = false) by (vm_compute; reflexivity).
  destruct (__init__ sample_feature sample_heap ["A"] 12 sample_params)
    as [[self h']|e] eqn:E0; [|discriminate E].
  exists self, h'. split; [reflexivity|].
  exact (params_space_follows_params sample_feature col_names
           sample_heap ["A"] 12 sample_params self h' E0).
Defined.

(** [train_val_pools_aligned] on sample data. *)
Lemma train_val_pools_aligned_witness :
  exists self h tr va,
    __init__ sample_feature sample_heap ["A"; "OLD"] 12 sample_params
    = Return (self, h)
    /\ train_val_pool_params h self None = Return (tr, va)
    /\ aligned tr /\ aligned va
    /\ (exists l, label tr = Some l) /\ (exists l, label va = Some l)
    /\ feature_names tr = feature_names va
    /\ cat_features tr = cat_features va.
Proof.
  assert (E : match __init__ sample_feature sample_heap ["A"; "OLD"] 12 sample_params
              with
              | Return (self, h) => is_raise (train_val_pool_params h self None)
              | Raise _ => true
              end = false) by (vm_compute; reflexivity).
  destruct (__init__ sample_feature sample_heap ["A"; "OLD"] 12 sample_params)
    as [[self h]|e]; [|discriminate E].
  destruct (train_val_pool_params h self None) as [[tr va]|e] eqn:E1;
    [|discriminate E].
  exists self, h, tr, va. split; [reflexivity|]. split; [exact E1|].
  exact (train_val_pools_aligned h self None tr va E1).
Defined.

(** [train_predict_pools_shape] on sample data. *)
Lemma train_predict_pools_shape_witness :
  exists self h tr pr,
    __init__ sample_feature sample_heap ["A"; "OLD"] 12 sample_params
    = Return (self, h)
    /\ train_predict_pool_params h self = Return (tr, pr)
    /\ exists all,
         get_all h self (_params self) = Return all
         /\ index (data pr) = List.filter (fun k => fst k =? _date self) (index all)
         /\ (forall d, In d (dates_of pr) -> d = _date self)
         /\ label pr = None
         /\ index (data tr) = index (dropna all)
         /\ aligned tr /\ aligned pr
         /\ feature_names pr = feature_names tr
         /\ cat_features pr = cat_features tr.
Proof.
  assert (E : match __init__ sample_feature sample_heap ["A"; "OLD"] 12 sample_params
              with
              | Return (self, h) => is_raise (train_predict_pool_params h self)
              | Raise _ => true
              end = false) by (vm_compute; reflexivity).
  destruct (__init__ sample_feature sample_heap ["A"; "OLD"] 12 sample_params)
    as [[self h]|e]; [|discriminate E].
  destruct (train_predict_pool_params h self) as [[tr pr]|e] eqn:E1;
    [|discriminate E].
  exists self, h, tr, pr. split; [reflexivity|]. split; [exact E1|].
  exact (train_predict_pools_shape h self tr pr E1).
Defined.

(** [training_pools_complete] on sample data. *)
Lemma training_pools_complete_witness :
  exists self h,
    __init__ sample_feature sample_heap ["A"; "FLAT"] 12 sample_params
    = Return (self, h)
    /\ well_formed self
    /\ (forall params tr va,
           train_val_pool_params h self params = Return (tr, va) ->
           complete tr /\ complete va)
    /\ (forall tr pr,
           train_predict_pool_params h self = Return (tr, pr) -> complete tr).
Proof.
  assert (E : is_raise (__init__ sample_feature sample_heap ["A"; "FLAT"] 12
                          sample_params) = false) by (vm_compute; reflexivity).
  destruct (__init__ sample_feature sample_heap ["A"; "FLAT"] 12 sample_params)
    as [[self h]|e] eqn:E0; [|discriminate E].
  assert (W : well_formed self).
  { eapply init_well_formed; [apply sample_feature_rectangular | exact E0]. }
  exists self, h. split; [reflexivity|]. split; [exact W|].
  exact (training_pools_complete h self W).
Defined.

(** [train_gap_validation_partition] on sample data. *)
Lemma train_gap_validation_partition_witness :
  exists self h tr va all0,
    __init__ sample_feature sample_heap ["A"] 12 sample_params = Return (self, h)
    /\ train_val_pool_params h self None = Return (tr, va)
    /\ get_all h self (py_or None (_params self)) = Return all0
    /\ chronological (get_level_values0 (dropna all0)) = true
    /\ exists all train_end val_start,
         get_all h self (py_or None (_params self)) = Return all
         /\ train_end < val_start
         /\ (chronological (get_level_values0 (dropna all)) = true ->
             feature_rows (dropna all)
             = rows (data tr) ++ gap_rows train_end val_start (dropna all)
                 ++ rows (data va)).
Proof.
  assert (E : match __init__ sample_feature sample_heap ["A"] 12 sample_params with
              | Return (self, h) =>
                  match train_val_pool_params h self None,
                        get_all h self (py_or None (_params self)) with
                  | Return _, Return all =>
                      chronological (get_level_values0 (dropna all))
                  | _, _ => false
                  end
              | Raise _ => false
              end = true) by (vm_compute; reflexivity).
  destruct (__init__ sample_feature sample_heap ["A"] 12 sample_params)
    as [[self h]|e]; [|discriminate E].
  destruct (train_val_pool_params h self None) as [[tr va]|e] eqn:E1;
    [|discriminate E].
  destruct (get_all h self (py_or None (_params self))) as [all0|e] eqn:E2;
    [|discriminate E].
  exists self, h, tr, va, all0.
  split; [reflexivity|]. split; [exact E1|]. split; [exact E2|].
  split; [exact E|].
  exact (train_gap_validation_partition h self None tr va E1).
Defined.

(** [train_validation_shares] on sample data. *)
Lemma train_validation_shares_witness :
  exists self h tr va all0,
    __init__ sample_feature sample_heap ["A"; "FLAT"] 12 sample_params
    = Return (self, h)
    /\ train_val_pool_params h self None = Return (tr, va)
    /\ get_all h self (py_or None (_params self)) = Return all0
    /\ chronological (get_level_values0 (dropna all0)) = true
    /\ exists all,
         get_all h self (py_or None (_params self)) = Return all
         /\ (chronological (get_level_values0 (dropna all)) = true ->
             (10 * List.length (rows (data tr))
              <= 9 * List.length (rows (dropna all)))%nat
             /\ (List.length (rows (dropna all))
                 <= 10 * List.length (rows (data va)))%nat).
Proof.
  assert (E : match __init__ sample_feature sample_heap ["A"; "FLAT"] 12 sample_params
              with
              | Return (self, h) =>
                  match train_val_pool_params h self None,
                        get_all h self (py_or None (_params self)) with
                  | Return _, Return all =>
                      chronological (get_level_values0 (dropna all))
                  | _, _ => false
                  end
              | Raise _ => false
              end = true) by (vm_compute; reflexivity).
  destruct (__init__ sample_feature sample_heap ["A"; "FLAT"] 12 sample_params)
    as [[self h]|e]; [|discriminate E].
  destruct (train_val_pool_params h self None) as [[tr va]|e] eqn:E1;
    [|discriminate E].
  destruct (get_all h self (py_or None (_params self))) as [all0|e] eqn:E2;
    [|discriminate E].
  exists self, h, tr, va, all0.
  split; [reflexivity|]. split; [exact E1|]. split; [exact E2|].
  split; [exact E|].
  exact (train_validation_shares h self None tr va E1).
Defined.

(** [train_val_no_complete_row] on sample data. *)
Lemma train_val_no_complete_row_witness :
  exists self h all,
    __init__ sample_feature sample_heap ["A"] 0 sample_params = Return (self, h)
    /\ get_all h self (py_or None (_params self)) = Return all
    /\ rows (dropna all) = []
    /\ train_val_pool_params h self None = Raise IndexError.
Proof.
  assert (E : match __init__ sample_feature sample_heap ["A"] 0 sample_params with
              | Return (self, h) =>
                  match get_all h self (py_or None (_params self)) with
                  | Return all => (List.length (rows (dropna all)) =? 0)%nat
                  | Raise _ => false
                  end
              | Raise _ => false
              end = true) by (vm_compute; reflexivity).
  destruct (__init__ sample_feature sample_heap ["A"] 0 sample_params)
    as [[self h]|e]; [|discriminate E].
  destruct (get_all h self (py_or None (_params self))) as [all|e] eqn:E2;
    [|discriminate E].
  apply Nat.eqb_eq in E. apply List.length_zero_iff_nil in E.
  exists self, h, all.
  split; [reflexivity|]. split; [exact E2|]. split; [exact E|].
  exact (train_val_no_complete_row h self None all E2 E).
Defined.

(** [train_val_too_few_dates] on sample data. *)
Lemma train_val_too_few_dates_witness :
  exists self h all val_start,
    __init__ sample_feature sample_heap ["A"] 4 sample_params = Return (self, h)
    /\ get_all h self (py_or None (_params self)) = Return all
    /\ getitem (get_level_values0 (dropna all))
               (split_position (List.length (get_level_values0 (dropna all))))
       = Return val_start
    /\ label_days_of h (py_or None (_params self)) = Return 2
    /\ Z.of_nat (List.length (unique (List.filter (fun d => d <? val_start)
                                        (get_level_values0 (dropna all))))) < 2
    /\ train_val_pool_params h self None = Raise IndexError.
Proof.
  assert (E : match __init__ sample_feature sample_heap ["A"] 4 sample_params with
              | Return (self, h) =>
                  match get_all h self (py_or None (_params self)),
                        label_days_of h (py_or None (_params self)) with
                  | Return all, Return ld =>
                      match getitem (get_level_values0 (dropna all))
                              (split_position
                                 (List.length (get_level_values0 (dropna all)))) with
                      | Return val_start =>
                          (ld =? 2)
                          && (Z.of_nat
                                (List.length
                                   (unique (List.filter (fun d => d <? val_start)
                                              (get_level_values0 (dropna all)))))
                              <? 2)
                      | Raise _ => false
                      end
                  | _, _ => false
                  end
              | Raise _ => false
              end = true) by (vm_compute; reflexivity).
  destruct (__init__ sample_feature sample_heap ["A"] 4 sample_params)
    as [[self h]|e]; [|discriminate E].
  destruct (get_all h self (py_or None (_params self))) as [all|e] eqn:E2;
    [|discriminate E].
  destruct (label_days_of h (py_or None (_params self))) as [ld|e] eqn:E3;
    [|discriminate E].
  destruct (getitem (get_level_values0 (dropna all))
              (split_position (List.length (get_level_values0 (dropna all)))))
    as [val_start|e] eqn:E4; [|discriminate E].
  apply andb_true_iff in E. destruct E as [El Ef].
  apply Z.eqb_eq in El. subst ld. apply Z.ltb_lt in Ef.
  exists self, h, all, val_start.
  split; [reflexivity|]. split; [exact E2|]. split; [exact E4|].
  split; [exact E3|]. split; [exact Ef|].
  exact (train_val_too_few_dates h self None all val_start 2 E2 E4 E3 Ef).
Defined.

(** [train_val_without_days] on sample data. *)
Lemma train_val_without_days_witness :
  exists self h all,
    __init__ sample_feature sample_heap ["A"] 12
             [("Label", 3%positive); ("Scaler", 2%positive)] = Return (self, h)
    /\ get_all h self (py_or None (_params self)) = Return all
    /\ rows (dropna all) <> []
    /\ py_or None (_params self) = [("Label", 3%positive); ("Scaler", 2%positive)]
    /\ deref h 3%positive !! "days" = None
    /\ train_val_pool_params h self None = Raise (KeyError "days").
Proof.
  assert (E : match __init__ sample_feature sample_heap ["A"] 12
                      [("Label", 3%positive); ("Scaler", 2%positive)] with
              | Return (self, h) =>
                  match get_all h self (py_or None (_params self)),
                        py_or None (_params self) with
                  | Return all, [(_, 3%positive); (_, 2%positive)] =>
                      negb (List.length (rows (dropna all)) =? 0)%nat
                      && match deref h 3%positive !! "days" with
                         | None => true
                         | Some _ => false
                         end
                  | _, _ => false
                  end
              | Raise _ => false
              end = true) by (vm_compute; reflexivity).
  assert (P : match __init__ sample_feature sample_heap ["A"] 12
                      [("Label", 3%positive); ("Scaler", 2%positive)] with
              | Return (self, h) =>
                  py_or None (_params self)
                  = [("Label", 3%positive); ("Scaler", 2%positive)]
              | Raise _ => True
              end) by (vm_compute; reflexivity).
  destruct (__init__ sample_feature sample_heap ["A"] 12
              [("Label", 3%positive); ("Scaler", 2%positive)])
    as [[self h]|e]; [|discriminate E].
  destruct (get_all h self (py_or None (_params self))) as [all|e] eqn:E2;
    [|discriminate E].
  rewrite P in E.
  apply andb_true_iff in E. destruct E as [Er Ed].
  assert (Hrows : rows (dropna all) <> []).
  { intros Hn. rewrite Hn in Er. discriminate Er. }
  assert (Hdays : deref h 3%positive !! "days" = None).
  { destruct (deref h 3%positive !! "days"); [discriminate Ed | reflexivity]. }
  exists self, h, all.
  split; [reflexivity|]. split; [exact E2|]. split; [exact Hrows|].
  split; [exact P|]. split; [exact Hdays|].
  exact (train_val_without_days h self None all ("Label", 3%positive)
           [("Scaler", 2%positive)] E2 Hrows P Hdays).
Defined.

(** [passed_names_are_ignored] on sample data. *)
Lemma passed_names_are_ignored_witness :
  exists self h,
    __init__ sample_feature sample_heap ["A"] 12 sample_params = Return (self, h)
    /\ List.map snd sample_params
       = List.map snd [("Mom1m", 1%positive); ("", 2%positive); ("Label", 3%positive)]
    /\ get_all h self sample_params
       = get_all h self [("Mom1m", 1%positive); ("", 2%positive); ("Label", 3%positive)]
    /\ categorical_features h self (Some sample_params)
       = categorical_features h self
           (Some [("Mom1m", 1%positive); ("", 2%positive); ("Label", 3%positive)])
    /\ train_val_pool_params h self (Some sample_params)
       = train_val_pool_params h self
           (Some [("Mom1m", 1%positive); ("", 2%positive); ("Label", 3%positive)]).
Proof.
  assert (E : is_raise (__init__ sample_feature sample_heap ["A"] 12 sample_params)
              = false) by (vm_compute; reflexivity).
  destruct (__init__ sample_feature sample_heap ["A"] 12 sample_params)
    as [[self h]|e]; [|discriminate E].
  exists self, h. split; [reflexivity|]. split; [reflexivity|].
  exact (passed_names_are_ignored h self sample_params
           [("Mom1m", 1%positive); ("", 2%positive); ("Label", 3%positive)] eq_refl).
Defined.
End ExtraWitnesses.

Section ListingRows.
Import Moex MoexGuard ListingAux Py.

Lemma none_if_empty_kept (x : string) : kept_text x (none_if_empty x).
Proof.
  unfold none_if_empty, kept_text. destruct x as [|a x]; simpl; [reflexivity|].
  split; [reflexivity | discriminate].
Qed.

(** X21.  When the listing file is read, [SecuritiesListing._download] of
    the listing sends that one request and returns one record per row of
    the file, in the order of the file, each with the ticker, the
    registration number and the registration date under the project's
    column names; a non-empty text is kept as it is and an empty one
    becomes [None], so no record holds an empty text. *)
Theorem listing_rows_without_empty_texts
    (e : env) (last_index : option Z) (log : list request)
    (df : list (string * string * string)) :
  read_csv e URL = Return df ->
  exists records,
    SecuritiesListing_download e LISTING last_index log
    = (Return records, log ++ [ReadCsv URL])
    /\ Forall2 (fun row rec =>
                  exists code number date,
                    rec = [(TICKER e, code); (REG_NUMBER e, number); (DATE e, date)]
                    /\ kept_text (fst (fst row)) code
                    /\ kept_text (snd (fst row)) number
                    /\ kept_text (snd row) date)
               df records
    /\ (forall rec k v, In rec records -> In (k, v) rec -> v <> VStr "").
Proof.
  intros Hcsv. eexists. split.
  { unfold SecuritiesListing_download. rewrite String.eqb_refl. simpl.
    unfold bindM, call, ret. rewrite Hcsv. reflexivity. }
  assert (F : Forall2 (fun row rec =>
                  exists code number date,
                    rec = [(TICKER e, code); (REG_NUMBER e, number); (DATE e, date)]
                    /\ kept_text (fst (fst row)) code
                    /\ kept_text (snd (fst row)) number
                    /\ kept_text (snd row) date)
               df
               (List.map (fun '(code, number, date) =>
                            [(TICKER e, none_if_empty code);
                             (REG_NUMBER e, none_if_empty number);
                             (DATE e, none_if_empty date)]) df)).
  { clear Hcsv. induction df as [|[[code number] date] df IH]; simpl; constructor;
      [|exact IH].
    exists (none_if_empty code), (none_if_empty number), (none_if_empty date).
    simpl. auto using none_if_empty_kept. }
  split; [exact F|].
  intros rec k v Hrec Hv. clear Hcsv.
  induction F as [|row rec0 rows recs (code & number & date & -> & Hc & Hn & Hd) _ IH];
    [destruct Hrec|].
  destruct Hrec as [<-|Hrec]; [|now apply IH].
  simpl in Hv. intros ->.
  destruct Hv as [[= _ ->]|[[= _ ->]|[[= _ ->]|[]]]]; simpl in *;
    [destruct Hc as [E H] | destruct Hn as [E H] | destruct Hd as [E H]];
    apply H; now rewrite <- E.
Qed.

(** [listing_rows_without_empty_texts] on sample data. *)
Lemma listing_rows_without_empty_texts_witness :
  read_csv sample_csv_env URL = Return sample_csv
  /\ exists records,
       SecuritiesListing_download sample_csv_env LISTING None []
       = (Return records, [] ++ [ReadCsv URL])
       /\ Forall2 (fun row rec =>
                     exists code number date,
                       rec = [(TICKER sample_csv_env, code);
                              (REG_NUMBER sample_csv_env, number);
                              (DATE sample_csv_env, date)]
                       /\ kept_text (fst (fst row)) code
                       /\ kept_text (snd (fst row)) number
                       /\ kept_text (snd row) date)
                  sample_csv records
       /\ (forall rec k v, In rec records -> In (k, v) rec -> v <> VStr "").
Proof.
  split; [reflexivity|].
  exact (listing_rows_without_empty_texts sample_csv_env None [] sample_csv eq_refl).
Defined.
End ListingRows.
